(** * PDF to Markdown converter: table orchestration and conversion drivers

    A shallow embedding of [convert_pdf.updated.py] (the current revision of
    the script; [convert_pdf.py] is its predecessor without table
    extraction) and the properties of its table de-duplication, its
    multi-strategy table extraction and its two conversion entry points.

    Conventions of the embedding:
    - a Python [str] is a list of Unicode code points ([str], numbers in [N]);
      literals are written [lit "..."];
    - a Python [float] is an IEEE binary64 number, Rocq's primitive [float];
    - a Python [int] is a [Z]; an index produced by [enumerate] is a [nat];
    - a byte of a file is its value, a number in [N];
    - a raised exception is the left summand of [Exc];
    - PyMuPDF, pymupdf4llm, the file system and the process environment are
      the outside world: objects handed over by the libraries are records of
      the attributes and methods the script uses, the file system and the
      environment are part of the [World] that the code threads through, and
      every call that reaches a library or the disk is recorded in the
      world's [log];
    - console output ([print]) and the command line front end ([main]) are
      not modelled. *)

From Stdlib Require Import Floats ZArith NArith List Bool Ascii String Lia.
From Stdlib Require Import DecimalPos.
From stdpp Require Import gmap strings list.
Import ListNotations.

(** ** Python strings *)

Abbreviation str := (list N).

Definition lit (s : string) : str :=
  map N_of_ascii (list_ascii_of_string s).

(** The line feed, ["\n"] in Python. *)
Definition NL : str := [10%N].

(** [str.join] *)
Fixpoint join (sep : str) (parts : list str) : str :=
  match parts with
  | [] => []
  | [p] => p
  | p :: rest => p ++ sep ++ join sep rest
  end.

(** The code points Python's [str.isspace] accepts, which are the ones
    [str.strip] and [str.rstrip] remove when called without argument. *)
Definition isspace (c : N) : bool :=
  ((9 <=? c) && (c <=? 13) || (28 <=? c) && (c <=? 32)
   || (c =? 0x85) || (c =? 0xA0) || (c =? 0x1680)
   || (0x2000 <=? c) && (c <=? 0x200A)
   || (c =? 0x2028) || (c =? 0x2029) || (c =? 0x202F)
   || (c =? 0x205F) || (c =? 0x3000))%N.

Fixpoint lstrip (s : str) : str :=
  match s with
  | c :: rest => if isspace c then lstrip rest else s
  | [] => []
  end.

Definition rstrip (s : str) : str := rev (lstrip (rev s)).

Definition strip (s : str) : str := rstrip (lstrip s).

(** [str.lower], on ASCII letters. Outside ASCII Python's lower-casing never
    produces one of the characters of [".pdf"], and the comparison with that
    literal is the only use the script makes of [lower]. *)
Definition lower_char (c : N) : N :=
  if ((65 <=? c) && (c <=? 90))%N then (c + 32)%N else c.

Definition lower (s : str) : str := map lower_char s.

(** [str.rfind] for a one-character needle. *)
Fixpoint rfind (c : N) (s : str) : option nat :=
  match s with
  | [] => None
  | x :: rest =>
      match rfind c rest with
      | Some i => Some (S i)
      | None => if (x =? c)%N then Some 0 else None
      end
  end.

(** [str.split(sep)] for a one-character separator. *)
Fixpoint split (sep : N) (s : str) : list str :=
  match s with
  | [] => [[]]
  | c :: rest =>
      if (c =? sep)%N then [] :: split sep rest
      else match split sep rest with
           | w :: ws => (c :: w) :: ws
           | [] => [[c]]
           end
  end.

(** *** Decimal formatting of integers *)

Fixpoint chars_of_uint (d : Decimal.uint) : str :=
  match d with
  | Decimal.Nil => []
  | Decimal.D0 d => 48%N :: chars_of_uint d
  | Decimal.D1 d => 49%N :: chars_of_uint d
  | Decimal.D2 d => 50%N :: chars_of_uint d
  | Decimal.D3 d => 51%N :: chars_of_uint d
  | Decimal.D4 d => 52%N :: chars_of_uint d
  | Decimal.D5 d => 53%N :: chars_of_uint d
  | Decimal.D6 d => 54%N :: chars_of_uint d
  | Decimal.D7 d => 55%N :: chars_of_uint d
  | Decimal.D8 d => 56%N :: chars_of_uint d
  | Decimal.D9 d => 57%N :: chars_of_uint d
  end.

(** [str(z)], which is also what [f"{z}"] inserts. *)
Definition str_of_Z (z : Z) : str :=
  match z with
  | Z0 => [48%N]
  | Zpos p => chars_of_uint (Pos.to_uint p)
  | Zneg p => 45%N :: chars_of_uint (Pos.to_uint p)
  end.

Definition zfill (width : nat) (digits : str) : str :=
  repeat 48%N (width - length digits) ++ digits.

(** [f"{z:03d}"]: at least three characters, the sign included, padded with
    zeros after the sign. *)
Definition format_03d (z : Z) : str :=
  match z with
  | Zneg p => 45%N :: zfill 2 (chars_of_uint (Pos.to_uint p))
  | _ => zfill 3 (str_of_Z z)
  end.

(** ** Exceptions *)

Inductive exn_class :=
  | FileNotFoundError
  | FileExistsError
  | IsADirectoryError
  | ValueError
  | AttributeError
  | UnicodeEncodeError
  | LibraryError.   (* whatever else PyMuPDF or pymupdf4llm raise *)

Record exn := Raise { exn_cls : exn_class; exn_msg : str }.

Definition Exc (A : Type) : Type := (exn + A)%type.

(** ** pathlib (POSIX flavour) *)

Record Path := MkPath { root : str; tail : list str }.

Global Instance Path_eq_dec : EqDecision Path.
Proof. solve_decision. Defined.

Global Instance Path_countable : Countable Path.
Proof.
  refine (inj_countable' (fun p => (root p, tail p))
                         (fun t => MkPath t.1 t.2) _).
  by intros [].
Defined.

(** [posixpath.splitroot]: one leading slash, or three and more, make the
    root ["/"]; exactly two make it ["//"]. *)
Definition splitroot (p : str) : str * str :=
  match p with
  | 47%N :: 47%N :: 47%N :: _ => (lit "/", List.tl p)
  | 47%N :: 47%N :: rest => (lit "//", rest)
  | 47%N :: rest => (lit "/", rest)
  | _ => ([], p)
  end.

Definition is_component (x : str) : bool :=
  negb (bool_decide (x = [])) && negb (bool_decide (x = lit ".")).

(** [Path(s)] *)
Definition parse_path (s : str) : Path :=
  let '(r, rel) := splitroot s in
  MkPath r (List.filter is_component (split 47%N rel)).

(** [str(p)] *)
Definition path_str (p : Path) : str :=
  match root p, tail p with
  | [], [] => lit "."
  | r, t => r ++ join (lit "/") t
  end.

(** [p.name] *)
Definition name (p : Path) : str := List.last (tail p) [].

(** [p.suffix]: from the last dot of the name on, unless that dot is the
    first or the last character of the name. *)
Definition suffix (p : Path) : str :=
  let n := name p in
  match rfind 46%N n with
  | Some i => if (0 <? i)%nat && (i <? length n - 1)%nat then drop i n else []
  | None => []
  end.

(** [p.stem] *)
Definition stem (p : Path) : str :=
  let n := name p in
  match rfind 46%N n with
  | Some i => if (0 <? i)%nat && (i <? length n - 1)%nat then take i n else n
  | None => n
  end.

(** [p.parent] *)
Definition parent (p : Path) : Path :=
  MkPath (root p) (removelast (tail p)).

(** [p / key] *)
Definition joinpath (p : Path) (key : str) : Path :=
  let k := parse_path key in
  match root k with
  | [] => MkPath (root p) (tail p ++ tail k)
  | _ => k
  end.

(** [p.with_suffix(sfx)] for a well-formed [sfx] such as [".md"]. *)
Definition with_suffix (p : Path) (sfx : str) : Exc Path :=
  match name p with
  | [] => inl (Raise ValueError (path_str p ++ lit " has an empty name"))
  | _ => inr (MkPath (root p) (removelast (tail p) ++ [stem p ++ sfx]))
  end.

(** ** Rectangles and the de-duplication check *)

Definition BBox : Type := float * float * float * float.

(** [abs(c - b) < 2] *)
Definition within_tolerance (c b : float) : bool :=
  PrimFloat.ltb (PrimFloat.abs (PrimFloat.sub c b)) 2%float.

Fixpoint _dedupe_bboxes (bboxes : list BBox) (bbox : BBox) : bool :=
  let '(x0, y0, x1, y1) := bbox in
  match bboxes with
  | [] => false
  | (bx0, by0, bx1, by1) :: rest =>
      if within_tolerance x0 bx0 && within_tolerance y0 by0
         && within_tolerance x1 bx1 && within_tolerance y1 by1
      then true
      else _dedupe_bboxes rest bbox
  end.

(** ** Objects handed over by PyMuPDF and pymupdf4llm *)

(** A [pymupdf.table.Table]. An attribute the object lacks is [None]: the
    script reads the three data attributes through [getattr] with a
    default. *)
Record Table := MkTable {
  row_count : option Z;
  col_count : option Z;
  bbox : option BBox;
  to_markdown : bool -> bool -> Exc str   (* clean, fill_empty *)
}.

(** What [Page.find_tables] returns; [tables] is [None] when the attribute
    is missing or holds [None]. *)
Record TableFinder := MkTableFinder { tables : option (list Table) }.

Record Page := MkPage {
  find_tables : str -> gmap string Z -> Exc TableFinder
}.

Record Document := MkDocument {
  page_count : nat;
  getitem : Z -> Exc Page      (* doc[pno] *)
}.

(** The keyword arguments [_p4llm_kwargs] builds for
    [pymupdf4llm.to_markdown]. *)
Record P4llmKwargs := MkKwargs {
  kw_page_chunks : bool;
  kw_write_images : bool;
  kw_embed_images : bool;
  kw_force_text : bool;
  kw_use_ocr : bool;
  kw_ocr_dpi : Z;
  kw_header : bool;
  kw_footer : bool;
  kw_page_separators : bool;
  kw_show_progress : bool;
  kw_fontsize_limit : Z;
  kw_table_strategy : str
}.

(** One record of the per-page result of the renderer: a dictionary, of
    which the script reads the key ["text"]. *)
Abbreviation page_dict := (gmap string str).

(** The renderer returns one string, or one record per page when asked for
    page chunks. *)
Definition rendered (kw : P4llmKwargs) : Type :=
  if kw_page_chunks kw then list page_dict else str.

(** The library functions the script calls. *)
Record Extern := MkExtern {
  pymupdf_open : Path -> list N -> Exc Document;   (* path, content *)
  pymupdf4llm_to_markdown : Document -> forall kw : P4llmKwargs, Exc (rendered kw);
  pymupdf_get_tessdata : Exc (option str)
}.

(** ** The world: file system, environment, and the record of calls *)

Inductive node :=
  | Dir
  | File (bytes : list N).

Inductive event :=
  | EvOpen (p : Path)
  | EvToMarkdown (kw : P4llmKwargs)
  | EvFindTables (pno : Z) (strategy : str) (kwargs : gmap string Z)
  | EvMkdir (p : Path)
  | EvWriteText (p : Path) (text : str).

Record World := MkWorld {
  fs : gmap Path node;
  environ : gmap string str;
  log : list event
}.

Definition set_fs (f : gmap Path node) (w : World) : World :=
  MkWorld f (environ w) (log w).
Definition set_environ (e : gmap string str) (w : World) : World :=
  MkWorld (fs w) e (log w).
Definition add_log (evs : list event) (w : World) : World :=
  MkWorld (fs w) (environ w) (log w ++ evs).

(** ** The monad of the script: state and exceptions *)

Definition M (A : Type) : Type := World -> Exc A * World.

Global Instance M_ret : MRet M := fun A a w => (inr a, w).

Global Instance M_bind : MBind M := fun A B k c w =>
  match c w with
  | (inr a, w') => k a w'
  | (inl e, w') => (inl e, w')
  end.

Definition raise {A} (cls : exn_class) (msg : str) : M A :=
  fun w => (inl (Raise cls msg), w).

(** The outcome of a library call, which is a value or an exception. *)
Definition lift {A} (r : Exc A) : M A := fun w => (r, w).

(** [try: c] followed by [except Exception], which gets the exception. *)
Definition attempt {A} (c : M A) : M (Exc A) :=
  fun w => let '(r, w') := c w in (inr r, w').

Definition emit (ev : event) : M unit := fun w => (inr tt, add_log [ev] w).

(** A [for] loop that threads the variables it updates. *)
Fixpoint for_each {S A} (body : S -> A -> M S) (l : list A) (s : S) : M S :=
  match l with
  | [] => mret s
  | a :: rest => s' ← body s a; for_each body rest s'
  end.

(** The same for a loop whose body touches nothing but local variables and
    may raise. *)
Fixpoint for_each_exc {S A} (body : S -> A -> Exc S) (l : list A) (s : S) : Exc S :=
  match l with
  | [] => inr s
  | a :: rest =>
      match body s a with
      | inr s' => for_each_exc body rest s'
      | inl e => inl e
      end
  end.

(** *** File-system calls *)

Definition is_dir (w : World) (p : Path) : bool :=
  match fs w !! p with Some Dir => true | _ => false end.

(** [p.exists()] *)
Definition exists_ (p : Path) : M bool :=
  fun w => (inr (bool_decide (is_Some (fs w !! p))), w).

(** [p.mkdir(exist_ok=True)] *)
Definition mkdir_exist_ok (p : Path) : M unit :=
  emit (EvMkdir p) ;;
  ((fun w =>
     match fs w !! p with
     | Some Dir => (inr tt, w)
     | Some (File _) => (inl (Raise FileExistsError (path_str p)), w)
     | None =>
         if is_dir w (parent p) then (inr tt, set_fs (<[p := Dir]> (fs w)) w)
         else (inl (Raise FileNotFoundError (path_str p)), w)
     end) : M unit).

(** UTF-8 *)
Definition utf8_char (c : N) : list N :=
  (if c <? 0x80 then [c]
   else if c <? 0x800 then [0xC0 + c / 64; 0x80 + c mod 64]
   else if c <? 0x10000 then
     [0xE0 + c / 4096; 0x80 + (c / 64) mod 64; 0x80 + c mod 64]
   else
     [0xF0 + c / 262144; 0x80 + (c / 4096) mod 64;
      0x80 + (c / 64) mod 64; 0x80 + c mod 64])%N.

Definition utf8 (s : str) : list N := flat_map utf8_char s.

(** A lone surrogate has no UTF-8 encoding. *)
Definition encodable (c : N) : bool :=
  negb ((0xD800 <=? c) && (c <=? 0xDFFF))%N.

(** [p.write_text(text, encoding="utf-8")]: the file is created or truncated
    when it is opened, before the text is encoded. *)
Definition write_text (p : Path) (text : str) : M unit :=
  emit (EvWriteText p text) ;;
  ((fun w =>
     if is_dir w p then (inl (Raise IsADirectoryError (path_str p)), w)
     else if negb (is_dir w (parent p)) then
       (inl (Raise FileNotFoundError (path_str p)), w)
     else if forallb encodable text then
       (inr tt, set_fs (<[p := File (utf8 text)]> (fs w)) w)
     else (inl (Raise UnicodeEncodeError (lit "surrogates not allowed")),
           set_fs (<[p := File []]> (fs w)) w)) : M unit).

Section Script.

Variable X : Extern.

(** *** Library calls *)

(** [pymupdf.open(p)] *)
Definition open_document (p : Path) : M Document :=
  emit (EvOpen p) ;;
  ((fun w =>
     match fs w !! p with
     | Some (File bytes) => (pymupdf_open X p bytes, w)
     | Some Dir => (inl (Raise LibraryError (lit "is no file")), w)
     | None => (inl (Raise LibraryError (lit "no such file")), w)
     end) : M Document).

(** [pymupdf4llm.to_markdown(doc=doc, **kw)] *)
Definition to_markdown_call (doc : Document) (kw : P4llmKwargs) : M (rendered kw) :=
  emit (EvToMarkdown kw) ;; lift (pymupdf4llm_to_markdown X doc kw).

(** [page.find_tables(strategy=strat, **extra_kwargs)], [page] being
    [doc[pno]] *)
Definition find_tables_call (pno : Z) (page : Page) (strat : str)
    (extra_kwargs : gmap string Z) : M TableFinder :=
  emit (EvFindTables pno strat extra_kwargs) ;;
  lift (find_tables page strat extra_kwargs).

(** ** The script *)

Definition _ensure_tessdata_prefix : M unit :=
  fun w =>
    match environ w !! "TESSDATA_PREFIX"%string with
    | Some (_ :: _) => (inr tt, w)
    | _ =>
        let tessdata := match pymupdf_get_tessdata X with
                        | inr t => t
                        | inl _ => None
                        end in
        match tessdata with
        | Some ((_ :: _) as t) =>
            (inr tt, set_environ (<["TESSDATA_PREFIX"%string := t]> (environ w)) w)
        | _ => (inr tt, w)
        end
    end.

Definition _p4llm_kwargs (page_chunks use_ocr header footer : bool) : P4llmKwargs :=
  {| kw_page_chunks := page_chunks;
     kw_write_images := false;
     kw_embed_images := false;
     kw_force_text := true;
     kw_use_ocr := use_ocr;
     kw_ocr_dpi := 400;
     kw_header := header;
     kw_footer := footer;
     kw_page_separators := true;
     kw_show_progress := true;
     kw_fontsize_limit := 0;
     kw_table_strategy := lit "lines_strict" |}.

(** *** [extract_tables_markdown] *)

Definition strategies : list (str * gmap string Z) :=
  [ (lit "lines_strict", ∅);
    (lit "lines", ∅);
    (lit "text", <["min_words_vertical"%string := 3%Z]>
                 (<["min_words_horizontal"%string := 1%Z]> ∅)) ].

(** [getattr(obj, attribute, default)] *)
Definition getattr {A} (attribute : option A) (default : A) : A :=
  match attribute with Some a => a | None => default end.

(** [obj.attribute] *)
Definition attr {A} (attribute : option A) (attr_name : string) : Exc A :=
  match attribute with
  | Some a => inr a
  | None => inl (Raise AttributeError (lit attr_name))
  end.

(** The variables of the scan: [seen_bboxes] lives for the whole call,
    [page_tables] for one page. *)
Definition Scan : Type := list BBox * list (str * Table).

(** Body of the loop over the tables of one strategy. *)
Definition consider (strat : str) (st : Scan) (t : Table) : Scan :=
  let '(seen_bboxes, page_tables) := st in
  if (getattr (row_count t) 0 <? 2)%Z || (getattr (col_count t) 0 <? 2)%Z then st
  else
    let b := getattr (bbox t) (0, 0, 0, 0)%float in
    if _dedupe_bboxes seen_bboxes b then st
    else (seen_bboxes ++ [b], page_tables ++ [(strat, t)]).

(** Body of the loop over the strategies. *)
Definition try_strategy (pno : Z) (page : Page) (st : Scan)
    (s : str * gmap string Z) : M Scan :=
  let '(strat, extra_kwargs) := s in
  r ← attempt (find_tables_call pno page strat extra_kwargs);
  match r with
  | inl _ => mret st
  | inr tf => mret (fold_left (consider strat) (getattr (tables tf) []) st)
  end.

Definition table_heading (i : nat) (strat : str) (rows cols : Z) : str :=
  lit "### Table " ++ str_of_Z (Z.of_nat i) ++ lit " (strategy=" ++ strat
  ++ lit ", rows=" ++ str_of_Z rows ++ lit ", cols=" ++ str_of_Z cols ++ lit ")".

(** Body of the loop that renders the tables of a page; [i] counts from 1. *)
Definition render_table (out : list str) (it : nat * (str * Table)) : Exc (list str) :=
  let '(i, (strat, t)) := it in
  match attr (row_count t) "row_count", attr (col_count t) "col_count" with
  | inl e, _ => inl e
  | _, inl e => inl e
  | inr rows, inr cols =>
      let out := out ++ [table_heading i strat rows cols] in
      let out :=
        match to_markdown t false true with
        | inr md => out ++ [strip md]
        | inl e => out ++ [lit "_Failed to export table to markdown: "
                           ++ exn_msg e ++ lit "_"]
        end in
      inr (out ++ [[]])
  end.

(** [enumerate(l, start)] *)
Definition enumerate {A} (l : list A) (start : nat) : list (nat * A) :=
  combine (seq start (length l)) l.

(** Body of the loop over the pages. *)
Definition process_page (doc : Document) (acc : list str * list BBox) (pno : Z)
    : M (list str * list BBox) :=
  let '(out, seen_bboxes) := acc in
  page ← lift (getitem doc pno);
  '(seen_bboxes, page_tables) ← for_each (try_strategy pno page) strategies (seen_bboxes, []);
  match page_tables with
  | [] => mret (out, seen_bboxes)
  | _ =>
      let out := out ++ [lit "## Page " ++ str_of_Z (pno + 1)] in
      out ← lift (for_each_exc render_table (enumerate page_tables 1) out);
      mret (out, seen_bboxes)
  end.

Definition extract_tables_markdown (doc : Document)
    (page_numbers_0_based : option (list Z)) : M str :=
  let pages_iter :=
    match page_numbers_0_based with
    | Some l => l
    | None => map Z.of_nat (seq 0 (page_count doc))
    end in
  '(out, _) ← for_each (process_page doc) pages_iter ([], []);
  match out with
  | [] => mret []
  | _ =>
      mret (strip (join NL
                     ([lit "# Extracted tables (PyMuPDF Page.find_tables)"; []] ++ out))
            ++ NL)
  end.

(** *** The two conversions *)

Definition convert_pdf_to_markdown (pdf_path : str) (output_path : option str)
    (use_ocr header footer include_tables : bool) : M str :=
  let pdf_file := parse_path pdf_path in
  found ← exists_ pdf_file;
  if negb found then raise FileNotFoundError (lit "File not found: " ++ pdf_path)
  else if negb (bool_decide (lower (suffix pdf_file) = lit ".pdf")) then
    raise ValueError (lit "Not a PDF: " ++ pdf_path)
  else
    _ensure_tessdata_prefix ;;
    doc ← open_document pdf_file;
    md_text ← to_markdown_call doc (_p4llm_kwargs false use_ocr header footer);
    md_text ← (if include_tables then
                 tables_md ← extract_tables_markdown doc None;
                 match tables_md with
                 | [] => mret md_text
                 | _ => mret (rstrip md_text ++ NL ++ NL ++ tables_md ++ NL)
                 end
               else mret (md_text : str));
    md_file ← match output_path with
              | Some ((_ :: _) as o) => mret (parse_path o)
              | _ => lift (with_suffix pdf_file (lit ".md"))
              end;
    write_text md_file md_text ;;
    mret (path_str md_file).

(** Body of the loop over the records of the renderer; [i] counts from 0. *)
Definition write_page (doc : Document) (output_dir : Path) (include_tables : bool)
    (_ : unit) (it : nat * page_dict) : M unit :=
  let '(i, page_dict) := it in
  let page_text := default [] (page_dict !! "text"%string) in
  page_text ← (if include_tables then
                 tables_md ← extract_tables_markdown doc (Some [Z.of_nat i]);
                 let page_tables := strip tables_md in
                 match page_tables with
                 | [] => mret page_text
                 | _ => mret (rstrip page_text ++ NL ++ NL ++ page_tables ++ NL)
                 end
               else mret page_text);
  let page_file :=
    joinpath output_dir (lit "page_" ++ format_03d (Z.of_nat i + 1) ++ lit ".md") in
  write_text page_file page_text.

Definition convert_with_page_chunks (pdf_path : str)
    (use_ocr header footer include_tables : bool) : M unit :=
  let pdf_file := parse_path pdf_path in
  found ← exists_ pdf_file;
  if negb found then raise FileNotFoundError (lit "File not found: " ++ pdf_path)
  else
    _ensure_tessdata_prefix ;;
    doc ← open_document pdf_file;
    pages_data ← to_markdown_call doc (_p4llm_kwargs true use_ocr header footer);
    let output_dir := joinpath (parent pdf_file) (stem pdf_file ++ lit "_pages") in
    mkdir_exist_ok output_dir ;;
    for_each (write_page doc output_dir include_tables) (enumerate pages_data 0) tt.

End Script.

(** * Properties *)

(** ** The de-duplication check *)

(** A candidate rectangle and an accepted one are near-duplicates when each
    of the four coordinates of the candidate is within the tolerance of the
    same coordinate of the accepted one; this is the test [_dedupe_bboxes]
    makes on each element. *)
Definition near_duplicate (cand acc : BBox) : bool :=
  let '(x0, y0, x1, y1) := cand in
  let '(bx0, by0, bx1, by1) := acc in
  within_tolerance x0 bx0 && within_tolerance y0 by0
  && within_tolerance x1 bx1 && within_tolerance y1 by1.

Lemma dedupe_bboxes_existsb bboxes b :
  _dedupe_bboxes bboxes b = existsb (near_duplicate b) bboxes.
Proof.
  destruct b as [[[x0 y0] x1] y1].
  induction bboxes as [|[[[bx0 by0] bx1] by1] rest IH]; simpl; [done|].
  rewrite IH. by destruct (_ && _).
Qed.

Lemma dedupe_bboxes_true bboxes b :
  _dedupe_bboxes bboxes b = true <->
  exists a, In a bboxes /\ near_duplicate b a = true.
Proof. rewrite dedupe_bboxes_existsb. apply existsb_exists. Qed.

Lemma dedupe_bboxes_false bboxes b :
  _dedupe_bboxes bboxes b = false <->
  forall a, In a bboxes -> near_duplicate b a = false.
Proof.
  rewrite dedupe_bboxes_existsb. split.
  - intros H a Ha. destruct (near_duplicate b a) eqn:E; [|done].
    assert (existsb (near_duplicate b) bboxes = true) by (apply existsb_exists; eauto).
    congruence.
  - intros H. destruct (existsb _ _) eqn:E; [|done].
    apply existsb_exists in E as (a & Ha & Hn). rewrite H in Hn; done.
Qed.

(** Once a rectangle is taken for a duplicate it stays one as the list
    grows. *)
Lemma dedupe_bboxes_app bboxes more b :
  _dedupe_bboxes (bboxes ++ more) b
  = _dedupe_bboxes bboxes b || _dedupe_bboxes more b.
Proof. rewrite !dedupe_bboxes_existsb. apply existsb_app. Qed.

(** *** The tolerance test does not depend on the order of its arguments

    Subtraction in binary64 rounds to nearest, ties to even, which commutes
    with negation; so [abs(c - b)] and [abs(b - c)] are the same number. *)

Lemma SFabs_binary_round prec emax s m e :
  SFabs (binary_round prec emax s m e) = SFabs (binary_round prec emax (negb s) m e).
Proof.
  unfold binary_round, binary_round_aux.
  destruct (shl_align _ _ _) as [mz ez].
  destruct (shr_fexp _ _ _ _ _) as [mrs' e'].
  destruct (shr_fexp _ _ _ _ _) as [mrs'' e''].
  destruct (shr_m mrs''); [done| |done].
  by destruct (_ <=? _)%Z.
Qed.

Lemma SFabs_binary_normalize_opp prec emax m e sz :
  SFabs (binary_normalize prec emax (- m) e sz) = SFabs (binary_normalize prec emax m e sz).
Proof.
  destruct m; simpl; [done| |]; by rewrite SFabs_binary_round.
Qed.

Lemma SFabs_SFsub_comm prec emax x y :
  SFabs (SFsub prec emax x y) = SFabs (SFsub prec emax y x).
Proof.
  destruct x as [sx|sx| |sx mx ex], y as [sy|sy| |sy my ey]; simpl;
    try done; try (by destruct sx); try (by destruct sy);
    try (by destruct sx, sy).
  rewrite (Z.min_comm ey ex).
  rewrite <- SFabs_binary_normalize_opp. f_equal. f_equal. lia.
Qed.

Lemma within_tolerance_sym c b : within_tolerance c b = within_tolerance b c.
Proof.
  unfold within_tolerance.
  rewrite !ltb_spec, !abs_spec, !sub_spec. unfold SF64sub.
  by rewrite SFabs_SFsub_comm.
Qed.

Lemma near_duplicate_sym a b : near_duplicate a b = near_duplicate b a.
Proof.
  destruct a as [[[x0 y0] x1] y1], b as [[[bx0 by0] bx1] by1]; simpl.
  by rewrite (within_tolerance_sym x0), (within_tolerance_sym y0),
             (within_tolerance_sym x1), (within_tolerance_sym y1).
Qed.

(** C1. [_dedupe_bboxes] answers [True] exactly when some accepted rectangle
    has all four coordinate-wise absolute differences from the candidate
    strictly below 2 (the differences being the binary64 ones the code
    computes), and a candidate that differs from every accepted rectangle
    by exactly 2 on some coordinate is not a duplicate. *)
Theorem dedupe_bboxes_spec :
  forall (bboxes : list BBox) (x0 y0 x1 y1 : float),
    (_dedupe_bboxes bboxes (x0, y0, x1, y1) = true <->
     exists bx0 by0 bx1 by1,
       In (bx0, by0, bx1, by1) bboxes /\
       PrimFloat.ltb (PrimFloat.abs (PrimFloat.sub x0 bx0)) 2%float = true /\
       PrimFloat.ltb (PrimFloat.abs (PrimFloat.sub y0 by0)) 2%float = true /\
       PrimFloat.ltb (PrimFloat.abs (PrimFloat.sub x1 bx1)) 2%float = true /\
       PrimFloat.ltb (PrimFloat.abs (PrimFloat.sub y1 by1)) 2%float = true)
    /\
    ((forall bx0 by0 bx1 by1,
        In (bx0, by0, bx1, by1) bboxes ->
        PrimFloat.abs (PrimFloat.sub x0 bx0) = 2%float \/
        PrimFloat.abs (PrimFloat.sub y0 by0) = 2%float \/
        PrimFloat.abs (PrimFloat.sub x1 bx1) = 2%float \/
        PrimFloat.abs (PrimFloat.sub y1 by1) = 2%float) ->
     _dedupe_bboxes bboxes (x0, y0, x1, y1) = false).
Proof.
  intros bboxes x0 y0 x1 y1. split.
  - rewrite dedupe_bboxes_true. split.
    + intros ([[[bx0 by0] bx1] by1] & Hin & Hn). exists bx0, by0, bx1, by1.
      simpl in Hn. unfold within_tolerance in Hn.
      apply andb_prop in Hn as [Hn H4]. apply andb_prop in Hn as [Hn H3].
      apply andb_prop in Hn as [H1 H2]. done.
    + intros (bx0 & by0 & bx1 & by1 & Hin & H1 & H2 & H3 & H4).
      exists (bx0, by0, bx1, by1). split; [done|].
      simpl. unfold within_tolerance. by rewrite H1, H2, H3, H4.
  - intros H. apply dedupe_bboxes_false. intros [[[bx0 by0] bx1] by1] Hin.
    simpl. unfold within_tolerance.
    destruct (H _ _ _ _ Hin) as [E|[E|[E|E]]]; rewrite E;
      change (PrimFloat.ltb 2 2) with false;
      rewrite ?andb_false_r; reflexivity.
Qed.

(** The differences are rounded as binary64 subtraction rounds them: the
    left edges 2 and 2^-60 are less than 2 apart, their computed
    difference is 2, and the candidate is not taken for a duplicate. *)
Example dedupe_bboxes_rounding :
  PrimFloat.sub 2 0x1p-60 = 2%float
  /\ _dedupe_bboxes [(0x1p-60, 10, 100, 100)%float] (2, 10, 100, 100)%float = false.
Proof. split; reflexivity. Qed.

(** The boundary on a concrete pair of rectangles: 2 apart on the left edge
    is not a duplicate, 1.5 apart is. *)
Example dedupe_bboxes_boundary :
  _dedupe_bboxes [(10, 10, 100, 100)%float] (12, 10, 100, 100)%float = false /\
  _dedupe_bboxes [(10, 10, 100, 100)%float] (11.5, 10, 100, 100)%float = true /\
  _dedupe_bboxes [(10, 10, 100, 100)%float] (8, 10, 100, 100)%float = false.
Proof. repeat split; reflexivity. Qed.

(** ** What the loops of [extract_tables_markdown] compute *)

Lemma for_each_cons {S A} (body : S -> A -> M S) a rest s w :
  for_each body (a :: rest) s w
  = match body s a w with
    | (inr s', w') => for_each body rest s' w'
    | (inl e, w') => (inl e, w')
    end.
Proof. reflexivity. Qed.

Lemma add_log_add_log a b w : add_log b (add_log a w) = add_log (a ++ b) w.
Proof. unfold add_log; simpl. by rewrite app_assoc. Qed.

Lemma add_log_nil w : add_log [] w = w.
Proof. destruct w; unfold add_log; simpl. by rewrite app_nil_r. Qed.

(** The tables one strategy contributes on a page: none when the detector
    raises. *)
Definition strategy_tables (page : Page) (s : str * gmap string Z) : list Table :=
  match find_tables page s.1 s.2 with
  | inr tf => getattr (tables tf) []
  | inl _ => []
  end.

(** The candidates of a page, in the order the scan meets them: strategy by
    strategy, and within a strategy in the order the detector lists them. *)
Definition candidates_of (page : Page) (ss : list (str * gmap string Z))
    : list (str * Table) :=
  flat_map (fun s => map (pair s.1) (strategy_tables page s)) ss.

Definition candidates (page : Page) : list (str * Table) :=
  candidates_of page strategies.

Definition consider_candidate (st : Scan) (c : str * Table) : Scan :=
  consider c.1 st c.2.

(** The state of the scan after a list of candidates. *)
Definition scan (cands : list (str * Table)) (st : Scan) : Scan :=
  fold_left consider_candidate cands st.

Definition scan_page (page : Page) (seen : list BBox) : Scan :=
  scan (candidates page) (seen, []).

Definition page_calls (pno : Z) (ss : list (str * gmap string Z)) : list event :=
  map (fun s => EvFindTables pno s.1 s.2) ss.

Lemma try_strategy_run pno page st s w :
  try_strategy pno page st s w
  = (inr (fold_left (consider s.1) (strategy_tables page s) st),
     add_log [EvFindTables pno s.1 s.2] w).
Proof.
  destruct s as [strat kw]. unfold try_strategy, strategy_tables; simpl.
  unfold mbind, M_bind, attempt, find_tables_call, mbind, M_bind, emit, lift; simpl.
  by destruct (find_tables page strat kw).
Qed.

Lemma fold_consider_scan strat ts st :
  fold_left (consider strat) ts st = scan (map (pair strat) ts) st.
Proof.
  unfold scan. revert st. induction ts as [|t ts IH]; intros st; simpl; [done|].
  by rewrite IH.
Qed.

Lemma scan_app c1 c2 st : scan (c1 ++ c2) st = scan c2 (scan c1 st).
Proof. apply fold_left_app. Qed.

Lemma strategies_run pno page ss st w :
  for_each (try_strategy pno page) ss st w
  = (inr (scan (candidates_of page ss) st), add_log (page_calls pno ss) w).
Proof.
  revert st w. induction ss as [|s ss IH]; intros st w; simpl.
  - by rewrite add_log_nil.
  - unfold mbind, M_bind. rewrite try_strategy_run, IH, add_log_add_log.
    by rewrite fold_consider_scan, scan_app.
Qed.

Lemma scan_cons s t cands st : scan ((s, t) :: cands) st = scan cands (consider s st t).
Proof. reflexivity. Qed.

(** *** What a scan accepts *)

Definition rows (t : Table) : Z := getattr (row_count t) 0%Z.
Definition cols (t : Table) : Z := getattr (col_count t) 0%Z.
Definition box (t : Table) : BBox := getattr (bbox t) (0, 0, 0, 0)%float.

(** Fewer than two rows or fewer than two columns. *)
Definition degenerate (t : Table) : bool := (rows t <? 2)%Z || (cols t <? 2)%Z.

Lemma consider_cases strat seen pt t :
  consider strat (seen, pt) t
  = if degenerate t || _dedupe_bboxes seen (box t) then (seen, pt)
    else (seen ++ [box t], pt ++ [(strat, t)]).
Proof.
  unfold consider, degenerate, rows, cols, box.
  destruct (_ || _); [done|]. by destruct (_dedupe_bboxes _ _).
Qed.

(** The scan only ever adds at the end of its two lists. *)
Lemma scan_extends cands seen pt :
  exists more_seen more_pt,
    scan cands (seen, pt) = (seen ++ more_seen, pt ++ more_pt)
    /\ more_seen = map (fun c => box c.2) more_pt
    /\ sublist more_pt cands.
Proof.
  revert seen pt. induction cands as [|[s t] cands IH]; intros seen pt.
  - exists [], []. simpl. by rewrite !app_nil_r.
  - rewrite scan_cons, consider_cases. destruct (_ || _).
    + destruct (IH seen pt) as (ms & mp & E & Hm & Hs).
      exists ms, mp. split; [exact E|]. split; [done|]. by apply sublist_cons.
    + destruct (IH (seen ++ [box t]) (pt ++ [(s, t)])) as (ms & mp & E & Hm & Hs).
      exists (box t :: ms), ((s, t) :: mp). rewrite E.
      rewrite <- !app_assoc. simpl. split; [done|]. split; [by rewrite Hm|].
      by apply sublist_skip.
Qed.

(** A table is accepted only if it is not degenerate and was no duplicate of
    a rectangle seen before it. *)
Lemma scan_accepts cands seen pt s t :
  In (s, t) (scan cands (seen, pt)).2 ->
  In (s, t) pt \/
  (In (s, t) cands /\ degenerate t = false /\ _dedupe_bboxes seen (box t) = false).
Proof.
  revert seen pt. induction cands as [|[s' t'] cands IH]; intros seen pt.
  - by left.
  - rewrite scan_cons, consider_cases.
    destruct (degenerate t' || _dedupe_bboxes seen (box t')) eqn:E.
    + intros H. destruct (IH _ _ H) as [?|(? & ? & ?)]; [by left|].
      right. simpl. auto.
    + intros H. destruct (IH _ _ H) as [Hin|(Hin & Hd & Hs)].
      * apply in_app_or in Hin as [?|[[= <- <-]|[]]]; [by left|].
        right. apply orb_false_elim in E as [? ?]. simpl. auto.
      * right. rewrite dedupe_bboxes_app in Hs.
        apply orb_false_elim in Hs as [? ?]. simpl. auto.
Qed.

Lemma scan_page_accepts page seen s t :
  In (s, t) (scan_page page seen).2 ->
  In (s, t) (candidates page) /\ degenerate t = false
  /\ _dedupe_bboxes seen (box t) = false.
Proof.
  intros H. apply scan_accepts in H as [[]|H]. exact H.
Qed.

(** *** Rendering *)

(** The three lines a table contributes to the output. *)
Definition table_lines (it : nat * (str * Table)) : list str :=
  let '(i, (strat, t)) := it in
  [ table_heading i strat (rows t) (cols t);
    match to_markdown t false true with
    | inr md => strip md
    | inl e => lit "_Failed to export table to markdown: " ++ exn_msg e ++ lit "_"
    end;
    [] ].

(** The lines of a page: nothing when it has no table, else its heading and
    its tables numbered from 1 in the order of [page_tables]. *)
Definition page_section (p : Z * list (str * Table)) : list str :=
  match p.2 with
  | [] => []
  | _ => (lit "## Page " ++ str_of_Z (p.1 + 1))
           :: flat_map table_lines (enumerate p.2 1)
  end.

(** The returned text for the collected lines. *)
Definition document_md (out : list str) : str :=
  match out with
  | [] => []
  | _ => strip (join NL ([lit "# Extracted tables (PyMuPDF Page.find_tables)"; []] ++ out))
         ++ NL
  end.

Lemma degenerate_false_attrs t :
  degenerate t = false ->
  row_count t = Some (rows t) /\ col_count t = Some (cols t)
  /\ (2 <= rows t)%Z /\ (2 <= cols t)%Z.
Proof.
  unfold degenerate, rows, cols. intros H.
  apply orb_false_elim in H as [Hr Hc].
  apply Z.ltb_ge in Hr, Hc.
  destruct (row_count t), (col_count t); simpl in *; try lia. auto.
Qed.

Lemma render_tables_run its out :
  Forall (fun it : nat * (str * Table) => degenerate it.2.2 = false) its ->
  for_each_exc render_table its out = inr (out ++ flat_map table_lines its).
Proof.
  intros H. revert out. induction H as [|[i [s t]] its Ht _ IH]; intros out; simpl.
  - by rewrite app_nil_r.
  - simpl in Ht. destruct (degenerate_false_attrs t Ht) as (Er & Ec & _).
    unfold rows, cols in *. rewrite Er, Ec. simpl.
    rewrite IH. f_equal. unfold rows, cols. rewrite Er, Ec. simpl.
    destruct (to_markdown t false true); by rewrite <- !app_assoc.
Qed.

Lemma enumerate_snd {A} (l : list A) start a i :
  In (i, a) (enumerate l start) -> In a l.
Proof. unfold enumerate. apply in_combine_r. Qed.

Lemma process_page_run doc out seen pno w :
  process_page doc (out, seen) pno w
  = match getitem doc pno with
    | inl e => (inl e, w)
    | inr page =>
        (inr (out ++ page_section (pno, (scan_page page seen).2),
              (scan_page page seen).1),
         add_log (page_calls pno strategies) w)
    end.
Proof.
  unfold process_page, mbind, M_bind, lift.
  destruct (getitem doc pno) as [e|page]; [done|].
  rewrite strategies_run. fold (candidates page). fold (scan_page page seen).
  pose proof (scan_page_accepts page seen) as Hacc.
  destruct (scan_page page seen) as [seen' pt]. simpl in *.
  destruct pt as [|c pt]; [by rewrite app_nil_r|].
  rewrite render_tables_run.
  - unfold page_section; simpl. by rewrite <- app_assoc.
  - apply List.Forall_forall. intros [i [s t]] Hin. simpl.
    apply enumerate_snd in Hin. by apply Hacc in Hin as (_ & ? & _).
Qed.

(** The pages the loop over [pages_iter] gets to: all of them, or those
    before the first one that [doc[pno]] refuses. *)
Fixpoint loaded (doc : Document) (pages : list Z) : list (Z * Page) :=
  match pages with
  | [] => []
  | pno :: rest =>
      match getitem doc pno with
      | inr page => (pno, page) :: loaded doc rest
      | inl _ => []
      end
  end.

Fixpoint load_error (doc : Document) (pages : list Z) : option exn :=
  match pages with
  | [] => None
  | pno :: rest =>
      match getitem doc pno with
      | inr _ => load_error doc rest
      | inl e => Some e
      end
  end.

(** The accepted tables, page by page; [seen] is handed from each page to
    the next. *)
Fixpoint accepted (lp : list (Z * Page)) (seen : list BBox)
    : list (Z * list (str * Table)) :=
  match lp with
  | [] => []
  | (pno, page) :: rest =>
      (pno, (scan_page page seen).2) :: accepted rest (scan_page page seen).1
  end.

Fixpoint seen_after (lp : list (Z * Page)) (seen : list BBox) : list BBox :=
  match lp with
  | [] => seen
  | (pno, page) :: rest => seen_after rest (scan_page page seen).1
  end.

(** The detector calls made for a list of pages. *)
Definition detector_calls (pnos : list Z) : list event :=
  flat_map (fun pno => page_calls pno strategies) pnos.

(** The page numbers the loop gets to. *)
Definition reached (doc : Document) (pages : list Z) : list Z :=
  map fst (loaded doc pages).

Lemma pages_run doc pages out seen w :
  for_each (process_page doc) pages (out, seen) w
  = (match load_error doc pages with
     | Some e => inl e
     | None => inr (out ++ flat_map page_section (accepted (loaded doc pages) seen),
                    seen_after (loaded doc pages) seen)
     end,
     add_log (detector_calls (reached doc pages)) w).
Proof.
  revert out seen w. induction pages as [|pno pages IH]; intros out seen w.
  - simpl. by rewrite app_nil_r, add_log_nil.
  - rewrite for_each_cons, process_page_run.
    unfold reached. cbn [loaded load_error].
    destruct (getitem doc pno) as [e|page].
    + by rewrite add_log_nil.
    + rewrite IH, add_log_add_log. cbn [accepted seen_after].
      unfold detector_calls, reached. cbn [flat_map map fst].
      destruct (load_error doc pages); [done|]. by rewrite <- app_assoc.
Qed.

Definition pages_iter (doc : Document) (page_numbers_0_based : option (list Z))
    : list Z :=
  match page_numbers_0_based with
  | Some l => l
  | None => map Z.of_nat (seq 0 (page_count doc))
  end.

(** [extract_tables_markdown] in closed form: it raises what [doc[pno]]
    raises, if anything; otherwise it returns the rendering of the accepted
    tables; and it has called the detector with every strategy on every
    page it got to. *)
Lemma extract_tables_markdown_run doc pns w :
  extract_tables_markdown doc pns w
  = (match load_error doc (pages_iter doc pns) with
     | Some e => inl e
     | None =>
         inr (document_md
                (flat_map page_section (accepted (loaded doc (pages_iter doc pns)) [])))
     end,
     add_log (detector_calls (reached doc (pages_iter doc pns))) w).
Proof.
  unfold extract_tables_markdown. fold (pages_iter doc pns).
  unfold mbind at 1, M_bind at 1. rewrite pages_run.
  destruct (load_error _ _); [done|].
  rewrite app_nil_l. unfold document_md.
  by destruct (flat_map _ _).
Qed.

(** *** The rectangles seen so far are those of the accepted tables *)

Definition boxes (pt : list (str * Table)) : list BBox :=
  map (fun c => box c.2) pt.

Lemma scan_page_seen page seen :
  (scan_page page seen).1 = seen ++ boxes (scan_page page seen).2.
Proof.
  unfold scan_page.
  destruct (scan_extends (candidates page) seen []) as (ms & mp & E & Hm & _).
  rewrite E. simpl. by rewrite Hm.
Qed.

Lemma scan_page_sublist page seen :
  sublist (scan_page page seen).2 (candidates page).
Proof.
  unfold scan_page.
  destruct (scan_extends (candidates page) seen []) as (ms & mp & E & _ & Hs).
  rewrite E. exact Hs.
Qed.

Lemma seen_after_app lp1 lp2 seen :
  seen_after (lp1 ++ lp2) seen = seen_after lp2 (seen_after lp1 seen).
Proof.
  revert seen. induction lp1 as [|[pno page] lp1 IH]; intros seen; simpl; [done|].
  apply IH.
Qed.

Lemma seen_after_extends lp seen : exists more, seen_after lp seen = seen ++ more.
Proof.
  revert seen. induction lp as [|[pno page] lp IH]; intros seen; simpl.
  - exists []. by rewrite app_nil_r.
  - destruct (IH (scan_page page seen).1) as [more E]. rewrite E.
    rewrite scan_page_seen, <- app_assoc. eauto.
Qed.

(** The [i]-th entry of [accepted] is the scan of the [i]-th page, started
    with the rectangles seen on the pages before it. *)
Lemma accepted_lookup lp seen i pno pt :
  accepted lp seen !! i = Some (pno, pt) ->
  exists page, lp !! i = Some (pno, page)
               /\ pt = (scan_page page (seen_after (take i lp) seen)).2.
Proof.
  revert seen i. induction lp as [|[pno' page'] lp IH]; intros seen i; simpl.
  - by rewrite lookup_nil.
  - destruct i as [|i]; simpl.
    + intros [= <- <-]. eauto.
    + intros H. apply IH in H. exact H.
Qed.

Lemma accepted_In lp seen pno pt :
  In (pno, pt) (accepted lp seen) ->
  exists i page, lp !! i = Some (pno, page)
                 /\ pt = (scan_page page (seen_after (take i lp) seen)).2.
Proof.
  intros H. apply list_elem_of_In, list_elem_of_lookup in H as [i Hi].
  apply accepted_lookup in Hi as (page & ? & ?). eauto.
Qed.

Lemma loaded_In doc pages pno page :
  In (pno, page) (loaded doc pages) -> In pno pages /\ getitem doc pno = inr page.
Proof.
  induction pages as [|p pages IH]; simpl; [done|].
  destruct (getitem doc p) as [e|pg] eqn:E; [done|].
  intros [[= <- <-]|H]; [auto|]. apply IH in H as [? ?]. auto.
Qed.

Lemma load_error_In doc pages e :
  load_error doc pages = Some e -> exists pno, In pno pages /\ getitem doc pno = inl e.
Proof.
  induction pages as [|p pages IH]; simpl; [done|].
  destruct (getitem doc p) as [e'|pg] eqn:E.
  - intros [= <-]. eauto.
  - intros H. apply IH in H as (pno & ? & ?). eauto.
Qed.

Lemma load_error_None doc pages :
  (forall pno, In pno pages -> exists page, getitem doc pno = inr page) ->
  load_error doc pages = None /\ map fst (loaded doc pages) = pages.
Proof.
  induction pages as [|p pages IH]; simpl; [done|].
  intros H. destruct (H p) as [page E]; [by left|]. rewrite E. simpl.
  destruct IH as [-> ->]; [|done]. intros; apply H; by right.
Qed.

(** *** Documents that differ only in what the detector reports *)

(** The document whose pages are those of [doc] passed through [f]. *)
Definition map_pages (f : Page -> Page) (doc : Document) : Document :=
  MkDocument (page_count doc)
    (fun pno =>
       match getitem doc pno with
       | inr page => inr (f page)
       | inl e => inl e
       end).

Section MapPages.

Variable f : Page -> Page.
Hypothesis scan_f : forall page seen, scan_page (f page) seen = scan_page page seen.

Lemma loaded_map_pages doc pages :
  loaded (map_pages f doc) pages = map (fun p => (p.1, f p.2)) (loaded doc pages).
Proof.
  induction pages as [|p pages IH]; simpl; [done|].
  destruct (getitem doc p); simpl; [done|]. by rewrite IH.
Qed.

Lemma load_error_map_pages doc pages :
  load_error (map_pages f doc) pages = load_error doc pages.
Proof.
  induction pages as [|p pages IH]; simpl; [done|].
  by destruct (getitem doc p).
Qed.

Lemma reached_map_pages doc pages :
  reached (map_pages f doc) pages = reached doc pages.
Proof.
  unfold reached. rewrite loaded_map_pages, map_map. by apply map_ext.
Qed.

Lemma accepted_map_pages lp seen :
  accepted (map (fun p => (p.1, f p.2)) lp) seen = accepted lp seen.
Proof.
  revert seen. induction lp as [|[pno page] lp IH]; intros seen; simpl; [done|].
  by rewrite scan_f, IH.
Qed.

Lemma extract_tables_markdown_map_pages doc pns w :
  extract_tables_markdown (map_pages f doc) pns w = extract_tables_markdown doc pns w.
Proof.
  rewrite !extract_tables_markdown_run.
  change (pages_iter (map_pages f doc) pns) with (pages_iter doc pns).
  by rewrite load_error_map_pages, reached_map_pages, loaded_map_pages,
    accepted_map_pages.
Qed.

End MapPages.

(** ** Degenerate detections *)

(** The page whose detector reports the same tables except the degenerate
    ones. *)
Definition without_degenerate_tf (tf : TableFinder) : TableFinder :=
  MkTableFinder
    (option_map (List.filter (fun t => negb (degenerate t))) (tables tf)).

Definition without_degenerate (page : Page) : Page :=
  MkPage (fun s kw =>
            match find_tables page s kw with
            | inr tf => inr (without_degenerate_tf tf)
            | inl e => inl e
            end).

Lemma consider_degenerate strat st t :
  degenerate t = true -> consider strat st t = st.
Proof. destruct st as [seen pt]. rewrite consider_cases. by intros ->. Qed.

Lemma scan_filter_degenerate cands st :
  scan (List.filter (fun c : str * Table => negb (degenerate c.2)) cands) st
  = scan cands st.
Proof.
  revert st. induction cands as [|[s t] cands IH]; intros st; [done|].
  simpl. destruct (degenerate t) eqn:E; simpl.
  - unfold consider_candidate; simpl.
    rewrite consider_degenerate by done. apply IH.
  - apply IH.
Qed.

Lemma filter_map_pair {A B} (f : B -> bool) (a : A) (l : list B) :
  List.filter (fun c : A * B => f c.2) (map (pair a) l)
  = map (pair a) (List.filter f l).
Proof.
  induction l as [|b l IH]; simpl; [done|]. destruct (f b); simpl; by rewrite IH.
Qed.

Lemma candidates_without_degenerate page ss :
  candidates_of (without_degenerate page) ss
  = List.filter (fun c : str * Table => negb (degenerate c.2)) (candidates_of page ss).
Proof.
  induction ss as [|[strat kw] ss IH]; simpl; [done|].
  rewrite List.filter_app, IH. f_equal.
  rewrite (filter_map_pair (fun t => negb (degenerate t))). f_equal.
  unfold strategy_tables; simpl.
  destruct (find_tables page strat kw) as [e|[[ts|]]]; done.
Qed.

Lemma scan_page_without_degenerate page seen :
  scan_page (without_degenerate page) seen = scan_page page seen.
Proof.
  unfold scan_page, candidates.
  by rewrite candidates_without_degenerate, scan_filter_degenerate.
Qed.

(** C2. A table with fewer than two rows or fewer than two columns is
    discarded whatever strategy reported it: the step of the scan leaves
    both [seen_bboxes] and [page_tables] as they were, no accepted table of
    any page has fewer than two rows or columns, and the returned text (and
    the calls made) are the same as if the detector had not reported the
    degenerate tables at all. *)
Theorem degenerate_tables_discarded :
  forall (doc : Document) (page_numbers_0_based : option (list Z)) (w : World),
    (forall strat seen_bboxes page_tables t,
        (rows t < 2)%Z \/ (cols t < 2)%Z ->
        consider strat (seen_bboxes, page_tables) t = (seen_bboxes, page_tables))
    /\
    (forall pno page_tables strat t,
        In (pno, page_tables)
           (accepted (loaded doc (pages_iter doc page_numbers_0_based)) []) ->
        In (strat, t) page_tables ->
        (2 <= rows t)%Z /\ (2 <= cols t)%Z)
    /\
    extract_tables_markdown (map_pages without_degenerate doc) page_numbers_0_based w
    = extract_tables_markdown doc page_numbers_0_based w.
Proof.
  intros doc pns w. split; [|split].
  - intros strat seen pt t H. apply consider_degenerate.
    unfold degenerate. apply orb_true_iff.
    destruct H; [left|right]; by apply Z.ltb_lt.
  - intros pno pt s t Hp Ht.
    apply accepted_In in Hp as (i & page & _ & ->).
    apply scan_page_accepts in Ht as (_ & Hd & _).
    by apply degenerate_false_attrs in Hd as (_ & _ & ? & ?).
  - apply extract_tables_markdown_map_pages, scan_page_without_degenerate.
Qed.

(** ** Strategy order and strategy failures *)

Lemma log_add_log evs w : log (add_log evs w) = log w ++ evs.
Proof. reflexivity. Qed.

Lemma candidates_unfold page :
  candidates page
  = map (pair (lit "lines_strict")) (strategy_tables page (lit "lines_strict", ∅))
    ++ map (pair (lit "lines")) (strategy_tables page (lit "lines", ∅))
    ++ map (pair (lit "text"))
         (strategy_tables page
            (lit "text", <["min_words_vertical"%string := 3%Z]>
                           (<["min_words_horizontal"%string := 1%Z]> ∅))).
Proof.
  unfold candidates, candidates_of, strategies.
  cbn [flat_map fst snd]. by rewrite app_nil_r.
Qed.

(** C3. On every page the loop gets to, the detector is called with
    [lines_strict], then [lines], then [text] with
    [min_words_vertical=3, min_words_horizontal=1], and with nothing else;
    the accepted tables of a page keep the order of the candidates
    (strategy by strategy, and within a strategy as the detector lists
    them); and the returned text lists the accepted tables of each page in
    that order, numbered from 1. *)
Theorem strategies_tried_in_priority_order :
  forall (doc : Document) (page_numbers_0_based : option (list Z)) (w : World),
    log (extract_tables_markdown doc page_numbers_0_based w).2
    = log w
      ++ flat_map
           (fun pno =>
              [ EvFindTables pno (lit "lines_strict") ∅;
                EvFindTables pno (lit "lines") ∅;
                EvFindTables pno (lit "text")
                  (<["min_words_vertical"%string := 3%Z]>
                     (<["min_words_horizontal"%string := 1%Z]> ∅)) ])
           (reached doc (pages_iter doc page_numbers_0_based))
    /\
    (forall page seen_bboxes,
        sublist (scan_page page seen_bboxes).2
          (map (pair (lit "lines_strict"))
               (strategy_tables page (lit "lines_strict", ∅))
           ++ map (pair (lit "lines")) (strategy_tables page (lit "lines", ∅))
           ++ map (pair (lit "text"))
                (strategy_tables page
                   (lit "text", <["min_words_vertical"%string := 3%Z]>
                                  (<["min_words_horizontal"%string := 1%Z]> ∅)))))
    /\
    (extract_tables_markdown doc page_numbers_0_based w).1
    = match load_error doc (pages_iter doc page_numbers_0_based) with
      | Some e => inl e
      | None =>
          inr (document_md
                 (flat_map page_section
                    (accepted (loaded doc (pages_iter doc page_numbers_0_based)) [])))
      end
    /\
    (forall pno c page_tables,
        page_section (pno, c :: page_tables)
        = (lit "## Page " ++ str_of_Z (pno + 1))
            :: flat_map table_lines
                 (combine (seq 1 (length (c :: page_tables))) (c :: page_tables))).
Proof.
  intros doc pns w. rewrite extract_tables_markdown_run.
  split; [|split; [|split]].
  - cbn [snd]. by rewrite log_add_log.
  - intros page seen. rewrite <- candidates_unfold. apply scan_page_sublist.
  - reflexivity.
  - reflexivity.
Qed.

(** The page whose detector reports no table where that of [page] raises. *)
Definition quiet (page : Page) : Page :=
  MkPage (fun s kw =>
            match find_tables page s kw with
            | inr tf => inr tf
            | inl _ => inr (MkTableFinder (Some []))
            end).

Lemma scan_page_quiet page seen : scan_page (quiet page) seen = scan_page page seen.
Proof.
  unfold scan_page, candidates. f_equal.
  induction strategies as [|[strat kw] ss IH]; simpl; [done|].
  rewrite IH. f_equal. f_equal. unfold strategy_tables; simpl.
  by destruct (find_tables page strat kw).
Qed.

(** C5. When the detector raises for a strategy, [try_strategy] returns
    normally with the state of the scan unchanged; the loop over the
    strategies always runs to its end, having called the detector with each
    of them; [extract_tables_markdown] raises only what [doc[pno]] raises;
    and its result is the one it has when the failing detector calls report
    no table instead. *)
Theorem strategy_failures_swallowed :
  forall (doc : Document) (page_numbers_0_based : option (list Z)) (w : World),
    (forall pno page st strat extra_kwargs w0 e,
        find_tables page strat extra_kwargs = inl e ->
        try_strategy pno page st (strat, extra_kwargs) w0
        = (inr st, add_log [EvFindTables pno strat extra_kwargs] w0))
    /\
    (forall pno page st w0,
        exists st',
          for_each (try_strategy pno page) strategies st w0
          = (inr st', add_log (page_calls pno strategies) w0))
    /\
    (forall e,
        (extract_tables_markdown doc page_numbers_0_based w).1 = inl e ->
        exists pno,
          In pno (pages_iter doc page_numbers_0_based) /\ getitem doc pno = inl e)
    /\
    extract_tables_markdown (map_pages quiet doc) page_numbers_0_based w
    = extract_tables_markdown doc page_numbers_0_based w.
Proof.
  intros doc pns w. split; [|split; [|split]].
  - intros pno page st strat kw w0 e He.
    rewrite try_strategy_run. unfold strategy_tables; simpl. by rewrite He.
  - intros pno page st w0. rewrite strategies_run. eauto.
  - intros e. rewrite extract_tables_markdown_run. cbn [fst].
    destruct (load_error _ _) as [e'|] eqn:E; [|done].
    intros [= <-]. by apply load_error_In.
  - apply extract_tables_markdown_map_pages, scan_page_quiet.
Qed.

(** ** A sample document

    Two pages. On the first, [lines_strict] reports a 3x3 table and a
    one-row table, [lines] raises, and [text] reports a near-duplicate of
    the 3x3 table and a 2x4 table that is exactly 2 units to its right and
    whose rendering fails. On the second page [lines_strict] reports a table
    at the place of the first page's 3x3 table and a table further down,
    and the other strategies report nothing. *)

Definition sample_md (s : string) : bool -> bool -> Exc str :=
  fun _ _ => inr (lit s).

Definition table_a : Table :=
  MkTable (Some 3%Z) (Some 3%Z) (Some (10, 10, 100, 100)%float) (sample_md "|a|b|c|  ").
Definition table_a' : Table :=
  MkTable (Some 3%Z) (Some 3%Z) (Some (11, 11, 101, 101)%float) (sample_md "|a|b|c|").
Definition table_b : Table :=
  MkTable (Some 2%Z) (Some 4%Z) (Some (12, 10, 100, 100)%float)
          (fun _ _ => inl (Raise LibraryError (lit "no cells"))).
Definition table_row : Table :=
  MkTable (Some 1%Z) (Some 5%Z) (Some (200, 200, 300, 300)%float) (sample_md "|x|").
Definition table_c : Table :=
  MkTable (Some 4%Z) (Some 2%Z) (Some (10, 300, 100, 400)%float) (sample_md "|k|v|").

Definition sample_page1 : Page :=
  MkPage (fun strat _ =>
            if bool_decide (strat = lit "lines_strict") then
              inr (MkTableFinder (Some [table_a; table_row]))
            else if bool_decide (strat = lit "lines") then
              inl (Raise LibraryError (lit "not a vector page"))
            else inr (MkTableFinder (Some [table_a'; table_b]))).

Definition sample_page2 : Page :=
  MkPage (fun strat _ =>
            if bool_decide (strat = lit "lines_strict") then
              inr (MkTableFinder (Some [table_a'; table_c]))
            else inr (MkTableFinder None)).

Definition sample_doc : Document :=
  MkDocument 2
    (fun pno =>
       match pno with
       | 0%Z => inr sample_page1
       | 1%Z => inr sample_page2
       | _ => inl (Raise LibraryError (lit "page not in document"))
       end).

Example sample_accepted :
  accepted (loaded sample_doc (pages_iter sample_doc None)) []
  = [ (0%Z, [(lit "lines_strict", table_a); (lit "text", table_b)]);
      (1%Z, [(lit "lines_strict", table_c)]) ].
Proof. vm_compute. reflexivity. Qed.

(** ** The accepted tables: invariant of the scan *)

(** The states the scan of a page goes through, from the rectangles seen
    on earlier pages and no table, one candidate at a time. *)
Inductive scan_state (seen0 : list BBox) : Scan -> Prop :=
  | scan_start : scan_state seen0 (seen0, [])
  | scan_step st strat t :
      scan_state seen0 st -> scan_state seen0 (consider strat st t).

(** No two accepted tables have near-duplicate rectangles, whichever of the
    two is taken as the candidate. *)
Definition no_near_duplicates (page_tables : list (str * Table)) : Prop :=
  forall i j c1 c2,
    (i < j)%nat -> page_tables !! i = Some c1 -> page_tables !! j = Some c2 ->
    near_duplicate (box c2.2) (box c1.2) = false
    /\ near_duplicate (box c1.2) (box c2.2) = false.

Definition proper_size (page_tables : list (str * Table)) : Prop :=
  forall c, In c page_tables -> (2 <= rows c.2)%Z /\ (2 <= cols c.2)%Z.

(** The rectangle of every accepted table has been recorded. *)
Definition recorded (st : Scan) : Prop :=
  forall c, In c st.2 -> In (box c.2) st.1.

Definition accepted_set_ok (st : Scan) : Prop :=
  no_near_duplicates st.2 /\ proper_size st.2 /\ recorded st.

Lemma accepted_set_ok_start seen : accepted_set_ok (seen, []).
Proof.
  split; [|split].
  - intros i j c1 c2 _ H. simpl in H. by rewrite lookup_nil in H.
  - intros c [].
  - intros c [].
Qed.

Lemma accepted_set_ok_step strat st t :
  accepted_set_ok st -> accepted_set_ok (consider strat st t).
Proof.
  destruct st as [seen pt]. intros (Hn & Hp & Hr).
  rewrite consider_cases.
  destruct (degenerate t || _dedupe_bboxes seen (box t)) eqn:E; [done|].
  apply orb_false_elim in E as [Hd Hs].
  split; [|split]; simpl in *.
  - intros i j c1 c2 Hij H1 H2.
    assert (j < length (pt ++ [(strat, t)]))%nat as Hj
      by (apply lookup_lt_is_Some; eauto).
    rewrite length_app in Hj. simpl in Hj.
    destruct (decide (j < length pt)%nat) as [Hlt|Hge].
    + rewrite lookup_app_l in H1, H2 by lia. eauto.
    + assert (j = length pt) as -> by lia.
      rewrite lookup_app_l in H1 by lia.
      rewrite list_lookup_middle in H2 by done. injection H2 as <-. simpl.
      assert (In (box c1.2) seen) as Hin.
      { apply Hr. apply list_elem_of_In. eapply list_elem_of_lookup_2; eauto. }
      pose proof (proj1 (dedupe_bboxes_false _ _) Hs _ Hin) as Hf.
      split; [exact Hf|]. by rewrite near_duplicate_sym.
  - intros c Hc. apply in_app_or in Hc as [Hc|[<-|[]]]; [by apply Hp|].
    simpl. by apply degenerate_false_attrs in Hd as (_ & _ & ? & ?).
  - intros c Hc. apply in_or_app.
    apply in_app_or in Hc as [Hc|[<-|[]]]; [left; by apply Hr|].
    right. by left.
Qed.

Lemma scan_state_ok seen0 st : scan_state seen0 st -> accepted_set_ok st.
Proof.
  induction 1 as [|st strat t _ IH].
  - apply accepted_set_ok_start.
  - by apply accepted_set_ok_step.
Qed.

Lemma scan_state_scan seen0 st cands :
  scan_state seen0 st -> scan_state seen0 (scan cands st).
Proof.
  revert st. induction cands as [|[s t] cands IH]; intros st H; [done|].
  rewrite scan_cons. apply IH. by constructor.
Qed.

(** C8. The Accepted Table Set keeps its invariant through every step: it
    holds when the scan of a page starts, every step of the scan preserves
    it, hence it holds after any number of the page's candidates and for
    the accepted tables of every page. The invariant: no two accepted
    tables of the page have rectangles whose four coordinates all differ by
    less than 2, and every accepted table has at least 2 rows and at least
    2 columns. The loops of the script go through these states and no
    others: [try_strategy] takes a state of the scan to a state of the
    scan, the loop over the strategies ends in the state [scan_page] names,
    [process_page] appends the rendering of the tables of that state and
    hands its rectangles on, and [extract_tables_markdown] returns the
    rendering of the accepted tables of the pages. *)
Theorem accepted_set_invariant :
  forall (doc : Document) (page_numbers_0_based : option (list Z)),
    (forall seen_bboxes,
        no_near_duplicates [] /\ proper_size []
        /\ scan_state seen_bboxes (seen_bboxes, []))
    /\
    (forall seen0 st strat t,
        scan_state seen0 st ->
        scan_state seen0 (consider strat st t)
        /\ no_near_duplicates (consider strat st t).2
        /\ proper_size (consider strat st t).2)
    /\
    (forall page seen_bboxes k,
        no_near_duplicates
          (scan (take k (candidates page)) (seen_bboxes, [])).2
        /\ proper_size (scan (take k (candidates page)) (seen_bboxes, [])).2)
    /\
    (forall pno page_tables,
        In (pno, page_tables)
           (accepted (loaded doc (pages_iter doc page_numbers_0_based)) []) ->
        no_near_duplicates page_tables /\ proper_size page_tables)
    /\
    (forall pno page seen0 st s w,
        scan_state seen0 st ->
        exists st',
          try_strategy pno page st s w
          = (inr st', add_log [EvFindTables pno s.1 s.2] w)
          /\ scan_state seen0 st'
          /\ no_near_duplicates st'.2 /\ proper_size st'.2)
    /\
    (forall pno page seen_bboxes w,
        for_each (try_strategy pno page) strategies (seen_bboxes, []) w
        = (inr (scan_page page seen_bboxes), add_log (page_calls pno strategies) w)
        /\ scan_state seen_bboxes (scan_page page seen_bboxes)
        /\ no_near_duplicates (scan_page page seen_bboxes).2
        /\ proper_size (scan_page page seen_bboxes).2)
    /\
    (forall out seen_bboxes pno page w,
        getitem doc pno = inr page ->
        process_page doc (out, seen_bboxes) pno w
        = (inr (out ++ page_section (pno, (scan_page page seen_bboxes).2),
                (scan_page page seen_bboxes).1),
           add_log (page_calls pno strategies) w))
    /\
    (forall w,
        extract_tables_markdown doc page_numbers_0_based w
        = (match load_error doc (pages_iter doc page_numbers_0_based) with
           | Some e => inl e
           | None =>
               inr (document_md
                      (flat_map page_section
                         (accepted
                            (loaded doc (pages_iter doc page_numbers_0_based)) [])))
           end,
           add_log
             (detector_calls (reached doc (pages_iter doc page_numbers_0_based))) w)).
Proof.
  intros doc pns.
  split; [|split; [|split; [|split; [|split; [|split; [|split]]]]]].
  - intros seen. destruct (accepted_set_ok_start seen) as (? & ? & _).
    split; [done|]. split; [done|]. constructor.
  - intros seen0 st strat t H.
    assert (scan_state seen0 (consider strat st t)) as H' by by constructor.
    split; [done|]. by apply scan_state_ok in H' as (? & ? & _).
  - intros page seen k.
    assert (scan_state seen (scan (take k (candidates page)) (seen, []))) as H
      by (apply scan_state_scan; constructor).
    by apply scan_state_ok in H as (? & ? & _).
  - intros pno pt Hp. apply accepted_In in Hp as (i & page & _ & ->).
    unfold scan_page.
    assert (scan_state (seen_after (take i (loaded doc (pages_iter doc pns))) [])
              (scan (candidates page)
                 (seen_after (take i (loaded doc (pages_iter doc pns))) [], [])))
      as H by (apply scan_state_scan; constructor).
    by apply scan_state_ok in H as (? & ? & _).
  - intros pno page seen0 st s w H. eexists. split; [apply try_strategy_run|].
    rewrite fold_consider_scan.
    assert (scan_state seen0 (scan (map (pair s.1) (strategy_tables page s)) st))
      as H' by by apply scan_state_scan.
    split; [done|]. by apply scan_state_ok in H' as (? & ? & _).
  - intros pno page seen w. split; [apply strategies_run|].
    assert (scan_state seen (scan_page page seen)) as H
      by (apply scan_state_scan; constructor).
    split; [done|]. by apply scan_state_ok in H as (? & ? & _).
  - intros out seen pno page w Hg. by rewrite process_page_run, Hg.
  - apply extract_tables_markdown_run.
Qed.

(** ** One list of seen rectangles for the whole call *)

Lemma seen_after_snoc lp pno page seen :
  seen_after (lp ++ [(pno, page)]) seen
  = seen_after lp seen ++ boxes (scan_page page (seen_after lp seen)).2.
Proof. rewrite seen_after_app. simpl. apply scan_page_seen. Qed.

(** The rectangles of the tables accepted on page [i] are among those the
    scan of any later page starts with. *)
Lemma seen_after_earlier lp seen i j pno page c :
  (i < j)%nat -> lp !! i = Some (pno, page) ->
  In c (scan_page page (seen_after (take i lp) seen)).2 ->
  In (box c.2) (seen_after (take j lp) seen).
Proof.
  intros Hij Hi Hc.
  assert (take j lp = take (S i) lp ++ drop (S i) (take j lp)) as ->.
  { rewrite <- (take_drop (S i) (take j lp)) at 1. f_equal.
    rewrite take_take. f_equal. lia. }
  rewrite seen_after_app.
  destruct (seen_after_extends (drop (S i) (take j lp))
              (seen_after (take (S i) lp) seen)) as [more ->].
  apply in_or_app. left.
  rewrite (take_S_r _ _ _ Hi), seen_after_snoc.
  apply in_or_app. right. unfold boxes. by apply (in_map (fun c => box c.2)).
Qed.

(** C10. Within one call the list of seen rectangles is handed from page to
    page: a table whose rectangle is a near-duplicate of the rectangle of a
    table accepted on an earlier page of the call is not accepted on the
    later page, under any strategy. The accepted tables are those of the
    code: the loop over the pages appends the rendering of the accepted
    tables of each page and hands the rectangles seen to the next page, and
    [extract_tables_markdown] returns the rendering of the accepted tables,
    in which the lines of the later page are those of [tables2] alone. *)
Theorem duplicate_of_earlier_page_discarded :
  forall (doc : Document) (page_numbers_0_based : option (list Z))
         (i j : nat) (pno1 pno2 : Z) (tables1 tables2 : list (str * Table))
         (strat1 : str) (t1 t2 : Table),
    (i < j)%nat ->
    accepted (loaded doc (pages_iter doc page_numbers_0_based)) [] !! i
      = Some (pno1, tables1) ->
    accepted (loaded doc (pages_iter doc page_numbers_0_based)) [] !! j
      = Some (pno2, tables2) ->
    In (strat1, t1) tables1 ->
    near_duplicate (box t2) (box t1) = true ->
    (forall strat2, ~ In (strat2, t2) tables2)
    /\
    (forall pages out seen_bboxes w,
        for_each (process_page doc) pages (out, seen_bboxes) w
        = (match load_error doc pages with
           | Some e => inl e
           | None =>
               inr (out ++ flat_map page_section
                             (accepted (loaded doc pages) seen_bboxes),
                    seen_after (loaded doc pages) seen_bboxes)
           end,
           add_log (detector_calls (reached doc pages)) w))
    /\
    (forall w,
        extract_tables_markdown doc page_numbers_0_based w
        = (match load_error doc (pages_iter doc page_numbers_0_based) with
           | Some e => inl e
           | None =>
               inr (document_md
                      (flat_map page_section
                         (accepted
                            (loaded doc (pages_iter doc page_numbers_0_based)) [])))
           end,
           add_log
             (detector_calls (reached doc (pages_iter doc page_numbers_0_based))) w))
    /\
    (exists before after,
        flat_map page_section
          (accepted (loaded doc (pages_iter doc page_numbers_0_based)) [])
        = before ++ page_section (pno2, tables2) ++ after).
Proof.
  intros doc pns i j pno1 pno2 pt1 pt2 s1 t1 t2 Hij H1 H2 Hin Hnear.
  split; [|split; [intros; apply pages_run|split;
                   [apply extract_tables_markdown_run|]]].
  2:{ apply list_elem_of_lookup_2, list_elem_of_split in H2 as (l1 & l2 & ->).
      exists (flat_map page_section l1), (flat_map page_section l2).
      by rewrite flat_map_app. }
  intros s2 Hin2.
  apply accepted_lookup in H1 as (page1 & Hl1 & ->).
  apply accepted_lookup in H2 as (page2 & Hl2 & ->).
  apply scan_page_accepts in Hin2 as (_ & _ & Hs).
  pose proof (seen_after_earlier _ [] _ _ _ _ _ Hij Hl1 Hin) as Hseen.
  pose proof (proj1 (dedupe_bboxes_false _ _) Hs _ Hseen) as Hf.
  simpl in Hf. congruence.
Qed.

(** On the sample document: the table of page 2 that sits where the 3x3
    table of page 1 sits is dropped, although the two are on different
    pages. *)
Lemma duplicate_of_earlier_page_discarded_witness :
  ~ In (lit "lines_strict", table_a')
       [(lit "lines_strict", table_c)]
  /\ (extract_tables_markdown sample_doc None (MkWorld ∅ ∅ [])).1
     = inr (document_md
              (flat_map page_section
                 [ (0%Z, [(lit "lines_strict", table_a); (lit "text", table_b)]);
                   (1%Z, [(lit "lines_strict", table_c)]) ])).
Proof.
  destruct (duplicate_of_earlier_page_discarded sample_doc None 0 1 0%Z 1%Z
              [(lit "lines_strict", table_a); (lit "text", table_b)]
              [(lit "lines_strict", table_c)]
              (lit "lines_strict") table_a table_a') as (H1 & _ & H3 & _).
  - lia.
  - vm_compute. reflexivity.
  - vm_compute. reflexivity.
  - left. reflexivity.
  - vm_compute. reflexivity.
  - split; [apply H1|]. rewrite H3. cbn [fst].
    assert (load_error sample_doc (pages_iter sample_doc None) = None) as ->
      by reflexivity.
    by rewrite sample_accepted.
Defined.

Example sample_whole_document_output :
  (extract_tables_markdown sample_doc None (MkWorld ∅ ∅ [])).1
  = inr (join NL
           [ lit "# Extracted tables (PyMuPDF Page.find_tables)";
             [];
             lit "## Page 1";
             lit "### Table 1 (strategy=lines_strict, rows=3, cols=3)";
             lit "|a|b|c|";
             [];
             lit "### Table 2 (strategy=text, rows=2, cols=4)";
             lit "_Failed to export table to markdown: no cells_";
             [];
             lit "## Page 2";
             lit "### Table 1 (strategy=lines_strict, rows=4, cols=2)";
             lit "|k|v|";
             [] ]).
Proof. vm_compute. reflexivity. Qed.

(** ** The conversions *)

(** The texts handed to [write_text], in order. *)
Definition writes (evs : list event) : list (Path * str) :=
  flat_map (fun ev => match ev with
                      | EvWriteText p text => [(p, text)]
                      | _ => []
                      end) evs.

Lemma writes_app a b : writes (a ++ b) = writes a ++ writes b.
Proof. apply flat_map_app. Qed.

Lemma writes_detector_calls pnos : writes (detector_calls pnos) = [].
Proof.
  unfold detector_calls. induction pnos as [|p pnos IH]; [done|].
  cbn [flat_map]. rewrite writes_app, IH. reflexivity.
Qed.

Lemma bind_run {A B} (c : M A) (k : A -> M B) w :
  (c ≫= k) w
  = match c w with
    | (inr a, w') => k a w'
    | (inl e, w') => (inl e, w')
    end.
Proof. reflexivity. Qed.

Lemma mret_run {A} (a : A) w : @mret M M_ret A a w = (inr a, w).
Proof. reflexivity. Qed.

Section Conversions.

Variable X : Extern.

(** [_ensure_tessdata_prefix] returns normally and touches nothing but the
    environment. *)
Lemma ensure_tessdata_prefix_run w :
  exists env, _ensure_tessdata_prefix X w = (inr tt, set_environ env w).
Proof.
  unfold _ensure_tessdata_prefix.
  assert (w = set_environ (environ w) w) as Hw by by destruct w.
  destruct (environ w !! "TESSDATA_PREFIX"%string) as [[|c v]|];
    try (exists (environ w); by rewrite <- Hw);
    destruct (pymupdf_get_tessdata X) as [e|[[|c' t]|]];
    try (exists (environ w); by rewrite <- Hw); eauto.
Qed.

(** The path of the Markdown file: [output_path] when it is given (and not
    empty), else the input path with its suffix replaced. *)
Definition resolve_md_file (pdf_file : Path) (output_path : option str) : Exc Path :=
  match output_path with
  | Some ((_ :: _) as o) => inr (parse_path o)
  | _ => with_suffix pdf_file (lit ".md")
  end.

(** The text of the file: the rendered text, followed by the tables when
    there are any. *)
Definition with_tables (text tables_md : str) : str :=
  match tables_md with
  | [] => text
  | _ => rstrip text ++ NL ++ NL ++ tables_md ++ NL
  end.

(** The end of [convert_pdf_to_markdown]: the file is written. *)
Definition save_whole (pdf_file : Path) (output_path : option str) (text : str)
    : M str :=
  md_file ← lift (resolve_md_file pdf_file output_path);
  write_text md_file text ;;
  mret (path_str md_file).

(** What is left of [convert_pdf_to_markdown] once the document is open and
    rendered. *)
Definition finish_whole (pdf_file : Path) (output_path : option str)
    (include_tables : bool) (doc : Document) (md_text : str) : M str :=
  text ← (if include_tables then
            tables_md ← extract_tables_markdown doc None;
            mret (with_tables md_text tables_md)
          else mret md_text);
  save_whole pdf_file output_path text.

Lemma convert_pdf_to_markdown_not_found pdf_path output_path use_ocr header footer
    include_tables w :
  fs w !! parse_path pdf_path = None ->
  convert_pdf_to_markdown X pdf_path output_path use_ocr header footer include_tables w
  = (inl (Raise FileNotFoundError (lit "File not found: " ++ pdf_path)), w).
Proof.
  intros H. unfold convert_pdf_to_markdown. rewrite bind_run.
  unfold exists_. rewrite H.
  rewrite bool_decide_eq_false_2 by (intros [? ?]; done). reflexivity.
Qed.

Lemma convert_pdf_to_markdown_wrong_type pdf_path output_path use_ocr header footer
    include_tables w :
  is_Some (fs w !! parse_path pdf_path) ->
  lower (suffix (parse_path pdf_path)) <> lit ".pdf" ->
  convert_pdf_to_markdown X pdf_path output_path use_ocr header footer include_tables w
  = (inl (Raise ValueError (lit "Not a PDF: " ++ pdf_path)), w).
Proof.
  intros H Hs. unfold convert_pdf_to_markdown. rewrite bind_run.
  unfold exists_. rewrite bool_decide_eq_true_2 by done. cbn [negb].
  rewrite bool_decide_eq_false_2 by done. reflexivity.
Qed.

Lemma convert_pdf_to_markdown_opened pdf_path output_path use_ocr header footer
    include_tables w bytes doc (md_text : str) :
  fs w !! parse_path pdf_path = Some (File bytes) ->
  lower (suffix (parse_path pdf_path)) = lit ".pdf" ->
  pymupdf_open X (parse_path pdf_path) bytes = inr doc ->
  pymupdf4llm_to_markdown X doc (_p4llm_kwargs false use_ocr header footer)
    = inr md_text ->
  exists env,
    convert_pdf_to_markdown X pdf_path output_path use_ocr header footer include_tables w
    = finish_whole (parse_path pdf_path) output_path include_tables doc md_text
        (add_log [EvOpen (parse_path pdf_path);
                  EvToMarkdown (_p4llm_kwargs false use_ocr header footer)]
           (set_environ env w)).
Proof.
  intros Hf Hs Ho Hr.
  destruct (ensure_tessdata_prefix_run w) as [env He]. exists env.
  unfold convert_pdf_to_markdown. rewrite bind_run.
  unfold exists_. rewrite bool_decide_eq_true_2 by (rewrite Hf; eauto).
  cbn [negb]. rewrite bool_decide_eq_true_2 by done. cbn [negb].
  rewrite bind_run, He, bind_run.
  unfold open_document at 1. rewrite bind_run. unfold emit at 1.
  cbn [fs add_log set_environ]. rewrite Hf, Ho.
  rewrite bind_run. unfold to_markdown_call at 1. rewrite bind_run.
  unfold emit at 1, lift at 1. rewrite Hr.
  rewrite add_log_add_log. cbn [app].
  unfold finish_whole, save_whole. rewrite !bind_run.
  destruct include_tables.
  - rewrite !bind_run.
    destruct (extract_tables_markdown doc None _) as [[e|tables_md] w2]; [done|].
    unfold with_tables.
    destruct tables_md; unfold mret, M_ret;
      destruct output_path as [[|c o]|]; reflexivity.
  - unfold mret, M_ret. destruct output_path as [[|c o]|]; reflexivity.
Qed.

End Conversions.

(** *** File-system calls in closed form *)

Definition fs_is_dir (f : gmap Path node) (p : Path) : bool :=
  match f !! p with Some Dir => true | _ => false end.

(** What [write_text] returns and what it leaves on disk. *)
Definition write_effect (p : Path) (text : str) (f : gmap Path node)
    : Exc unit * gmap Path node :=
  if fs_is_dir f p then (inl (Raise IsADirectoryError (path_str p)), f)
  else if negb (fs_is_dir f (parent p)) then
    (inl (Raise FileNotFoundError (path_str p)), f)
  else if forallb encodable text then (inr tt, <[p := File (utf8 text)]> f)
  else (inl (Raise UnicodeEncodeError (lit "surrogates not allowed")),
        <[p := File []]> f).

Lemma write_text_run p text w :
  write_text p text w
  = ((write_effect p text (fs w)).1,
     MkWorld (write_effect p text (fs w)).2 (environ w)
             (log w ++ [EvWriteText p text])).
Proof.
  unfold write_text, write_effect. rewrite bind_run. unfold emit at 1.
  unfold is_dir, fs_is_dir. cbn [fs add_log].
  destruct (fs w !! p) as [[|b]|]; try reflexivity;
    destruct (fs w !! parent p) as [[|b']|]; try reflexivity;
    destruct (forallb encodable text); reflexivity.
Qed.

Lemma write_effect_ok p text f f' :
  write_effect p text f = (inr tt, f') -> f' = <[p := File (utf8 text)]> f.
Proof.
  unfold write_effect. destruct (fs_is_dir f p); [done|].
  destruct (negb _); [done|]. destruct (forallb _ _); [|done]. by intros [= <-].
Qed.

Lemma save_whole_run pdf_file output_path md_file text w :
  resolve_md_file pdf_file output_path = inr md_file ->
  save_whole pdf_file output_path text w
  = (match (write_effect md_file text (fs w)).1 with
     | inr _ => inr (path_str md_file)
     | inl e => inl e
     end,
     MkWorld (write_effect md_file text (fs w)).2 (environ w)
             (log w ++ [EvWriteText md_file text])).
Proof.
  intros H. unfold save_whole. rewrite bind_run. unfold lift. rewrite H.
  rewrite bind_run, write_text_run.
  by destruct (write_effect md_file text (fs w)) as [[e|[]] f'].
Qed.

Section WholeDocument.

Variable X : Extern.

(** When no page yields a table, nothing is collected and every page is
    scanned with no rectangle seen. *)
Lemma accepted_nothing doc pages :
  (forall pno, In pno pages ->
     exists page, getitem doc pno = inr page /\ (scan_page page []).2 = []) ->
  load_error doc pages = None
  /\ flat_map page_section (accepted (loaded doc pages) []) = []
  /\ reached doc pages = pages.
Proof.
  unfold reached. induction pages as [|p pages IH]; intros H; [done|].
  destruct (H p) as (page & Hg & Hs); [by left|].
  destruct IH as (IH1 & IH2 & IH3); [intros; apply H; by right|].
  cbn [loaded load_error]. rewrite Hg. cbn [accepted flat_map map fst].
  rewrite scan_page_seen, Hs. cbn [boxes map app].
  rewrite IH2, IH3. done.
Qed.

Lemma suffix_nonempty_name p : suffix p <> [] -> name p <> [].
Proof.
  unfold suffix. destruct (name p); [|done]. simpl. done.
Qed.

Lemma resolve_md_file_ok pdf_file output_path :
  lower (suffix pdf_file) = lit ".pdf" ->
  exists md_file, resolve_md_file pdf_file output_path = inr md_file.
Proof.
  intros H. unfold resolve_md_file.
  destruct output_path as [[|c o]|]; eauto; unfold with_suffix;
    (destruct (name pdf_file) eqn:E; [|eauto]);
    (exfalso; apply (suffix_nonempty_name pdf_file); [|done]);
    intros E'; by rewrite E' in H.
Qed.

(** C6. When every page of the document loads and the scan of every page
    accepts nothing, [extract_tables_markdown] returns the empty string,
    and [convert_pdf_to_markdown] with [include_tables] hands [write_text]
    exactly the text the renderer returned: it makes one write, of that
    text, and returns what it returns, and leaves on disk what it leaves,
    when tables are not included at all. *)
Theorem no_tables_no_section :
  forall (pdf_path : str) (output_path : option str) (use_ocr header footer : bool)
         (w : World) (bytes : list N) (doc : Document) (md_text : str),
    fs w !! parse_path pdf_path = Some (File bytes) ->
    lower (suffix (parse_path pdf_path)) = lit ".pdf" ->
    pymupdf_open X (parse_path pdf_path) bytes = inr doc ->
    pymupdf4llm_to_markdown X doc (_p4llm_kwargs false use_ocr header footer)
      = inr md_text ->
    (forall pno, In pno (pages_iter doc None) ->
       exists page, getitem doc pno = inr page /\ (scan_page page []).2 = []) ->
    (forall w0, (extract_tables_markdown doc None w0).1 = inr [])
    /\
    exists md_file,
      writes (log (convert_pdf_to_markdown X pdf_path output_path
                     use_ocr header footer true w).2)
      = writes (log w) ++ [(md_file, md_text)]
      /\ (convert_pdf_to_markdown X pdf_path output_path use_ocr header footer true w).1
         = (convert_pdf_to_markdown X pdf_path output_path use_ocr header footer false w).1
      /\ fs (convert_pdf_to_markdown X pdf_path output_path use_ocr header footer true w).2
         = fs (convert_pdf_to_markdown X pdf_path output_path use_ocr header footer false w).2.
Proof.
  intros pdf_path output_path use_ocr header footer w bytes doc md_text
    Hf Hs Ho Hr Hnone.
  destruct (accepted_nothing doc _ Hnone) as (Hle & Hacc & Hreach).
  assert (forall w0, extract_tables_markdown doc None w0
                     = (inr [], add_log (detector_calls (pages_iter doc None)) w0))
    as Hex.
  { intros w0. rewrite extract_tables_markdown_run, Hle, Hacc, Hreach. done. }
  split; [intros w0; by rewrite Hex|].
  destruct (resolve_md_file_ok (parse_path pdf_path) output_path Hs) as [md_file Hmd].
  exists md_file.
  destruct (convert_pdf_to_markdown_opened X pdf_path output_path use_ocr header
              footer true w bytes doc md_text Hf Hs Ho Hr) as [env ->].
  destruct (convert_pdf_to_markdown_opened X pdf_path output_path use_ocr header
              footer false w bytes doc md_text Hf Hs Ho Hr) as [env' ->].
  unfold finish_whole. rewrite !bind_run, Hex.
  rewrite !mret_run. cbn [with_tables].
  rewrite !(save_whole_run _ _ _ _ _ Hmd).
  cbn [fst snd log fs add_log set_environ].
  rewrite <- !app_assoc, !writes_app, writes_detector_calls. done.
Qed.

End WholeDocument.

(** ** Two runs on the same input *)

Section TwoRuns.

Variable X : Extern.
Variable pdf_file : Path.

(** The two worlds hold the same thing at the input path; they may differ
    in everything else: other files, the environment, what was logged. *)
Definition same_input (w1 w2 : World) : Prop :=
  fs w1 !! pdf_file = fs w2 !! pdf_file.

(** The computation makes the same calls in both worlds. *)
Definition same_calls {A} (c : M A) : Prop :=
  forall w1 w2, same_input w1 w2 ->
    exists evs, log (c w1).2 = log w1 ++ evs /\ log (c w2).2 = log w2 ++ evs.

(** It moreover ends the same way and leaves the input as it was in both. *)
Definition agree {A} (c : M A) : Prop :=
  forall w1 w2, same_input w1 w2 ->
    (c w1).1 = (c w2).1 /\ same_input (c w1).2 (c w2).2
    /\ exists evs, log (c w1).2 = log w1 ++ evs /\ log (c w2).2 = log w2 ++ evs.

Lemma agree_same_calls {A} (c : M A) : agree c -> same_calls c.
Proof. intros H w1 w2 Hw. by destruct (H w1 w2 Hw) as (_ & _ & ?). Qed.

Lemma agree_pure {A} (r : Exc A) : agree (fun w => (r, w)).
Proof.
  intros w1 w2 Hw. split; [done|]. split; [done|].
  exists []. by rewrite !app_nil_r.
Qed.

Lemma agree_bind {A B} (c : M A) (k : A -> M B) :
  agree c -> (forall a, agree (k a)) -> agree (c ≫= k).
Proof.
  intros Hc Hk w1 w2 Hw. rewrite !bind_run.
  destruct (Hc w1 w2 Hw) as (Hr & Hw' & evs & E1 & E2).
  destruct (c w1) as [r1 w1'], (c w2) as [r2 w2']. simpl in *. subst r2.
  destruct r1 as [e|a].
  - split; [done|]. split; [done|]. eauto.
  - destruct (Hk a w1' w2' Hw') as (Hr2 & Hw'' & evs2 & E3 & E4).
    split; [done|]. split; [done|]. exists (evs ++ evs2).
    rewrite E3, E4, E1, E2, <- !app_assoc. done.
Qed.

Lemma same_calls_bind {A B} (c : M A) (k : A -> M B) :
  agree c -> (forall a, same_calls (k a)) -> same_calls (c ≫= k).
Proof.
  intros Hc Hk w1 w2 Hw. rewrite !bind_run.
  destruct (Hc w1 w2 Hw) as (Hr & Hw' & evs & E1 & E2).
  destruct (c w1) as [r1 w1'], (c w2) as [r2 w2']. simpl in *. subst r2.
  destruct r1 as [e|a]; [eauto|].
  destruct (Hk a w1' w2' Hw') as (evs2 & E3 & E4).
  exists (evs ++ evs2). rewrite E3, E4, E1, E2, <- !app_assoc. done.
Qed.

(** A computation that ends with a call of which only the outcome may
    differ. *)
Lemma same_calls_then_ret {A B} (c : M A) (b : B) :
  same_calls c -> same_calls (c ≫= fun _ => mret b).
Proof.
  intros Hc w1 w2 Hw. rewrite !bind_run.
  destruct (Hc w1 w2 Hw) as (evs & E1 & E2).
  destruct (c w1) as [[e1|a1] w1'], (c w2) as [[e2|a2] w2']; simpl in *; eauto.
Qed.

Lemma agree_exists : agree (exists_ pdf_file).
Proof.
  intros w1 w2 Hw. unfold exists_. simpl. rewrite Hw.
  split; [done|]. split; [done|]. exists []. by rewrite !app_nil_r.
Qed.

Lemma agree_ensure_tessdata_prefix : agree (_ensure_tessdata_prefix X).
Proof.
  intros w1 w2 Hw.
  destruct (ensure_tessdata_prefix_run X w1) as [env1 ->].
  destruct (ensure_tessdata_prefix_run X w2) as [env2 ->].
  split; [done|]. split; [done|]. exists []. by rewrite !app_nil_r.
Qed.

Lemma agree_open_document : agree (open_document X pdf_file).
Proof.
  intros w1 w2 Hw. unfold open_document. rewrite !bind_run.
  unfold emit. cbn [fs add_log]. pose proof Hw as Hw'. red in Hw'. rewrite Hw'.
  destruct (fs w2 !! pdf_file) as [[|bytes]|]; simpl;
    (split; [done|]); (split; [exact Hw|]); eauto.
Qed.

Lemma agree_to_markdown_call doc kw : agree (to_markdown_call X doc kw).
Proof.
  intros w1 w2 Hw. unfold to_markdown_call. rewrite !bind_run.
  unfold emit, lift. simpl. split; [done|]. split; [done|]. eauto.
Qed.

Lemma agree_extract_tables_markdown doc pns :
  agree (extract_tables_markdown doc pns).
Proof.
  intros w1 w2 Hw. rewrite !extract_tables_markdown_run. simpl.
  split; [done|]. split; [done|]. eauto.
Qed.

Lemma same_calls_write_text p text : same_calls (write_text p text).
Proof.
  intros w1 w2 Hw. rewrite !write_text_run. simpl. eauto.
Qed.

End TwoRuns.

Lemma same_calls_convert_pdf_to_markdown X pdf_path output_path use_ocr header
    footer include_tables :
  same_calls (parse_path pdf_path)
    (convert_pdf_to_markdown X pdf_path output_path use_ocr header footer
       include_tables).
Proof.
  unfold convert_pdf_to_markdown.
  apply same_calls_bind; [apply agree_exists|]. intros found.
  destruct (negb found); [apply agree_same_calls, agree_pure|].
  destruct (negb _); [apply agree_same_calls, agree_pure|].
  apply same_calls_bind; [apply agree_ensure_tessdata_prefix|]. intros _.
  apply same_calls_bind; [apply agree_open_document|]. intros doc.
  apply same_calls_bind;
    [exact (agree_to_markdown_call X _ doc (_p4llm_kwargs false use_ocr header footer))|].
  intros md_text.
  apply same_calls_bind.
  { destruct include_tables; [|apply agree_pure].
    apply agree_bind; [apply agree_extract_tables_markdown|].
    intros [|c t]; apply agree_pure. }
  intros text. apply same_calls_bind.
  { destruct output_path as [[|c o]|]; apply agree_pure. }
  intros md_file. apply same_calls_then_ret, same_calls_write_text.
Qed.

(** *** A run that returns normally *)

(** The text of the whole-document file. *)
Definition whole_text (include_tables : bool) (doc : Document) (md_text : str) : str :=
  if include_tables then
    with_tables md_text
      (document_md
         (flat_map page_section (accepted (loaded doc (pages_iter doc None)) [])))
  else md_text.

Definition whole_calls (include_tables : bool) (doc : Document) : list event :=
  if include_tables then detector_calls (reached doc (pages_iter doc None)) else [].

Lemma convert_pdf_to_markdown_success X pdf_path output_path use_ocr header footer
    include_tables w out :
  (convert_pdf_to_markdown X pdf_path output_path use_ocr header footer
     include_tables w).1 = inr out ->
  exists bytes doc (md_text : str) md_file env,
    fs w !! parse_path pdf_path = Some (File bytes)
    /\ lower (suffix (parse_path pdf_path)) = lit ".pdf"
    /\ pymupdf_open X (parse_path pdf_path) bytes = inr doc
    /\ pymupdf4llm_to_markdown X doc (_p4llm_kwargs false use_ocr header footer)
       = inr md_text
    /\ resolve_md_file (parse_path pdf_path) output_path = inr md_file
    /\ out = path_str md_file
    /\ convert_pdf_to_markdown X pdf_path output_path use_ocr header footer
         include_tables w
       = (inr out,
          MkWorld (<[md_file := File (utf8 (whole_text include_tables doc md_text))]> (fs w))
                  env
                  (log w
                   ++ [EvOpen (parse_path pdf_path);
                       EvToMarkdown (_p4llm_kwargs false use_ocr header footer)]
                   ++ whole_calls include_tables doc
                   ++ [EvWriteText md_file (whole_text include_tables doc md_text)]))
    /\ (include_tables = true -> load_error doc (pages_iter doc None) = None)
    /\ (write_effect md_file (whole_text include_tables doc md_text) (fs w)).1
       = inr tt.
Proof.
  intros Hout.
  destruct (fs w !! parse_path pdf_path) as [n|] eqn:Hf.
  2:{ rewrite convert_pdf_to_markdown_not_found in Hout by done. done. }
  destruct (decide (lower (suffix (parse_path pdf_path)) = lit ".pdf")) as [Hs|Hs].
  2:{ rewrite convert_pdf_to_markdown_wrong_type in Hout by (rewrite ?Hf; eauto).
      done. }
  destruct n as [|bytes].
  { exfalso. revert Hout. unfold convert_pdf_to_markdown. rewrite bind_run.
    unfold exists_. rewrite bool_decide_eq_true_2 by (rewrite Hf; eauto).
    cbn [negb]. rewrite bool_decide_eq_true_2 by done. cbn [negb].
    rewrite bind_run.
    destruct (ensure_tessdata_prefix_run X w) as [env ->].
    rewrite bind_run. unfold open_document at 1. rewrite bind_run.
    unfold emit at 1. cbn [fs add_log set_environ]. rewrite Hf. done. }
  destruct (pymupdf_open X (parse_path pdf_path) bytes) as [e|doc] eqn:Ho.
  { exfalso. revert Hout. unfold convert_pdf_to_markdown. rewrite bind_run.
    unfold exists_. rewrite bool_decide_eq_true_2 by (rewrite Hf; eauto).
    cbn [negb]. rewrite bool_decide_eq_true_2 by done. cbn [negb].
    rewrite bind_run.
    destruct (ensure_tessdata_prefix_run X w) as [env ->].
    rewrite bind_run. unfold open_document at 1. rewrite bind_run.
    unfold emit at 1. cbn [fs add_log set_environ]. rewrite Hf, Ho. done. }
  destruct (pymupdf4llm_to_markdown X doc (_p4llm_kwargs false use_ocr header footer))
    as [e|md_text] eqn:Hr.
  { exfalso. revert Hout. unfold convert_pdf_to_markdown. rewrite bind_run.
    unfold exists_. rewrite bool_decide_eq_true_2 by (rewrite Hf; eauto).
    cbn [negb]. rewrite bool_decide_eq_true_2 by done. cbn [negb].
    rewrite bind_run.
    destruct (ensure_tessdata_prefix_run X w) as [env ->].
    rewrite bind_run. unfold open_document at 1. rewrite bind_run.
    unfold emit at 1. cbn [fs add_log set_environ]. rewrite Hf, Ho.
    rewrite bind_run. unfold to_markdown_call at 1. rewrite bind_run.
    unfold emit at 1, lift at 1. rewrite Hr. done. }
  destruct (convert_pdf_to_markdown_opened X pdf_path output_path use_ocr header
              footer include_tables w bytes doc md_text Hf Hs Ho Hr) as [env E].
  rewrite E in Hout |- *. clear E.
  unfold finish_whole in *. rewrite bind_run in Hout |- *.
  assert (forall (text : str) w1,
            (save_whole (parse_path pdf_path) output_path text w1).1 = inr out ->
            exists md_file,
              resolve_md_file (parse_path pdf_path) output_path = inr md_file
              /\ out = path_str md_file
              /\ save_whole (parse_path pdf_path) output_path text w1
                 = (inr out,
                    MkWorld (<[md_file := File (utf8 text)]> (fs w1)) (environ w1)
                            (log w1 ++ [EvWriteText md_file text]))
              /\ (write_effect md_file text (fs w1)).1 = inr tt) as Hsave.
  { intros text w1 H1.
    destruct (resolve_md_file (parse_path pdf_path) output_path) as [e|md_file] eqn:Hmd.
    { exfalso. revert H1. unfold save_whole. rewrite bind_run. unfold lift.
      rewrite Hmd. done. }
    rewrite (save_whole_run _ _ _ _ _ Hmd) in H1 |- *.
    destruct (write_effect md_file _ (fs w1)) as [[e|[]] f'] eqn:Hw; [done|].
    pose proof Hw as Hw'. apply write_effect_ok in Hw. cbn [fst snd] in H1 |- *.
    injection H1 as <-. exists md_file. by rewrite Hw', Hw. }
  destruct include_tables.
  - rewrite bind_run, extract_tables_markdown_run in Hout |- *.
    destruct (load_error doc (pages_iter doc None)) eqn:Hle; [done|].
    rewrite mret_run in Hout |- *.
    apply Hsave in Hout as (md_file & Hmd & -> & E & Hw).
    exists bytes, doc, md_text, md_file, env. repeat (split; [done|]).
    rewrite E. cbn [fs environ log add_log set_environ whole_calls whole_text].
    split; [by rewrite <- !app_assoc|]. split; [done|exact Hw].
  - rewrite mret_run in Hout |- *.
    apply Hsave in Hout as (md_file & Hmd & -> & E & Hw).
    exists bytes, doc, md_text, md_file, env. repeat (split; [done|]).
    rewrite E. cbn [fs environ log add_log set_environ whole_calls whole_text].
    split; [by rewrite <- !app_assoc|]. split; [done|exact Hw].
Qed.

(** C9. Two runs of [convert_pdf_to_markdown] with the same arguments, in
    two worlds that hold the same thing at the input path and may differ in
    everything else, make the same calls with the same arguments, the call
    of [write_text] with its text among them; and when both return, they
    return the same path and the file at that path holds the same bytes
    after both. *)
Theorem whole_conversion_deterministic :
  forall (X : Extern) (pdf_path : str) (output_path : option str)
         (use_ocr header footer include_tables : bool) (w1 w2 : World),
    fs w1 !! parse_path pdf_path = fs w2 !! parse_path pdf_path ->
    (exists evs,
        log (convert_pdf_to_markdown X pdf_path output_path use_ocr header footer
               include_tables w1).2 = log w1 ++ evs
        /\ log (convert_pdf_to_markdown X pdf_path output_path use_ocr header footer
                  include_tables w2).2 = log w2 ++ evs)
    /\
    (forall out1 out2,
        (convert_pdf_to_markdown X pdf_path output_path use_ocr header footer
           include_tables w1).1 = inr out1 ->
        (convert_pdf_to_markdown X pdf_path output_path use_ocr header footer
           include_tables w2).1 = inr out2 ->
        out1 = out2
        /\ exists md_file text,
             out1 = path_str md_file
             /\ fs (convert_pdf_to_markdown X pdf_path output_path use_ocr header
                      footer include_tables w1).2 !! md_file
                = Some (File (utf8 text))
             /\ fs (convert_pdf_to_markdown X pdf_path output_path use_ocr header
                      footer include_tables w2).2 !! md_file
                = Some (File (utf8 text))).
Proof.
  intros X pdf_path output_path use_ocr header footer include_tables w1 w2 Hw.
  split; [by apply same_calls_convert_pdf_to_markdown|].
  intros out1 out2 H1 H2.
  apply convert_pdf_to_markdown_success in H1
    as (bytes1 & doc1 & md1 & file1 & env1 & Hf1 & _ & Ho1 & Hr1 & Hm1 & -> & -> & _).
  apply convert_pdf_to_markdown_success in H2
    as (bytes2 & doc2 & md2 & file2 & env2 & Hf2 & _ & Ho2 & Hr2 & Hm2 & -> & -> & _).
  rewrite Hw, Hf2 in Hf1. injection Hf1 as <-.
  rewrite Ho2 in Ho1. injection Ho1 as <-.
  rewrite Hr2 in Hr1. injection Hr1 as <-.
  rewrite Hm2 in Hm1. injection Hm1 as <-.
  split; [done|]. exists file2, (whole_text include_tables doc2 md2).
  cbn [snd fs]. by rewrite !lookup_insert_eq.
Qed.

(** *** Running the conversion a second time *)

Lemma write_effect_again p text f :
  (write_effect p text f).1 = inr tt ->
  write_effect p text (<[p := File (utf8 text)]> f)
  = (inr tt, <[p := File (utf8 text)]> f).
Proof.
  unfold write_effect, fs_is_dir.
  destruct (f !! p) as [[|b]|] eqn:Ep; [done| |];
    (destruct (f !! parent p) as [[|b']|] eqn:Epp; [|done|done]);
    (destruct (forallb encodable text); [|done]); intros _;
    rewrite lookup_insert_eq, lookup_insert_ne, Epp by congruence;
    by rewrite insert_insert_eq.
Qed.

(** X8. When a run of [convert_pdf_to_markdown] returned normally and did
    not overwrite its own input, a second run with the same arguments in the
    world the first one left returns the same path and leaves the file
    system as the first run left it. *)
Lemma second_run_same_output X pdf_path output_path use_ocr header footer
    include_tables w out :
  (convert_pdf_to_markdown X pdf_path output_path use_ocr header footer
     include_tables w).1 = inr out ->
  fs (convert_pdf_to_markdown X pdf_path output_path use_ocr header footer
        include_tables w).2 !! parse_path pdf_path
  = fs w !! parse_path pdf_path ->
  (convert_pdf_to_markdown X pdf_path output_path use_ocr header footer
     include_tables
     (convert_pdf_to_markdown X pdf_path output_path use_ocr header footer
        include_tables w).2).1 = inr out
  /\ fs (convert_pdf_to_markdown X pdf_path output_path use_ocr header footer
           include_tables
           (convert_pdf_to_markdown X pdf_path output_path use_ocr header footer
              include_tables w).2).2
     = fs (convert_pdf_to_markdown X pdf_path output_path use_ocr header footer
             include_tables w).2.
Proof.
  intros H1 Hin.
  apply convert_pdf_to_markdown_success in H1
    as (bytes & doc & md & file & env & Hf & Hs & Ho & Hr & Hmd & -> & E & Hle & Hw).
  rewrite E in Hin |- *. cbn [snd fs] in Hin |- *. rewrite Hf in Hin.
  match goal with
  | |- context [convert_pdf_to_markdown _ _ _ _ _ _ _ ?w1] =>
      destruct (convert_pdf_to_markdown_opened X pdf_path output_path use_ocr
                  header footer include_tables w1 bytes doc md Hin Hs Ho Hr)
        as [env' ->]
  end.
  apply write_effect_again in Hw.
  unfold finish_whole. rewrite bind_run.
  destruct include_tables.
  - rewrite bind_run, extract_tables_markdown_run, Hle by done.
    rewrite mret_run, (save_whole_run _ _ _ _ _ Hmd).
    cbn [fs add_log set_environ whole_text] in Hw |- *. by rewrite Hw.
  - rewrite mret_run, (save_whole_run _ _ _ _ _ Hmd).
    cbn [fs add_log set_environ whole_text] in Hw |- *. by rewrite Hw.
Qed.

(** ** Chunked conversion *)

(** *** Names of the page files *)

Definition page_name (i : nat) : str :=
  lit "page_" ++ format_03d (Z.of_nat i + 1) ++ lit ".md".

Fixpoint zeros (k : nat) (d : Decimal.uint) : Decimal.uint :=
  match k with
  | O => d
  | S k => Decimal.D0 (zeros k d)
  end.

Lemma chars_of_uint_zeros k d :
  chars_of_uint (zeros k d) = repeat 48%N k ++ chars_of_uint d.
Proof. induction k as [|k IH]; simpl; [done|]. by rewrite IH. Qed.

Lemma of_uint_zeros k d : Pos.of_uint (zeros k d) = Pos.of_uint d.
Proof. induction k as [|k IH]; simpl; done. Qed.

Lemma chars_of_uint_inj d1 d2 : chars_of_uint d1 = chars_of_uint d2 -> d1 = d2.
Proof.
  revert d2. induction d1 as [|d1 IH|d1 IH|d1 IH|d1 IH|d1 IH|d1 IH|d1 IH|d1 IH|d1 IH|d1 IH];
    intros [|d2|d2|d2|d2|d2|d2|d2|d2|d2|d2] H; simpl in H;
    try discriminate H; try reflexivity;
    injection H as H; f_equal; by apply IH.
Qed.

Lemma chars_of_uint_digits d :
  Forall (fun c => (48 <= c <= 57)%N) (chars_of_uint d).
Proof. induction d; simpl; constructor; try lia; done. Qed.

Lemma format_03d_pos p :
  format_03d (Z.pos p)
  = chars_of_uint (zeros (3 - length (chars_of_uint (Pos.to_uint p))) (Pos.to_uint p)).
Proof. unfold format_03d, zfill, str_of_Z. by rewrite chars_of_uint_zeros. Qed.

Lemma format_03d_pos_inj p q :
  format_03d (Z.pos p) = format_03d (Z.pos q) -> p = q.
Proof.
  rewrite !format_03d_pos. intros H. apply chars_of_uint_inj in H.
  apply (f_equal Pos.of_uint) in H.
  rewrite !of_uint_zeros, !Unsigned.of_to in H. by injection H.
Qed.

Lemma page_name_eq i :
  page_name i
  = [112; 97; 103; 101; 95]%N
    ++ format_03d (Z.pos (Pos.of_succ_nat i)) ++ [46; 109; 100]%N.
Proof.
  unfold page_name. rewrite Zpos_P_of_succ_nat. reflexivity.
Qed.

Lemma page_name_inj i j : page_name i = page_name j -> i = j.
Proof.
  rewrite !page_name_eq. intros H.
  apply app_inv_head, app_inv_tail, format_03d_pos_inj in H.
  by apply SuccNat2Pos.inj.
Qed.

Lemma page_name_no_slash i : ~ In 47%N (page_name i).
Proof.
  rewrite page_name_eq, format_03d_pos. intros H.
  apply in_app_or in H as [H|H];
    [simpl in H; repeat (destruct H as [H|H]; [discriminate H|]); done|].
  apply in_app_or in H as [H|H];
    [|simpl in H; repeat (destruct H as [H|H]; [discriminate H|]); done].
  pose proof (chars_of_uint_digits
                (zeros (3 - length (chars_of_uint (Pos.to_uint (Pos.of_succ_nat i))))
                   (Pos.to_uint (Pos.of_succ_nat i)))) as Hd.
  rewrite List.Forall_forall in Hd. apply Hd in H. lia.
Qed.

Lemma split_no_sep sep s : ~ In sep s -> split sep s = [s].
Proof.
  induction s as [|c s IH]; simpl; [done|]. intros H.
  destruct (N.eqb_spec c sep) as [->|Hne]; [exfalso; apply H; by left|].
  rewrite IH; [done|]. intros ?. apply H. by right.
Qed.

Lemma split_components sep s x : In x (split sep s) -> ~ In sep x.
Proof.
  revert x. induction s as [|c s IH]; simpl; intros x.
  - intros [<-|[]] [].
  - destruct (N.eqb_spec c sep) as [->|Hne].
    + intros [<-|H]; [intros []|by apply IH].
    + destruct (split sep s) as [|w ws]; simpl.
      * intros [<-|[]] [?|[]]. done.
      * intros [<-|H]; [|apply IH; by right].
        intros [?|Hin]; [done|]. apply (IH w); [by left|done].
Qed.

Lemma splitroot_relative c rest :
  c <> 47%N -> splitroot (c :: rest) = ([], c :: rest).
Proof.
  intros H. unfold splitroot.
  destruct c as [|p]; [reflexivity|].
  do 7 (try (destruct p as [p|p|]; try reflexivity)). done.
Qed.

(** A string that can be one component of a path is parsed as that single
    component. *)
Lemma parse_path_component key :
  key <> [] -> key <> lit "." -> ~ In 47%N key -> parse_path key = MkPath [] [key].
Proof.
  intros Hne Hdot Hslash. unfold parse_path.
  destruct key as [|c rest]; [done|].
  rewrite splitroot_relative by (intros ->; apply Hslash; by left).
  rewrite split_no_sep by done.
  assert (is_component (c :: rest) = true) as Hc.
  { unfold is_component. by rewrite !bool_decide_eq_false_2. }
  cbn [List.filter]. by rewrite Hc.
Qed.

Lemma joinpath_component dir key :
  key <> [] -> key <> lit "." -> ~ In 47%N key ->
  joinpath dir key = MkPath (root dir) (tail dir ++ [key]).
Proof. intros. unfold joinpath. by rewrite parse_path_component. Qed.

Lemma parse_path_page_name i : parse_path (page_name i) = MkPath [] [page_name i].
Proof.
  apply parse_path_component; [| |apply page_name_no_slash];
    by rewrite page_name_eq.
Qed.

(** The components of a parsed path hold no slash, and neither do its name
    and its stem. *)
Lemma parse_path_tail_no_slash s x : In x (tail (parse_path s)) -> ~ In 47%N x.
Proof.
  unfold parse_path. destruct (splitroot s) as [r rel]. simpl.
  intros H. apply filter_In in H as [H _]. by apply split_components in H.
Qed.

Lemma last_default_or_In {A} (l : list A) d :
  List.last l d = d \/ In (List.last l d) l.
Proof.
  induction l as [|a [|b l] IH]; simpl in *; auto.
  destruct IH as [->|H]; auto.
Qed.

Lemma In_take {A} (x : A) i l : In x (take i l) -> In x l.
Proof.
  revert i. induction l as [|a l IH]; intros [|i]; simpl; try done.
  intros [->|H]; [by left|right; eauto].
Qed.

Lemma stem_no_slash s : ~ In 47%N (stem (parse_path s)).
Proof.
  assert (~ In 47%N (name (parse_path s))) as Hname.
  { unfold name.
    destruct (last_default_or_In (tail (parse_path s)) []) as [->|H]; [intros []|].
    by apply parse_path_tail_no_slash in H. }
  unfold stem. destruct (rfind _ _) as [i|]; [|done].
  destruct (_ && _); [|done]. intros H. by apply In_take in H.
Qed.

(** The directory of the page files is the directory of the input with one
    more component, the stem of the input followed by [_pages]. *)
Lemma output_dir_name s :
  joinpath (parent (parse_path s)) (stem (parse_path s) ++ lit "_pages")
  = MkPath (root (parse_path s))
           (removelast (tail (parse_path s)) ++ [stem (parse_path s) ++ lit "_pages"]).
Proof.
  rewrite joinpath_component; [done| | |].
  - by destruct (stem (parse_path s)).
  - intros H. apply (f_equal length) in H. rewrite length_app in H.
    simpl in H. lia.
  - intros H. apply in_app_or in H as [H|H]; [by apply stem_no_slash in H|].
    simpl in H. repeat (destruct H as [H|H]; [discriminate H|]). done.
Qed.

Lemma joinpath_page_name dir i :
  joinpath dir (page_name i) = MkPath (root dir) (tail dir ++ [page_name i]).
Proof. unfold joinpath. by rewrite parse_path_page_name. Qed.

Lemma page_file_inj dir i j :
  joinpath dir (page_name i) = joinpath dir (page_name j) -> i = j.
Proof.
  rewrite !joinpath_page_name. intros [= H].
  apply app_inv_head in H. apply page_name_inj. congruence.
Qed.

Example page_names :
  page_name 0 = lit "page_001.md" /\ page_name 41 = lit "page_042.md"
  /\ page_name 998 = lit "page_999.md" /\ page_name 999 = lit "page_1000.md".
Proof. repeat split; vm_compute; reflexivity. Qed.

(** *** The file of one page *)

(** What [extract_tables_markdown] returns for the single page [pno]: it
    depends on nothing but that page and its number. *)
Definition page_tables_md (page : Page) (pno : Z) : str :=
  document_md (page_section (pno, (scan_page page []).2)).

Lemma extract_single_page doc pno w :
  extract_tables_markdown doc (Some [pno]) w
  = match getitem doc pno with
    | inl e => (inl e, w)
    | inr page => (inr (page_tables_md page pno), add_log (detector_calls [pno]) w)
    end.
Proof.
  rewrite extract_tables_markdown_run. unfold reached, page_tables_md.
  cbn [pages_iter loaded load_error].
  destruct (getitem doc pno) as [e|page]; cbn [accepted flat_map map fst].
  - by rewrite add_log_nil.
  - by rewrite app_nil_r.
Qed.

(** The text of a page file when tables are included. *)
Definition chunk_text (page_text tables_md : str) : str :=
  with_tables page_text (strip tables_md).

(** The text of the file of page [i], whose record is [pd]. *)
Definition chunk_of (doc : Document) (include_tables : bool) (i : nat)
    (pd : page_dict) (text : str) : Prop :=
  if include_tables then
    exists page,
      getitem doc (Z.of_nat i) = inr page
      /\ text = chunk_text (default [] (pd !! "text"%string))
                  (page_tables_md page (Z.of_nat i))
  else text = default [] (pd !! "text"%string).

Lemma write_page_run doc dir include_tables i pd w w' :
  write_page doc dir include_tables tt (i, pd) w = (inr tt, w') ->
  exists text,
    chunk_of doc include_tables i pd text
    /\ writes (log w') = writes (log w) ++ [(joinpath dir (page_name i), text)]
    /\ fs w' = <[joinpath dir (page_name i) := File (utf8 text)]> (fs w).
Proof.
  unfold write_page, chunk_of. fold (page_name i). rewrite bind_run.
  destruct include_tables.
  - rewrite bind_run, extract_single_page.
    destruct (getitem doc (Z.of_nat i)) as [e|page]; [done|].
    cbv zeta.
    destruct (strip (page_tables_md page (Z.of_nat i))) as [|c s] eqn:Hstrip;
      rewrite mret_run, write_text_run; cbn [fs add_log log];
      (destruct (write_effect _ _ (fs w)) as [[e|[]] f'] eqn:Hw; [done|]);
      apply write_effect_ok in Hw; intros [= <-]; eexists;
      (split; [exists page; split; [done|];
               unfold chunk_text, with_tables; rewrite Hstrip; reflexivity|]);
      cbn [log fs]; rewrite !writes_app, Hw; (split; [|done]);
      cbn [writes flat_map app]; by rewrite app_nil_r.
  - rewrite mret_run, write_text_run.
    destruct (write_effect _ _ (fs w)) as [[e|[]] f'] eqn:Hw; [done|].
    apply write_effect_ok in Hw. intros [= <-]. eexists.
    split; [reflexivity|]. cbn [log fs]. by rewrite writes_app, Hw.
Qed.

Lemma enumerate_cons {A} (a : A) l start :
  enumerate (a :: l) start = (start, a) :: enumerate l (S start).
Proof. reflexivity. Qed.

(** The loop over the records: one file per record, written in order, each
    with the text of its own page, none of them overwritten later; nothing
    else on disk is touched. *)
Lemma write_pages_run doc dir include_tables pds start w w' :
  for_each (write_page doc dir include_tables) (enumerate pds start) tt w
    = (inr tt, w') ->
  exists new,
    writes (log w') = writes (log w) ++ new
    /\ length new = length pds
    /\ (forall k pd,
          pds !! k = Some pd ->
          exists text,
            new !! k = Some (joinpath dir (page_name (start + k)), text)
            /\ chunk_of doc include_tables (start + k) pd text
            /\ fs w' !! joinpath dir (page_name (start + k))
               = Some (File (utf8 text)))
    /\ (forall p,
          (forall k, (start <= k)%nat -> p <> joinpath dir (page_name k)) ->
          fs w' !! p = fs w !! p).
Proof.
  revert start w. induction pds as [|pd pds IH]; intros start w.
  - intros [= <-]. exists []. rewrite app_nil_r. split; [done|]. split; [done|].
    split; [|done]. intros k pd H. by rewrite lookup_nil in H.
  - rewrite enumerate_cons, for_each_cons.
    destruct (write_page doc dir include_tables tt (start, pd) w)
      as [[e|[]] w1] eqn:E1; [done|].
    intros Hrest.
    apply write_page_run in E1 as (text & Hc & Hw1 & Hfs1).
    apply IH in Hrest as (new & Hw' & Hlen & Hk & Hother).
    exists ((joinpath dir (page_name start), text) :: new).
    split; [by rewrite Hw', Hw1, <- app_assoc|].
    split; [simpl; by rewrite Hlen|]. split.
    + intros [|k] pd' Hpd.
      * injection Hpd as <-. rewrite Nat.add_0_r. exists text.
        split; [done|]. split; [done|].
        rewrite Hother, Hfs1, lookup_insert_eq; [done|].
        intros k Hk' Heq. apply page_file_inj in Heq. lia.
      * destruct (Hk k pd' Hpd) as (text' & ? & ? & ?).
        rewrite Nat.add_succ_r. exists text'. done.
    + intros p Hp. rewrite Hother by (intros k ?; apply Hp; lia).
      rewrite Hfs1, lookup_insert_ne; [done|]. intros Heq. by apply (Hp start).
Qed.

Lemma mkdir_exist_ok_run p w w1 :
  mkdir_exist_ok p w = (inr tt, w1) ->
  writes (log w1) = writes (log w)
  /\ fs w1 !! p = Some Dir
  /\ (forall q, q <> p -> fs w1 !! q = fs w !! q).
Proof.
  unfold mkdir_exist_ok. rewrite bind_run. unfold emit at 1.
  unfold is_dir. cbn [fs add_log].
  destruct (fs w !! p) as [[|b]|] eqn:E; [| done |].
  - intros [= <-]. cbn [log fs add_log]. rewrite writes_app, app_nil_r. done.
  - destruct (fs w !! parent p) as [[|b]|]; [|done|done].
    intros [= <-]. cbn [log fs set_fs add_log environ].
    rewrite writes_app, app_nil_r, lookup_insert_eq.
    split; [done|]. split; [done|]. intros q Hq. by rewrite lookup_insert_ne.
Qed.

Lemma dir_not_page_file dir i : dir <> joinpath dir (page_name i).
Proof.
  rewrite joinpath_page_name. destruct dir as [r t]. simpl. intros [= H].
  apply (f_equal length) in H. rewrite length_app in H. simpl in H. lia.
Qed.

(** *** The number in the name of a page file *)

(** The number a string of decimal digits denotes. *)
Definition decimal_value (digits : str) : N :=
  fold_left (fun acc c => 10 * acc + (c - 48))%N digits 0%N.

Definition is_digit (c : N) : Prop := (48 <= c <= 57)%N.

Lemma decimal_value_acc d acc :
  fold_left (fun acc c => 10 * acc + (c - 48))%N (chars_of_uint d) (N.pos acc)
  = N.pos (Pos.of_uint_acc d acc).
Proof.
  revert acc. induction d as [|d IH|d IH|d IH|d IH|d IH|d IH|d IH|d IH|d IH|d IH];
    intros acc; cbn [chars_of_uint fold_left Pos.of_uint_acc]; [done|..];
    rewrite <- IH; f_equal; lia.
Qed.

Lemma decimal_value_chars d : decimal_value (chars_of_uint d) = Pos.of_uint d.
Proof.
  unfold decimal_value.
  induction d as [|d IH|d IH|d IH|d IH|d IH|d IH|d IH|d IH|d IH|d IH];
    cbn [chars_of_uint fold_left Pos.of_uint]; [done|exact IH|..];
    rewrite <- decimal_value_acc; f_equal.
Qed.

Lemma nzhead_no_zero d d' : Decimal.nzhead d <> Decimal.D0 d'.
Proof. induction d; cbn [Decimal.nzhead]; done. Qed.

(** The decimal numeral of a positive number does not begin with a zero. *)
Lemma to_uint_no_leading_zero p d : Pos.to_uint p <> Decimal.D0 d.
Proof.
  intros E. pose proof (DecimalPos.Unsigned.to_of (Pos.to_uint p)) as H.
  rewrite DecimalPos.Unsigned.of_to in H. cbn [N.to_uint] in H.
  rewrite E in H. unfold Decimal.unorm in H. cbn [Decimal.nzhead] in H.
  destruct (Decimal.nzhead d) as [|u|u|u|u|u|u|u|u|u|u] eqn:En;
    try discriminate H.
  - injection H as ->. by apply (Unsigned.to_uint_nonzero p).
  - by apply (nzhead_no_zero d u).
Qed.

(** [f"{n:03d}"] for a positive [n]: the decimal digits of [n], with zeros
    in front of them when there are fewer than three, and none otherwise. *)
Lemma format_03d_digits p :
  (3 <= length (format_03d (Z.pos p)))%nat
  /\ Forall is_digit (format_03d (Z.pos p))
  /\ decimal_value (format_03d (Z.pos p)) = N.pos p
  /\ ((3 < length (format_03d (Z.pos p)))%nat ->
      List.hd 48%N (format_03d (Z.pos p)) <> 48%N).
Proof.
  split; [|split; [|split]].
  - unfold format_03d, zfill. rewrite length_app, repeat_length. lia.
  - rewrite format_03d_pos. apply chars_of_uint_digits.
  - rewrite format_03d_pos, decimal_value_chars, of_uint_zeros.
    apply DecimalPos.Unsigned.of_to.
  - unfold format_03d, zfill, str_of_Z. rewrite length_app, repeat_length.
    intros Hl.
    replace (3 - length (chars_of_uint (Pos.to_uint p)))%nat with 0%nat by lia.
    cbn [repeat app].
    destruct (Pos.to_uint p) as [|d|d|d|d|d|d|d|d|d|d] eqn:E;
      cbn [chars_of_uint List.hd]; try done.
    + simpl in Hl. lia.
    + by apply to_uint_no_leading_zero in E.
Qed.

(** C7. A chunked conversion that returns normally, of a document for
    which the renderer gave one record per page, has made exactly one call
    of [write_text] per page, in page order; the file of page [i] (counted
    from 0) is [page_name i], inside the directory named after the stem of
    the input with [_pages] appended, next to the input. That name is
    [page_], a string of decimal digits and [.md]; the digits denote the
    number [i + 1]; there are at least three of them, and when there are
    more than three the first is not a zero: the number is padded with
    zeros to three digits and no further. These files are pairwise
    distinct and each holds its text at the end; and the text of the file
    of page [i] is made of the [i]-th record of the renderer and, when
    tables are included, of the tables of page [i] alone. *)
Theorem chunked_conversion_files :
  forall (X : Extern) (pdf_path : str) (use_ocr header footer include_tables : bool)
         (w w' : World) (bytes : list N) (doc : Document)
         (pages_data : list page_dict),
    fs w !! parse_path pdf_path = Some (File bytes) ->
    pymupdf_open X (parse_path pdf_path) bytes = inr doc ->
    pymupdf4llm_to_markdown X doc (_p4llm_kwargs true use_ocr header footer)
      = inr pages_data ->
    length pages_data = page_count doc ->
    convert_with_page_chunks X pdf_path use_ocr header footer include_tables w
      = (inr tt, w') ->
    exists (output_dir : Path) (new : list (Path * str)),
      output_dir = joinpath (parent (parse_path pdf_path))
                     (stem (parse_path pdf_path) ++ lit "_pages")
      /\ parent output_dir = parent (parse_path pdf_path)
      /\ name output_dir = stem (parse_path pdf_path) ++ lit "_pages"
      /\ fs w' !! output_dir = Some Dir
      /\ writes (log w') = writes (log w) ++ new
      /\ length new = page_count doc
      /\ (forall i j,
            joinpath output_dir (page_name i) = joinpath output_dir (page_name j) ->
            i = j)
      /\ (forall i,
            (i < page_count doc)%nat ->
            page_name i = lit "page_" ++ format_03d (Z.of_nat i + 1) ++ lit ".md"
            /\ (exists digits,
                  page_name i = lit "page_" ++ digits ++ lit ".md"
                  /\ (3 <= length digits)%nat
                  /\ Forall is_digit digits
                  /\ decimal_value digits = (N.of_nat i + 1)%N
                  /\ ((3 < length digits)%nat -> List.hd 48%N digits <> 48%N))
            /\ exists pd text,
                 pages_data !! i = Some pd
                 /\ new !! i = Some (joinpath output_dir (page_name i), text)
                 /\ fs w' !! joinpath output_dir (page_name i)
                    = Some (File (utf8 text))
                 /\ chunk_of doc include_tables i pd text).
Proof.
  intros X pdf_path use_ocr header footer include_tables w w' bytes doc pages_data
    Hf Ho Hr Hlen.
  unfold convert_with_page_chunks. rewrite bind_run.
  unfold exists_. rewrite bool_decide_eq_true_2 by (rewrite Hf; eauto).
  cbn [negb]. rewrite bind_run.
  destruct (ensure_tessdata_prefix_run X w) as [env ->].
  rewrite bind_run. unfold open_document at 1. rewrite bind_run.
  unfold emit at 1. cbn [fs add_log set_environ]. rewrite Hf, Ho.
  rewrite bind_run. unfold to_markdown_call at 1. rewrite bind_run.
  unfold emit at 1, lift at 1. rewrite Hr. rewrite bind_run.
  set (output_dir := joinpath (parent (parse_path pdf_path))
                       (stem (parse_path pdf_path) ++ lit "_pages")).
  destruct (mkdir_exist_ok output_dir _) as [[e|[]] w1] eqn:Hm; [done|].
  apply mkdir_exist_ok_run in Hm as (Hw1 & Hdir & _).
  intros Hloop.
  apply write_pages_run in Hloop as (new & Hnew & Hn & Hk & Hother).
  exists output_dir, new. split; [done|].
  split; [unfold output_dir; rewrite output_dir_name; unfold parent; simpl;
          by rewrite removelast_last|].
  split; [unfold output_dir; rewrite output_dir_name; unfold name; simpl;
          by rewrite last_last|].
  split.
  { rewrite Hother; [done|]. intros k _. apply dir_not_page_file. }
  split.
  { rewrite Hnew, Hw1. cbn [log add_log set_environ].
    rewrite !writes_app. cbn [writes flat_map app]. by rewrite !app_nil_r. }
  split; [by rewrite Hn|].
  split; [apply page_file_inj|].
  intros i Hi. split; [done|]. split.
  { exists (format_03d (Z.of_nat i + 1)). split; [done|].
    replace (Z.of_nat i + 1)%Z with (Z.pos (Pos.of_succ_nat i)) by lia.
    destruct (format_03d_digits (Pos.of_succ_nat i)) as (? & ? & Hv & ?).
    repeat (split; [done|]). split; [|done]. rewrite Hv. lia. }
  destruct (lookup_lt_is_Some_2 pages_data i) as [pd Hpd]; [lia|].
  destruct (Hk i pd Hpd) as (text & ? & ? & ?).
  exists pd, text. done.
Qed.

(** ** Sample runs *)

(** A second document: one page, on which the only detection is a one-row
    table. *)
Definition sample_plain_page : Page :=
  MkPage (fun strat _ =>
            if bool_decide (strat = lit "text") then
              inr (MkTableFinder (Some [table_row]))
            else inr (MkTableFinder (Some []))).

Definition sample_plain_doc : Document :=
  MkDocument 1
    (fun pno =>
       match pno with
       | 0%Z => inr sample_plain_page
       | _ => inl (Raise LibraryError (lit "page not in document"))
       end).

(** Libraries that open a file holding the byte 1 as [sample_doc] and a file
    holding the byte 2 as [sample_plain_doc], whatever their names, and
    render every document the same way. *)
Definition sample_extern : Extern :=
  {| pymupdf_open _ bytes :=
       match bytes with
       | [1%N] => inr sample_doc
       | [2%N] => inr sample_plain_doc
       | _ => inl (Raise LibraryError (lit "cannot open"))
       end;
     pymupdf4llm_to_markdown doc kw :=
       match kw_page_chunks kw as b
             return Exc (if b then list page_dict else str) with
       | true =>
           inr (map (fun i : nat =>
                       {[ "text"%string :=
                            lit "Text of page " ++ str_of_Z (Z.of_nat i + 1) ++ NL ]})
                    (seq 0 (page_count doc)))
       | false => inr (lit "Whole text" ++ NL)
       end;
     pymupdf_get_tessdata := inr None |}.

Definition sample_world : World :=
  {| fs := <[parse_path (lit "report.pdf") := File [1%N]]>
             (<[parse_path (lit "plain.PDF") := File [2%N]]>
                (<[parse_path (lit "notes.txt") := File [1%N]]>
                   (<[parse_path (lit ".") := Dir]> ∅)));
     environ := ∅;
     log := [] |}.

(** The same input files in a world with a history: another file, a set
    environment variable, earlier calls. *)
Definition sample_world_later : World :=
  {| fs := <[parse_path (lit "old.md") := File [35%N]]> (fs sample_world);
     environ := <["TESSDATA_PREFIX"%string := lit "/usr/share/tessdata"]> ∅;
     log := [EvMkdir (parse_path (lit "tmp"))] |}.

Lemma no_tables_no_section_witness :
  (forall w0, (extract_tables_markdown sample_plain_doc None w0).1 = inr [])
  /\
  exists md_file,
    writes (log (convert_pdf_to_markdown sample_extern (lit "plain.PDF") None
                   true true true true sample_world).2)
    = writes (log sample_world) ++ [(md_file, lit "Whole text" ++ NL)]
    /\ (convert_pdf_to_markdown sample_extern (lit "plain.PDF") None
          true true true true sample_world).1
       = (convert_pdf_to_markdown sample_extern (lit "plain.PDF") None
            true true true false sample_world).1
    /\ fs (convert_pdf_to_markdown sample_extern (lit "plain.PDF") None
             true true true true sample_world).2
       = fs (convert_pdf_to_markdown sample_extern (lit "plain.PDF") None
               true true true false sample_world).2.
Proof.
  apply (no_tables_no_section sample_extern (lit "plain.PDF") None true true true
           sample_world [2%N] sample_plain_doc (lit "Whole text" ++ NL)).
  - vm_compute. reflexivity.
  - vm_compute. reflexivity.
  - reflexivity.
  - reflexivity.
  - simpl. intros pno [<-|[]]. exists sample_plain_page.
    split; vm_compute; reflexivity.
Defined.

Lemma whole_conversion_deterministic_witness :
  (exists evs,
      log (convert_pdf_to_markdown sample_extern (lit "report.pdf") None
             true true true true sample_world).2 = log sample_world ++ evs
      /\ log (convert_pdf_to_markdown sample_extern (lit "report.pdf") None
                true true true true sample_world_later).2
         = log sample_world_later ++ evs)
  /\
  (forall out1 out2,
      (convert_pdf_to_markdown sample_extern (lit "report.pdf") None
         true true true true sample_world).1 = inr out1 ->
      (convert_pdf_to_markdown sample_extern (lit "report.pdf") None
         true true true true sample_world_later).1 = inr out2 ->
      out1 = out2
      /\ exists md_file text,
           out1 = path_str md_file
           /\ fs (convert_pdf_to_markdown sample_extern (lit "report.pdf") None
                    true true true true sample_world).2 !! md_file
              = Some (File (utf8 text))
           /\ fs (convert_pdf_to_markdown sample_extern (lit "report.pdf") None
                    true true true true sample_world_later).2 !! md_file
              = Some (File (utf8 text))).
Proof.
  apply (whole_conversion_deterministic sample_extern (lit "report.pdf") None
           true true true true sample_world sample_world_later).
  vm_compute. reflexivity.
Defined.

Example sample_whole_run :
  (convert_pdf_to_markdown sample_extern (lit "report.pdf") None
     true true true true sample_world).1 = inr (lit "report.md")
  /\ (convert_pdf_to_markdown sample_extern (lit "report.pdf") None
        true true true true sample_world_later).1 = inr (lit "report.md").
Proof. split; vm_compute; reflexivity. Qed.

Lemma pair_of_fst {A B} (p : A * B) (a : A) : p.1 = a -> p = (a, p.2).
Proof. destruct p. simpl. by intros ->. Qed.

Example sample_second_run :
  (convert_pdf_to_markdown sample_extern (lit "report.pdf") None
     true true true true
     (convert_pdf_to_markdown sample_extern (lit "report.pdf") None
        true true true true sample_world).2).1 = inr (lit "report.md").
Proof. vm_compute. reflexivity. Qed.

(** The world after the chunked conversion of the sample document. *)
Definition sample_world_chunked : World :=
  (convert_with_page_chunks sample_extern (lit "report.pdf")
     true true true true sample_world).2.

Lemma chunked_conversion_files_witness :
  exists (output_dir : Path) (new : list (Path * str)),
    output_dir = joinpath (parent (parse_path (lit "report.pdf")))
                   (stem (parse_path (lit "report.pdf")) ++ lit "_pages")
    /\ fs sample_world_chunked !! output_dir = Some Dir
    /\ writes (log sample_world_chunked) = writes (log sample_world) ++ new
    /\ length new = page_count sample_doc
    /\ joinpath output_dir (page_name 0)
       = parse_path (lit "report_pages/page_001.md")
    /\ joinpath output_dir (page_name 1)
       = parse_path (lit "report_pages/page_002.md")
    /\ (forall i,
          (i < page_count sample_doc)%nat ->
          (exists digits,
              page_name i = lit "page_" ++ digits ++ lit ".md"
              /\ (3 <= length digits)%nat
              /\ decimal_value digits = (N.of_nat i + 1)%N)
          /\ exists text,
               new !! i = Some (joinpath output_dir (page_name i), text)
               /\ fs sample_world_chunked !! joinpath output_dir (page_name i)
                  = Some (File (utf8 text))).
Proof.
  destruct (chunked_conversion_files sample_extern (lit "report.pdf")
              true true true true sample_world sample_world_chunked [1%N] sample_doc
              (map (fun i : nat =>
                      {[ "text"%string :=
                           lit "Text of page " ++ str_of_Z (Z.of_nat i + 1) ++ NL ]})
                   [0; 1]%nat))
    as (output_dir & new & H1 & _ & _ & H2 & H3 & H4 & H5 & H6).
  - vm_compute. reflexivity.
  - reflexivity.
  - reflexivity.
  - reflexivity.
  - refine (pair_of_fst
              (convert_with_page_chunks sample_extern (lit "report.pdf")
                 true true true true sample_world) (inr tt) _).
    vm_compute. reflexivity.
  - exists output_dir, new. repeat (split; [assumption|]).
    split; [rewrite H1; vm_compute; reflexivity|].
    split; [rewrite H1; vm_compute; reflexivity|].
    intros i Hi.
    destruct (H6 i Hi)
      as (_ & (digits & Hd1 & Hd2 & _ & Hd3 & _) & pd & text & _ & Hnew & Hfs & _).
    split; [exists digits; repeat split; assumption|].
    exists text. split; assumption.
Defined.

(** In chunked mode every page is scanned with no rectangle seen: the table
    of page 2 that the whole-document run drops as a duplicate of a table of
    page 1 is listed in the file of page 2. *)
Example sample_chunked_files :
  writes (log sample_world_chunked)
  = [ (parse_path (lit "report_pages/page_001.md"),
       join NL [ lit "Text of page 1"; [];
                 lit "# Extracted tables (PyMuPDF Page.find_tables)"; [];
                 lit "## Page 1";
                 lit "### Table 1 (strategy=lines_strict, rows=3, cols=3)";
                 lit "|a|b|c|"; [];
                 lit "### Table 2 (strategy=text, rows=2, cols=4)";
                 lit "_Failed to export table to markdown: no cells_"; [] ]);
      (parse_path (lit "report_pages/page_002.md"),
       join NL [ lit "Text of page 2"; [];
                 lit "# Extracted tables (PyMuPDF Page.find_tables)"; [];
                 lit "## Page 2";
                 lit "### Table 1 (strategy=lines_strict, rows=3, cols=3)";
                 lit "|a|b|c|"; [];
                 lit "### Table 2 (strategy=lines_strict, rows=4, cols=2)";
                 lit "|k|v|"; [] ]) ].
Proof. vm_compute. reflexivity. Qed.

(** ** Validation of the input path *)

Lemma convert_with_page_chunks_not_found X pdf_path use_ocr header footer
    include_tables w :
  fs w !! parse_path pdf_path = None ->
  convert_with_page_chunks X pdf_path use_ocr header footer include_tables w
  = (inl (Raise FileNotFoundError (lit "File not found: " ++ pdf_path)), w).
Proof.
  intros H. unfold convert_with_page_chunks. rewrite bind_run.
  unfold exists_. rewrite H.
  rewrite bool_decide_eq_false_2 by (intros [? ?]; done). reflexivity.
Qed.

(** Both conversions raise [FileNotFoundError] on a path that does not
    exist, and the whole-document conversion raises [ValueError] on an
    existing path whose suffix is not [.pdf] in any letter case; in all
    three cases the world is left as it was, so nothing was opened. *)
Lemma input_path_validation X pdf_path output_path use_ocr header footer
    include_tables w :
  (fs w !! parse_path pdf_path = None ->
   convert_pdf_to_markdown X pdf_path output_path use_ocr header footer include_tables w
   = (inl (Raise FileNotFoundError (lit "File not found: " ++ pdf_path)), w)
   /\ convert_with_page_chunks X pdf_path use_ocr header footer include_tables w
      = (inl (Raise FileNotFoundError (lit "File not found: " ++ pdf_path)), w))
  /\
  (is_Some (fs w !! parse_path pdf_path) ->
   lower (suffix (parse_path pdf_path)) <> lit ".pdf" ->
   convert_pdf_to_markdown X pdf_path output_path use_ocr header footer include_tables w
   = (inl (Raise ValueError (lit "Not a PDF: " ++ pdf_path)), w)).
Proof.
  split.
  - intros H. split.
    + by apply convert_pdf_to_markdown_not_found.
    + by apply convert_with_page_chunks_not_found.
  - apply convert_pdf_to_markdown_wrong_type.
Qed.

(** C4. The suffix of the input path is checked by the whole-document
    conversion only. [notes.txt] exists and its suffix is not [.pdf]: the
    whole-document conversion refuses it with [ValueError] before anything
    is opened, whereas the chunked conversion opens the file, returns
    normally and writes the page files. *)
Theorem chunked_conversion_accepts_other_suffix :
  is_Some (fs sample_world !! parse_path (lit "notes.txt"))
  /\ lower (suffix (parse_path (lit "notes.txt"))) <> lit ".pdf"
  /\ convert_pdf_to_markdown sample_extern (lit "notes.txt") None
       true true true true sample_world
     = (inl (Raise ValueError (lit "Not a PDF: notes.txt")), sample_world)
  /\ (convert_with_page_chunks sample_extern (lit "notes.txt")
        true true true true sample_world).1 = inr tt
  /\ log (convert_with_page_chunks sample_extern (lit "notes.txt")
            true true true false sample_world).2
     = [ EvOpen (parse_path (lit "notes.txt"));
         EvToMarkdown (_p4llm_kwargs true true true true);
         EvMkdir (parse_path (lit "notes_pages"));
         EvWriteText (parse_path (lit "notes_pages/page_001.md"))
           (lit "Text of page 1" ++ NL);
         EvWriteText (parse_path (lit "notes_pages/page_002.md"))
           (lit "Text of page 2" ++ NL) ].
Proof.
  split; [vm_compute; eauto|].
  split; [vm_compute; discriminate|].
  split.
  { apply convert_pdf_to_markdown_wrong_type; [vm_compute; eauto|].
    vm_compute. discriminate. }
  split; vm_compute; reflexivity.
Qed.

(** * Further properties *)

(** ** The de-duplication check: order, symmetry, and non-finite numbers *)

Lemma dedupe_bboxes_perm bboxes bboxes' b :
  Permutation bboxes bboxes' ->
  _dedupe_bboxes bboxes b = _dedupe_bboxes bboxes' b.
Proof.
  rewrite !dedupe_bboxes_existsb.
  induction 1 as [|a l l' _ IH|a a' l|l l' l'' _ IH1 _ IH2]; simpl.
  - done.
  - by rewrite IH.
  - by destruct (near_duplicate b a), (near_duplicate b a').
  - by rewrite IH1.
Qed.

(** X1. The answer of [_dedupe_bboxes] does not depend on the order of the
    accepted rectangles; against a single rectangle it is the same whichever
    of the two is the candidate; and over a concatenation it is the
    disjunction of the answers over the parts, so that a duplicate stays a
    duplicate when the list grows. *)
Theorem dedupe_bboxes_order_independent :
  forall (bboxes more : list BBox) (a b : BBox),
    (forall bboxes',
        Permutation bboxes bboxes' ->
        _dedupe_bboxes bboxes b = _dedupe_bboxes bboxes' b)
    /\ _dedupe_bboxes (rev bboxes) b = _dedupe_bboxes bboxes b
    /\ _dedupe_bboxes [a] b = _dedupe_bboxes [b] a
    /\ _dedupe_bboxes (bboxes ++ more) b
       = _dedupe_bboxes bboxes b || _dedupe_bboxes more b.
Proof.
  intros bboxes more a b. split; [|split; [|split]].
  - intros bboxes'. apply dedupe_bboxes_perm.
  - apply dedupe_bboxes_perm. symmetry. apply Permutation_rev.
  - rewrite !dedupe_bboxes_existsb. simpl. by rewrite near_duplicate_sym.
  - apply dedupe_bboxes_app.
Qed.

(** A number of the binary64 format that is neither a NaN nor an infinity,
    seen through its specification. *)
Definition sf_finite (x : spec_float) : bool :=
  match x with
  | S754_zero _ | S754_finite _ _ _ => true
  | _ => false
  end.

Lemma is_finite_spec x : is_finite x = sf_finite (Prim2SF x).
Proof.
  unfold is_finite, is_nan, is_infinity.
  rewrite !FloatAxioms.eqb_spec, abs_spec.
  change (Prim2SF infinity) with (S754_infinity false).
  destruct (Prim2SF x) as [s|s| |s m e] eqn:E; try reflexivity;
    try (by destruct s).
  simpl. unfold SFeqb. simpl.
  rewrite Z.compare_refl, Pos.compare_cont_refl. by destruct s.
Qed.

Lemma within_tolerance_refl x : is_finite x = true -> within_tolerance x x = true.
Proof.
  rewrite is_finite_spec. unfold within_tolerance.
  rewrite ltb_spec, abs_spec, sub_spec. unfold SF64sub.
  change (Prim2SF 2) with (S754_finite false 4503599627370496 (-51)).
  destruct (Prim2SF x) as [s|s| |s m e]; try done; intros _.
  - by destruct s.
  - simpl. rewrite Z.sub_diag. reflexivity.
Qed.

Lemma within_tolerance_finite c b :
  within_tolerance c b = true -> is_finite c = true.
Proof.
  rewrite is_finite_spec. unfold within_tolerance.
  rewrite ltb_spec, abs_spec, sub_spec. unfold SF64sub.
  change (Prim2SF 2) with (S754_finite false 4503599627370496 (-51)).
  destruct (Prim2SF c) as [s|s| |s m e]; try done;
    destruct (Prim2SF b) as [s'|s'| |s' m' e']; try done; by destruct s, s'.
Qed.

(** All four coordinates are finite numbers. *)
Definition finite_box (b : BBox) : bool :=
  let '(x0, y0, x1, y1) := b in
  is_finite x0 && is_finite y0 && is_finite x1 && is_finite y1.

Lemma near_duplicate_refl b : finite_box b = true -> near_duplicate b b = true.
Proof.
  destruct b as [[[x0 y0] x1] y1]. simpl. intros H.
  apply andb_prop in H as [H H4]. apply andb_prop in H as [H H3].
  apply andb_prop in H as [H1 H2].
  by rewrite !within_tolerance_refl.
Qed.

Lemma near_duplicate_finite c a :
  near_duplicate c a = true -> finite_box c = true /\ finite_box a = true.
Proof.
  assert (forall c a, near_duplicate c a = true -> finite_box c = true) as Hc.
  { clear. intros [[[x0 y0] x1] y1] [[[bx0 by0] bx1] by1]. simpl. intros H.
    apply andb_prop in H as [H H4]. apply andb_prop in H as [H H3].
    apply andb_prop in H as [H1 H2].
    by rewrite (within_tolerance_finite _ _ H1), (within_tolerance_finite _ _ H2),
      (within_tolerance_finite _ _ H3), (within_tolerance_finite _ _ H4). }
  intros H. split; [by eapply Hc|].
  rewrite near_duplicate_sym in H. by eapply Hc.
Qed.

(** X2. Not-a-number and infinite coordinates: a rectangle is taken for a
    duplicate only if all its coordinates are finite, and then only of a
    rectangle whose coordinates are all finite; a rectangle with a NaN or
    an infinite coordinate is never a duplicate, not even of itself, whereas
    a rectangle with finite coordinates is a duplicate of itself wherever it
    stands in the list. *)
Theorem dedupe_bboxes_finite_only :
  forall (bboxes : list BBox) (b : BBox),
    (_dedupe_bboxes bboxes b = true ->
     finite_box b = true
     /\ exists a, In a bboxes /\ finite_box a = true /\ near_duplicate b a = true)
    /\ (finite_box b = false ->
        _dedupe_bboxes bboxes b = false /\ _dedupe_bboxes (b :: bboxes) b = false)
    /\ (finite_box b = true -> In b bboxes -> _dedupe_bboxes bboxes b = true).
Proof.
  intros bboxes b. split; [|split].
  - intros H. apply dedupe_bboxes_true in H as (a & Hin & Hn).
    destruct (near_duplicate_finite _ _ Hn) as [Hb Ha]. eauto.
  - intros Hb.
    assert (forall l, _dedupe_bboxes l b = false) as Hl.
    { intros l. destruct (_dedupe_bboxes l b) eqn:H; [|done].
      apply dedupe_bboxes_true in H as (a & _ & Hn).
      apply near_duplicate_finite in Hn as [Hb' _]. congruence. }
    by rewrite !Hl.
  - intros Hb Hin. apply dedupe_bboxes_true. exists b.
    split; [done|]. by apply near_duplicate_refl.
Qed.

(** ** The accepted tables of a whole call *)

Lemma no_near_duplicates_app l1 l2 :
  no_near_duplicates l1 -> no_near_duplicates l2 ->
  (forall c1 c2, In c1 l1 -> In c2 l2 ->
     near_duplicate (box c2.2) (box c1.2) = false) ->
  no_near_duplicates (l1 ++ l2).
Proof.
  intros H1 H2 H12 i j c1 c2 Hij Hi Hj.
  destruct (decide (j < length l1)%nat) as [Hj1|Hj1].
  - rewrite lookup_app_l in Hi, Hj by lia. eauto.
  - rewrite lookup_app_r in Hj by lia.
    destruct (decide (i < length l1)%nat) as [Hi1|Hi1].
    + rewrite lookup_app_l in Hi by lia.
      assert (near_duplicate (box c2.2) (box c1.2) = false) as Hf.
      { apply H12; apply list_elem_of_In; eapply list_elem_of_lookup_2; eauto. }
      split; [exact Hf|]. by rewrite near_duplicate_sym.
    + rewrite lookup_app_r in Hi by lia.
      apply (H2 (i - length l1)%nat (j - length l1)%nat); [lia|done|done].
Qed.

Lemma accepted_pairwise lp seen :
  no_near_duplicates (flat_map snd (accepted lp seen))
  /\ (forall c a, In c (flat_map snd (accepted lp seen)) -> In a seen ->
        near_duplicate (box c.2) a = false).
Proof.
  revert seen. induction lp as [|[pno page] lp IH]; intros seen.
  - split; [|intros c a []]. intros i j c1 c2 _ H. simpl in H.
    by rewrite lookup_nil in H.
  - cbn [accepted flat_map snd].
    destruct (IH (scan_page page seen).1) as [IH1 IH2].
    assert (forall c a, In c (scan_page page seen).2 -> In a seen ->
              near_duplicate (box c.2) a = false) as Hpt.
    { intros [s t] a Hc Ha. apply scan_page_accepts in Hc as (_ & _ & Hs).
      exact (proj1 (dedupe_bboxes_false _ _) Hs _ Ha). }
    split.
    + apply no_near_duplicates_app; [|exact IH1|].
      * assert (scan_state seen (scan_page page seen)) as Hst
          by (apply scan_state_scan; constructor).
        by apply scan_state_ok in Hst as (? & _).
      * intros c1 c2 Hc1 Hc2. apply IH2; [done|].
        rewrite scan_page_seen. apply in_or_app. right.
        unfold boxes. by apply (in_map (fun c => box c.2)).
    + intros c a Hc Ha. apply in_app_or in Hc as [Hc|Hc]; [by apply Hpt|].
      apply IH2; [done|]. rewrite scan_page_seen. apply in_or_app. by left.
Qed.

(** X3. Over a whole call, whatever pages they are on, no two accepted
    tables have near-duplicate rectangles; so a table whose rectangle has
    finite coordinates is listed at most once in the returned text, however
    many strategies and pages report it. The accepted tables are the ones
    the returned text renders. *)
Theorem accepted_tables_pairwise_distinct :
  forall (doc : Document) (page_numbers_0_based : option (list Z)) (w : World),
    no_near_duplicates
      (flat_map snd (accepted (loaded doc (pages_iter doc page_numbers_0_based)) []))
    /\
    (forall i j strat1 strat2 t,
        (i < j)%nat ->
        flat_map snd (accepted (loaded doc (pages_iter doc page_numbers_0_based)) [])
          !! i = Some (strat1, t) ->
        flat_map snd (accepted (loaded doc (pages_iter doc page_numbers_0_based)) [])
          !! j = Some (strat2, t) ->
        finite_box (box t) = false)
    /\
    (forall text,
        (extract_tables_markdown doc page_numbers_0_based w).1 = inr text ->
        text = document_md
                 (flat_map page_section
                    (accepted (loaded doc (pages_iter doc page_numbers_0_based)) []))).
Proof.
  intros doc pns w.
  destruct (accepted_pairwise (loaded doc (pages_iter doc pns)) []) as [Hn _].
  split; [exact Hn|]. split.
  - intros i j s1 s2 t Hij Hi Hj.
    destruct (Hn _ _ _ _ Hij Hi Hj) as [Hf _]. simpl in Hf.
    destruct (finite_box (box t)) eqn:E; [|done].
    by rewrite near_duplicate_refl in Hf.
  - intros text. rewrite extract_tables_markdown_run. cbn [fst].
    destruct (load_error _ _); [done|]. by intros [= <-].
Qed.

(** ** The shape of the returned text *)

Lemma lstrip_app_nonspace x c y :
  isspace c = false -> lstrip (x ++ c :: y) = lstrip x ++ c :: y.
Proof.
  intros Hc. induction x as [|d x IH]; cbn [lstrip app].
  - by rewrite Hc.
  - by destruct (isspace d).
Qed.

Lemma lstrip_idem s : lstrip (lstrip s) = lstrip s.
Proof.
  induction s as [|c s IH]; [done|]. cbn [lstrip].
  destruct (isspace c) eqn:E; [done|]. cbn [lstrip]. by rewrite E.
Qed.

Lemma lstrip_head s :
  lstrip s = [] \/ exists c t, lstrip s = c :: t /\ isspace c = false.
Proof.
  induction s as [|c s IH]; [by left|]. cbn [lstrip].
  destruct (isspace c) eqn:E; [done|]. right. eauto.
Qed.

(** [rstrip] leaves everything up to a character that is no white space. *)
Lemma rstrip_app_nonspace p c b :
  isspace c = false -> rstrip (p ++ c :: b) = p ++ c :: rstrip b.
Proof.
  intros Hc. unfold rstrip.
  rewrite rev_app_distr. cbn [rev]. rewrite <- app_assoc. cbn [app].
  rewrite lstrip_app_nonspace by done.
  rewrite rev_app_distr. cbn [rev]. rewrite rev_involutive, <- app_assoc. done.
Qed.

Lemma rstrip_cons_nonspace c t :
  isspace c = false -> rstrip (c :: t) = c :: rstrip t.
Proof. apply (rstrip_app_nonspace []). Qed.

Lemma rstrip_idem s : rstrip (rstrip s) = rstrip s.
Proof. unfold rstrip. by rewrite rev_involutive, lstrip_idem. Qed.

(** Stripping a stripped string changes nothing. *)
Lemma strip_idem s : strip (strip s) = strip s.
Proof.
  unfold strip. destruct (lstrip_head s) as [->|(c & t & -> & Hc)]; [done|].
  rewrite (rstrip_cons_nonspace c t Hc). cbn [lstrip]. rewrite Hc.
  rewrite (rstrip_cons_nonspace c (rstrip t) Hc).
  by rewrite rstrip_idem.
Qed.

Lemma page_section_nil p : page_section p = [] <-> p.2 = [].
Proof. unfold page_section. by destruct p.2. Qed.

Lemma flat_map_page_section_nil acc :
  flat_map page_section acc = [] <-> Forall (fun p => p.2 = []) acc.
Proof.
  induction acc as [|p acc IH]; cbn [flat_map].
  - split; [constructor|done].
  - split.
    + intros H. apply app_eq_nil in H as [H1 H2]. constructor.
      * by apply page_section_nil.
      * by apply IH.
    + intros H. inversion H as [|? ? H1 H2]; subst.
      apply page_section_nil in H1. rewrite H1. by apply IH.
Qed.

(** The first line collected is the heading of a page. *)
Lemma flat_map_page_section_head acc l rest :
  flat_map page_section acc = l :: rest ->
  exists number, l = lit "## Page" ++ 32%N :: number.
Proof.
  induction acc as [|[pno pt] acc IH]; cbn [flat_map]; [done|].
  unfold page_section at 1. cbn [fst snd]. destruct pt as [|c pt].
  - apply IH.
  - cbn [app]. intros [= <- _]. exists (str_of_Z (pno + 1)). reflexivity.
Qed.

Lemma join_cons_head sep l rest : exists more, join sep (l :: rest) = l ++ more.
Proof.
  destruct rest as [|l' rest]; cbn [join].
  - exists []. by rewrite app_nil_r.
  - eauto.
Qed.

Lemma join_cons_cons sep a b rest :
  join sep (a :: b :: rest) = a ++ sep ++ join sep (b :: rest).
Proof. reflexivity. Qed.

Lemma document_md_cons l out :
  document_md (l :: out)
  = strip (join NL ([lit "# Extracted tables (PyMuPDF Page.find_tables)"; []]
                    ++ l :: out)) ++ NL.
Proof. reflexivity. Qed.

Lemma document_md_shape out :
  out <> [] ->
  (exists number, List.hd [] out = lit "## Page" ++ 32%N :: number) ->
  exists rest,
    document_md out
    = (lit "# Extracted tables (PyMuPDF Page.find_tables)" ++ NL ++ NL
       ++ lit "## Page" ++ rest) ++ NL
    /\ strip (lit "# Extracted tables (PyMuPDF Page.find_tables)" ++ NL ++ NL
              ++ lit "## Page" ++ rest)
       = lit "# Extracted tables (PyMuPDF Page.find_tables)" ++ NL ++ NL
         ++ lit "## Page" ++ rest.
Proof.
  intros Hne [number Hhd]. destruct out as [|l out]; [done|].
  change (l = lit "## Page" ++ 32%N :: number) in Hhd. subst l.
  rewrite document_md_cons.
  destruct (join_cons_head NL (lit "## Page" ++ 32%N :: number) out) as [more Hj].
  assert (strip (join NL ([lit "# Extracted tables (PyMuPDF Page.find_tables)"; []]
                          ++ (lit "## Page" ++ 32%N :: number) :: out))
          = lit "# Extracted tables (PyMuPDF Page.find_tables)" ++ NL ++ NL
            ++ lit "## Page" ++ rstrip (32%N :: number ++ more)) as Hs.
  { cbn [app]. rewrite !join_cons_cons, Hj. cbn [app].
    change (lit "# Extracted tables (PyMuPDF Page.find_tables)")
      with (35%N :: List.tl (lit "# Extracted tables (PyMuPDF Page.find_tables)")).
    unfold strip. cbn [app lstrip].
    change (isspace 35) with false. cbv iota.
    change (lit "## Page") with (lit "## Pag" ++ [101%N]).
    rewrite <- !app_assoc. cbn [app].
    set (title_tl := List.tl (lit "# Extracted tables (PyMuPDF Page.find_tables)")).
    rewrite (app_assoc title_tl), (app_assoc (title_tl ++ NL)),
      (app_assoc ((title_tl ++ NL) ++ NL)).
    change (35%N :: (((title_tl ++ NL) ++ NL) ++ lit "## Pag")
                    ++ 101%N :: 32%N :: number ++ more)
      with ((35%N :: ((title_tl ++ NL) ++ NL) ++ lit "## Pag")
              ++ 101%N :: (32%N :: number ++ more)).
    rewrite rstrip_app_nonspace by reflexivity.
    rewrite <- !app_assoc. reflexivity. }
  exists (rstrip (32%N :: number ++ more)). split.
  - by rewrite Hs.
  - by rewrite <- Hs, strip_idem.
Qed.

(** X4. The text [extract_tables_markdown] returns is empty exactly when no
    page has an accepted table; otherwise it begins with the document
    heading, a blank line and the heading of a page, and it is a text
    without white space at either end followed by one line feed. *)
Theorem extract_tables_markdown_shape :
  forall (doc : Document) (page_numbers_0_based : option (list Z)) (w : World)
         (text : str),
    (extract_tables_markdown doc page_numbers_0_based w).1 = inr text ->
    (text = [] <->
     Forall (fun p => p.2 = [])
       (accepted (loaded doc (pages_iter doc page_numbers_0_based)) []))
    /\
    (text <> [] ->
     exists rest,
       text = (lit "# Extracted tables (PyMuPDF Page.find_tables)" ++ NL ++ NL
               ++ lit "## Page" ++ rest) ++ NL
       /\ strip (lit "# Extracted tables (PyMuPDF Page.find_tables)" ++ NL ++ NL
                 ++ lit "## Page" ++ rest)
          = lit "# Extracted tables (PyMuPDF Page.find_tables)" ++ NL ++ NL
            ++ lit "## Page" ++ rest).
Proof.
  intros doc pns w text. rewrite extract_tables_markdown_run. cbn [fst].
  destruct (load_error _ _); [done|]. intros [= <-].
  destruct (flat_map page_section _) as [|l out] eqn:E.
  - split; [|done]. split; [intros _; by apply flat_map_page_section_nil|done].
  - destruct (flat_map_page_section_head _ _ _ E) as [number Hl].
    destruct (document_md_shape (l :: out)) as (rest & Hd & Hs); [done|by eauto|].
    split.
    + split.
      * rewrite Hd. intros H. by apply app_eq_nil in H as [_ ?].
      * intros H. apply flat_map_page_section_nil in H. congruence.
    + intros _. eauto.
Qed.

Lemma extract_tables_markdown_shape_witness :
  (join NL
     [ lit "# Extracted tables (PyMuPDF Page.find_tables)";
       [];
       lit "## Page 1";
       lit "### Table 1 (strategy=lines_strict, rows=3, cols=3)";
       lit "|a|b|c|";
       [];
       lit "### Table 2 (strategy=text, rows=2, cols=4)";
       lit "_Failed to export table to markdown: no cells_";
       [];
       lit "## Page 2";
       lit "### Table 1 (strategy=lines_strict, rows=4, cols=2)";
       lit "|k|v|";
       [] ] = [] <->
   Forall (fun p => p.2 = [])
     (accepted (loaded sample_doc (pages_iter sample_doc None)) []))
  /\
  (join NL
     [ lit "# Extracted tables (PyMuPDF Page.find_tables)";
       [];
       lit "## Page 1";
       lit "### Table 1 (strategy=lines_strict, rows=3, cols=3)";
       lit "|a|b|c|";
       [];
       lit "### Table 2 (strategy=text, rows=2, cols=4)";
       lit "_Failed to export table to markdown: no cells_";
       [];
       lit "## Page 2";
       lit "### Table 1 (strategy=lines_strict, rows=4, cols=2)";
       lit "|k|v|";
       [] ] <> [] ->
   exists rest,
     join NL
       [ lit "# Extracted tables (PyMuPDF Page.find_tables)";
         [];
         lit "## Page 1";
         lit "### Table 1 (strategy=lines_strict, rows=3, cols=3)";
         lit "|a|b|c|";
         [];
         lit "### Table 2 (strategy=text, rows=2, cols=4)";
         lit "_Failed to export table to markdown: no cells_";
         [];
         lit "## Page 2";
         lit "### Table 1 (strategy=lines_strict, rows=4, cols=2)";
         lit "|k|v|";
         [] ]
     = (lit "# Extracted tables (PyMuPDF Page.find_tables)" ++ NL ++ NL
        ++ lit "## Page" ++ rest) ++ NL
     /\ strip (lit "# Extracted tables (PyMuPDF Page.find_tables)" ++ NL ++ NL
               ++ lit "## Page" ++ rest)
        = lit "# Extracted tables (PyMuPDF Page.find_tables)" ++ NL ++ NL
          ++ lit "## Page" ++ rest).
Proof.
  apply (extract_tables_markdown_shape sample_doc None (MkWorld ∅ ∅ [])).
  vm_compute. reflexivity.
Defined.

(** ** The environment variable of the OCR data *)

(** The two ways a call of [_ensure_tessdata_prefix] goes. *)
Lemma ensure_tessdata_prefix_cases X w :
  _ensure_tessdata_prefix X w = (inr tt, w)
  \/ exists t,
       t <> [] /\ pymupdf_get_tessdata X = inr (Some t)
       /\ _ensure_tessdata_prefix X w
          = (inr tt, set_environ (<["TESSDATA_PREFIX"%string := t]> (environ w)) w).
Proof.
  unfold _ensure_tessdata_prefix.
  destruct (environ w !! "TESSDATA_PREFIX"%string) as [[|c v]|];
    [|by left|];
    (destruct (pymupdf_get_tessdata X) as [e|[[|c' t]|]];
     [by left|by left| |by left]);
    right; by exists (c' :: t).
Qed.



(** ** What a run can touch *)

(** [keeps R c]: the world a run of [c] leaves is related by [R] to the
    world it started in, whether [c] returns or raises. *)
Definition keeps {A} (R : World -> World -> Prop) (c : M A) : Prop :=
  forall w, R w (c w).2.

Lemma keeps_bind {A B} (R1 R2 R3 : World -> World -> Prop) (c : M A) (k : A -> M B) :
  (forall w, R2 w w) ->
  (forall w1 w2 w3, R1 w1 w2 -> R2 w2 w3 -> R3 w1 w3) ->
  keeps R1 c -> (forall a, keeps R2 (k a)) -> keeps R3 (c ≫= k).
Proof.
  intros Hr Ht Hc Hk w. rewrite bind_run. specialize (Hc w).
  destruct (c w) as [[e|a] w1]; cbn [snd] in *.
  - eapply Ht; [exact Hc|apply Hr].
  - eapply Ht; [exact Hc|apply Hk].
Qed.

Lemma keeps_pure {A} (R : World -> World -> Prop) (c : M A) :
  (forall w, R w w) -> (forall w, (c w).2 = w) -> keeps R c.
Proof. intros Hr Hc w. rewrite Hc. apply Hr. Qed.

(** The calls recorded all satisfy [P], no path outside [S] has changed,
    and no environment variable but [TESSDATA_PREFIX] has. *)
Definition within (P : event -> Prop) (S : Path -> Prop) (w w' : World) : Prop :=
  (exists evs, log w' = log w ++ evs /\ Forall P evs)
  /\ (forall p, ~ S p -> fs w' !! p = fs w !! p)
  /\ (forall k, k <> "TESSDATA_PREFIX"%string -> environ w' !! k = environ w !! k).

Lemma within_refl P S w : within P S w w.
Proof.
  split; [|done]. exists []. by rewrite app_nil_r.
Qed.

Lemma within_trans P S w1 w2 w3 :
  within P S w1 w2 -> within P S w2 w3 -> within P S w1 w3.
Proof.
  intros ((evs1 & L1 & F1) & Hf1 & He1) ((evs2 & L2 & F2) & Hf2 & He2).
  split; [|split].
  - exists (evs1 ++ evs2). rewrite L2, L1, <- app_assoc. split; [done|].
    by apply Forall_app.
  - intros p Hp. by rewrite Hf2, Hf1.
  - intros k Hk. by rewrite He2, He1.
Qed.

Lemma within_mono (P Q : event -> Prop) (S T : Path -> Prop) w w' :
  (forall ev, P ev -> Q ev) -> (forall p, S p -> T p) ->
  within P S w w' -> within Q T w w'.
Proof.
  intros HP HS ((evs & L & F) & Hf & He). split; [|split; [|done]].
  - exists evs. split; [done|]. eapply Forall_impl; [exact F|exact HP].
  - intros p Hp. apply Hf. intros H. by apply Hp, HS.
Qed.

Lemma within_add_log P S evs w : Forall P evs -> within P S w (add_log evs w).
Proof. intros H. split; [|done]. by exists evs. Qed.

(** No call of [write_text] has been made and no file has changed. *)
Definition no_write (w w' : World) : Prop :=
  writes (log w') = writes (log w) /\ fs w' = fs w.

Definition no_write_event (ev : event) : Prop := writes [ev] = [].

Lemma writes_none evs : Forall no_write_event evs -> writes evs = [].
Proof.
  induction 1 as [|ev evs H _ IH]; [done|].
  change (ev :: evs) with ([ev] ++ evs). by rewrite writes_app, H, IH.
Qed.

Lemma within_no_write P w w' :
  (forall ev, P ev -> no_write_event ev) ->
  within P (fun _ => False) w w' -> no_write w w'.
Proof.
  intros HP ((evs & L & F) & Hf & _). split.
  - rewrite L, writes_app, (writes_none evs), app_nil_r; [done|].
    eapply Forall_impl; [exact F|exact HP].
  - apply map_eq. intros p. apply Hf. tauto.
Qed.

Section Footprint.

Variable X : Extern.
Variable P : event -> Prop.
Variable S : Path -> Prop.

Lemma keeps_within_bind {A B} (c : M A) (k : A -> M B) :
  keeps (within P S) c -> (forall a, keeps (within P S) (k a)) ->
  keeps (within P S) (c ≫= k).
Proof.
  apply keeps_bind; [apply within_refl|apply within_trans].
Qed.

Lemma keeps_within_pure {A} (c : M A) :
  (forall w, (c w).2 = w) -> keeps (within P S) c.
Proof. apply keeps_pure, within_refl. Qed.

Lemma keeps_ensure_tessdata_prefix : keeps (within P S) (_ensure_tessdata_prefix X).
Proof.
  intros w.
  destruct (ensure_tessdata_prefix_cases X w) as [->|(t & _ & _ & ->)];
    [apply within_refl|].
  split; [|split; [done|]].
  - exists []. by rewrite app_nil_r.
  - intros k Hk. cbn [snd environ set_environ]. by rewrite lookup_insert_ne.
Qed.

Lemma keeps_emit ev : P ev -> keeps (within P S) (emit ev).
Proof. intros H w. apply within_add_log. by constructor. Qed.

Lemma keeps_open_document p :
  P (EvOpen p) -> keeps (within P S) (open_document X p).
Proof.
  intros H. apply keeps_within_bind; [by apply keeps_emit|]. intros _.
  apply keeps_within_pure. intros w. by destruct (fs w !! p) as [[|b]|].
Qed.

Lemma keeps_to_markdown_call doc kw :
  P (EvToMarkdown kw) -> keeps (within P S) (to_markdown_call X doc kw).
Proof.
  intros H. apply keeps_within_bind; [by apply keeps_emit|]. intros _.
  by apply keeps_within_pure.
Qed.

Lemma keeps_extract_tables_markdown doc pns :
  (forall pno strat kwargs, P (EvFindTables pno strat kwargs)) ->
  keeps (within P S) (extract_tables_markdown doc pns).
Proof.
  intros H w. rewrite extract_tables_markdown_run. cbn [snd].
  apply within_add_log. unfold detector_calls, page_calls.
  apply List.Forall_forall. intros ev Hev.
  apply in_flat_map in Hev as (pno & _ & Hev).
  apply in_map_iff in Hev as (s & <- & _). apply H.
Qed.

Lemma keeps_mkdir_exist_ok p :
  P (EvMkdir p) -> S p -> keeps (within P S) (mkdir_exist_ok p).
Proof.
  intros H HS. apply keeps_within_bind; [by apply keeps_emit|]. intros _ w.
  unfold is_dir.
  destruct (fs w !! p) as [[|b]|]; try apply within_refl.
  destruct (fs w !! parent p) as [[|b]|]; try apply within_refl.
  split; [|split; [|done]].
  - exists []. by rewrite app_nil_r.
  - intros q Hq. cbn [snd fs set_fs]. rewrite lookup_insert_ne; [done|].
    by intros <-.
Qed.

Lemma keeps_write_text p text :
  P (EvWriteText p text) -> S p -> keeps (within P S) (write_text p text).
Proof.
  intros H HS w. rewrite write_text_run. cbn [snd]. split; [|split; [|done]].
  - exists [EvWriteText p text]. split; [done|]. by constructor.
  - intros q Hq. cbn [fs]. unfold write_effect.
    destruct (fs_is_dir _ _); [done|]. destruct (negb _); [done|].
    destruct (forallb _ _); cbn [snd]; rewrite lookup_insert_ne; try done;
      by intros <-.
Qed.

Lemma keeps_for_each {St A} (body : St -> A -> M St) l s :
  (forall s a, keeps (within P S) (body s a)) ->
  keeps (within P S) (for_each body l s).
Proof.
  intros H. revert s. induction l as [|a l IH]; intros s.
  - by apply keeps_within_pure.
  - cbn [for_each]. apply keeps_within_bind; [apply H|]. intros s'. apply IH.
Qed.

End Footprint.

(** *** The whole-document conversion *)

(** At most one call of [write_text] has been made, and none means no file
    has changed. *)
Definition at_most_one_write (w w' : World) : Prop :=
  no_write w w' \/ exists p text, writes (log w') = writes (log w) ++ [(p, text)].

Lemma no_write_refl w : no_write w w.
Proof. done. Qed.

Lemma no_write_trans w1 w2 w3 : no_write w1 w2 -> no_write w2 w3 -> no_write w1 w3.
Proof. intros [? ?] [? ?]. split; congruence. Qed.

Lemma no_write_then_one w1 w2 w3 :
  no_write w1 w2 -> at_most_one_write w2 w3 -> at_most_one_write w1 w3.
Proof.
  intros [Hw Hf] [H|(p & text & H)].
  - left. by apply (no_write_trans _ w2).
  - right. exists p, text. by rewrite H, Hw.
Qed.

Lemma one_then_no_write w1 w2 w3 :
  at_most_one_write w1 w2 -> no_write w2 w3 -> at_most_one_write w1 w3.
Proof.
  intros [H|(p & text & H)] [Hw Hf].
  - left. by apply (no_write_trans _ w2).
  - right. exists p, text. by rewrite Hw, H.
Qed.

(** The calls the whole-document conversion can make: it opens nothing but
    the input, renders with the keyword arguments built from its flags,
    looks for tables only when they are included, creates no directory and
    writes to nothing but the Markdown file. *)
Definition whole_event (pdf_file : Path) (kw : P4llmKwargs) (include_tables : bool)
    (md_file : Exc Path) (ev : event) : Prop :=
  match ev with
  | EvOpen p => p = pdf_file
  | EvToMarkdown k => k = kw
  | EvFindTables _ _ _ => include_tables = true
  | EvMkdir _ => False
  | EvWriteText p _ => md_file = inr p
  end.

Section WholeFootprint.

Variable X : Extern.
Variable P : event -> Prop.
Variable S : Path -> Prop.

(** Before the file is written. *)
Definition before_write (w w' : World) : Prop := within P S w w' /\ no_write w w'.

(** At the end. *)
Definition after_write (w w' : World) : Prop :=
  within P S w w' /\ at_most_one_write w w'.

Lemma before_write_refl w : before_write w w.
Proof. split; [apply within_refl|apply no_write_refl]. Qed.

Lemma after_write_refl w : after_write w w.
Proof. split; [apply within_refl|left; apply no_write_refl]. Qed.

Lemma before_write_trans w1 w2 w3 :
  before_write w1 w2 -> before_write w2 w3 -> before_write w1 w3.
Proof.
  intros [? ?] [? ?].
  split; [by apply (within_trans _ _ _ w2)|by apply (no_write_trans _ w2)].
Qed.

Lemma before_then_after w1 w2 w3 :
  before_write w1 w2 -> after_write w2 w3 -> after_write w1 w3.
Proof.
  intros [? ?] [? ?].
  split; [by apply (within_trans _ _ _ w2)|by apply (no_write_then_one _ w2)].
Qed.

Lemma after_then_before w1 w2 w3 :
  after_write w1 w2 -> before_write w2 w3 -> after_write w1 w3.
Proof.
  intros [? ?] [? ?].
  split; [by apply (within_trans _ _ _ w2)|by apply (one_then_no_write _ w2)].
Qed.

Lemma keeps_before_write {A} (c : M A) :
  keeps (within (fun ev => P ev /\ no_write_event ev) (fun _ => False)) c ->
  keeps before_write c.
Proof.
  intros H w. split.
  - eapply within_mono; [| |apply H]; [by intros ev [? ?]|by intros p []].
  - eapply within_no_write; [|apply H]. by intros ev [? ?].
Qed.

Lemma keeps_before_bind {A B} R (c : M A) (k : A -> M B) :
  (forall w, R w w) ->
  (forall w1 w2 w3, before_write w1 w2 -> R w2 w3 -> R w1 w3) ->
  keeps before_write c -> (forall a, keeps R (k a)) -> keeps R (c ≫= k).
Proof. apply keeps_bind. Qed.

Lemma keeps_after_write_text p text :
  P (EvWriteText p text) -> S p -> keeps after_write (write_text p text).
Proof.
  intros HP HS w. split; [by apply keeps_write_text|].
  right. exists p, text. rewrite write_text_run. cbn [snd log].
  by rewrite writes_app.
Qed.

End WholeFootprint.

Lemma whole_conversion_keeps X pdf_path output_path use_ocr header footer
    include_tables :
  keeps (after_write
           (whole_event (parse_path pdf_path)
              (_p4llm_kwargs false use_ocr header footer) include_tables
              (resolve_md_file (parse_path pdf_path) output_path))
           (fun p => resolve_md_file (parse_path pdf_path) output_path = inr p))
    (convert_pdf_to_markdown X pdf_path output_path use_ocr header footer
       include_tables).
Proof.
  set (P := whole_event _ _ _ _). set (S := fun p : Path => resolve_md_file (parse_path pdf_path) output_path = inr p).
  assert (forall A (c : M A), (forall w, (c w).2 = w) -> keeps (after_write P S) c)
    as Hpure by (intros A c; apply keeps_pure, after_write_refl).
  assert (forall A (c : M A), (forall w, (c w).2 = w) -> keeps (before_write P S) c)
    as Hpure' by (intros A c; apply keeps_pure, before_write_refl).
  unfold convert_pdf_to_markdown.
  apply (keeps_before_bind P S);
    [apply after_write_refl|apply before_then_after|by apply Hpure'|].
  intros found. destruct (negb found); [by apply Hpure|].
  destruct (negb _); [by apply Hpure|].
  apply (keeps_before_bind P S);
    [apply after_write_refl|apply before_then_after| |].
  { apply keeps_before_write, keeps_ensure_tessdata_prefix. }
  intros _.
  apply (keeps_before_bind P S);
    [apply after_write_refl|apply before_then_after| |].
  { apply keeps_before_write, keeps_open_document. done. }
  intros doc.
  apply (keeps_before_bind P S);
    [apply after_write_refl|apply before_then_after| |].
  { apply keeps_before_write.
    exact (keeps_to_markdown_call X _ _ doc
             (_p4llm_kwargs false use_ocr header footer) (conj eq_refl eq_refl)). }
  intros md_text.
  apply (keeps_before_bind P S);
    [apply after_write_refl|apply before_then_after| |].
  { assert (include_tables = true \/ include_tables = false) as [Hi|Hi]
      by (destruct include_tables; auto);
      rewrite Hi at 1; [|by apply Hpure'].
    apply (keeps_before_bind P S);
      [apply before_write_refl|apply before_write_trans| |].
    - apply keeps_before_write, keeps_extract_tables_markdown.
      intros pno strat kwargs. split; [|done]. subst P. cbn [whole_event].
      exact Hi.
    - intros [|c t]; by apply Hpure'. }
  intros text.
  assert (forall md_file,
            resolve_md_file (parse_path pdf_path) output_path = inr md_file ->
            keeps (after_write P S)
              (write_text md_file text ;; mret (path_str md_file))) as Hend.
  { intros md_file Hmd.
    apply (keeps_bind (after_write P S) (before_write P S));
      [apply before_write_refl|apply after_then_before| |].
    - apply keeps_after_write_text; done.
    - intros _. by apply Hpure'. }
  destruct output_path as [[|c o]|]; intros w; rewrite bind_run.
  - unfold lift. destruct (with_suffix _ _) as [e|md_file] eqn:Hmd;
      [apply after_write_refl|by apply Hend].
  - rewrite mret_run. by apply Hend.
  - unfold lift. destruct (with_suffix _ _) as [e|md_file] eqn:Hmd;
      [apply after_write_refl|by apply Hend].
Qed.

(** X6. What a run of [convert_pdf_to_markdown] can do, whether it
    returns or raises: it opens nothing but the input, calls the renderer
    with no other keyword arguments than those built from its flags, calls
    the table detector only when tables are included, and creates no
    directory; it calls [write_text] at most once, and only on the Markdown
    file; when it has not called it, the file system is as it was; no path
    but that of the Markdown file ever changes; and no environment variable
    but [TESSDATA_PREFIX] does. *)
Theorem whole_conversion_footprint :
  forall (X : Extern) (pdf_path : str) (output_path : option str)
         (use_ocr header footer include_tables : bool) (w : World),
    exists evs,
      log (convert_pdf_to_markdown X pdf_path output_path use_ocr header footer
             include_tables w).2 = log w ++ evs
      /\ Forall (whole_event (parse_path pdf_path)
                   (_p4llm_kwargs false use_ocr header footer) include_tables
                   (resolve_md_file (parse_path pdf_path) output_path)) evs
      /\ (length (writes evs) <= 1)%nat
      /\ (writes evs = [] ->
          fs (convert_pdf_to_markdown X pdf_path output_path use_ocr header footer
                include_tables w).2 = fs w)
      /\ (forall p,
            resolve_md_file (parse_path pdf_path) output_path <> inr p ->
            fs (convert_pdf_to_markdown X pdf_path output_path use_ocr header
                  footer include_tables w).2 !! p = fs w !! p)
      /\ (forall k, k <> "TESSDATA_PREFIX"%string ->
            environ (convert_pdf_to_markdown X pdf_path output_path use_ocr header
                       footer include_tables w).2 !! k = environ w !! k).
Proof.
  intros X pdf_path output_path use_ocr header footer include_tables w.
  destruct (whole_conversion_keeps X pdf_path output_path use_ocr header footer
              include_tables w) as [((evs & L & F) & Hf & He) Hw].
  exists evs. split; [done|]. split; [done|].
  unfold at_most_one_write, no_write in Hw. rewrite L, writes_app in Hw.
  split; [|split; [|split; [exact Hf|exact He]]].
  - destruct Hw as [[Hw _]|(p & text & Hw)].
    + rewrite <- (app_nil_r (writes (log w))) in Hw at 2.
      apply app_inv_head in Hw. rewrite Hw. simpl. lia.
    + apply app_inv_head in Hw. rewrite Hw. simpl. lia.
  - intros Hn. destruct Hw as [[_ Hw]|(p & text & Hw)]; [done|].
    apply app_inv_head in Hw. rewrite Hn in Hw. done.
Qed.

(** *** The file a whole-document conversion leaves *)

Lemma stem_suffix p : stem p ++ suffix p = name p.
Proof.
  unfold stem, suffix. destruct (rfind 46%N (name p)) as [i|].
  - destruct (_ && _); [apply take_drop|apply app_nil_r].
  - apply app_nil_r.
Qed.

Lemma tail_name p : name p <> [] -> tail p = removelast (tail p) ++ [name p].
Proof.
  unfold name. intros H. apply app_removelast_last. by intros E; rewrite E in H.
Qed.

(** The default Markdown file is next to the input, is named after its stem,
    and is another file than the input. *)
Lemma with_suffix_md p md_file :
  lower (suffix p) = lit ".pdf" ->
  with_suffix p (lit ".md") = inr md_file ->
  md_file = MkPath (root p) (removelast (tail p) ++ [stem p ++ lit ".md"])
  /\ md_file <> p
  /\ parent md_file = parent p
  /\ name md_file = stem p ++ lit ".md".
Proof.
  intros Hs. unfold with_suffix. destruct (name p) as [|c n] eqn:En; [done|].
  intros [= <-]. split; [done|]. split; [|split].
  - intros Heq. apply (f_equal tail) in Heq. cbn [tail] in Heq.
    assert (removelast (tail p) ++ [stem p ++ lit ".md"]
            = removelast (tail p) ++ [name p]) as Ht.
    { etransitivity; [exact Heq|]. apply tail_name. by rewrite En. }
    apply app_inv_head in Ht. injection Ht as Ht.
    rewrite <- stem_suffix in Ht. apply app_inv_head in Ht.
    rewrite <- Ht in Hs. vm_compute in Hs. discriminate Hs.
  - unfold parent. cbn [root tail]. by rewrite removelast_last.
  - unfold name. cbn [tail]. by rewrite last_last.
Qed.

Lemma write_effect_done p text f :
  (write_effect p text f).1 = inr tt ->
  f !! parent p = Some Dir /\ f !! p <> Some Dir /\ forallb encodable text = true.
Proof.
  unfold write_effect, fs_is_dir.
  destruct (f !! p) as [[|b]|]; [done| |];
    (destruct (f !! parent p) as [[|b']|]; [|done|done]);
    (destruct (forallb encodable text); [done|done]).
Qed.

(** The Markdown file and the file system after a whole-document conversion
    that returns. *)
Lemma whole_conversion_output_aux X pdf_path output_path use_ocr header footer
    include_tables w out :
  (convert_pdf_to_markdown X pdf_path output_path use_ocr header footer
     include_tables w).1 = inr out ->
  exists (md_file : Path) (text : str),
    md_file
    = match output_path with
      | Some (c :: o) => parse_path (c :: o)
      | _ => MkPath (root (parse_path pdf_path))
               (removelast (tail (parse_path pdf_path))
                ++ [stem (parse_path pdf_path) ++ lit ".md"])
      end
    /\ fs (convert_pdf_to_markdown X pdf_path output_path use_ocr header footer
             include_tables w).2
       = <[md_file := File (utf8 text)]> (fs w).
Proof.
  intros H.
  apply convert_pdf_to_markdown_success in H
    as (bytes & doc & md & file & env & Hf & Hs & Ho & Hr & Hmd & -> & E & _ & Hw).
  exists file, (whole_text include_tables doc md). rewrite E. split; [|done].
  unfold resolve_md_file in Hmd.
  destruct output_path as [[|c o]|]; [| congruence |];
    by apply with_suffix_md in Hmd as (-> & _).
Qed.

(** X7. When [convert_pdf_to_markdown] returns, the input was a regular
    file whose suffix is [.pdf] in some letter case, and the libraries opened
    and rendered it; the Markdown file is [output_path] when that is given
    and not empty, and else the input path with [.md] for its suffix, which
    is next to the input and is never the input itself; the directory of
    the Markdown file existed beforehand, as the conversion creates none;
    the value returned is the path of the Markdown file; the file system
    differs from the one before in that file alone, which holds the UTF-8
    encoding of the rendered text, followed by the tables section when
    tables are included and there are any; and the calls made are, in this
    order: opening the input, the renderer, the table detector on every
    page when tables are included, and one [write_text]. *)
Theorem whole_conversion_output :
  forall (X : Extern) (pdf_path : str) (output_path : option str)
         (use_ocr header footer include_tables : bool) (w : World) (out : str),
    (convert_pdf_to_markdown X pdf_path output_path use_ocr header footer
       include_tables w).1 = inr out ->
    exists (bytes : list N) (doc : Document) (md_text : str) (md_file : Path),
      fs w !! parse_path pdf_path = Some (File bytes)
      /\ lower (suffix (parse_path pdf_path)) = lit ".pdf"
      /\ pymupdf_open X (parse_path pdf_path) bytes = inr doc
      /\ pymupdf4llm_to_markdown X doc (_p4llm_kwargs false use_ocr header footer)
         = inr md_text
      /\ md_file
         = match output_path with
           | Some (c :: o) => parse_path (c :: o)
           | _ => MkPath (root (parse_path pdf_path))
                    (removelast (tail (parse_path pdf_path))
                     ++ [stem (parse_path pdf_path) ++ lit ".md"])
           end
      /\ (output_path = None \/ output_path = Some [] ->
          md_file <> parse_path pdf_path
          /\ parent md_file = parent (parse_path pdf_path)
          /\ name md_file = stem (parse_path pdf_path) ++ lit ".md")
      /\ fs w !! parent md_file = Some Dir
      /\ out = path_str md_file
      /\ fs (convert_pdf_to_markdown X pdf_path output_path use_ocr header footer
               include_tables w).2
         = <[md_file := File (utf8 (whole_text include_tables doc md_text))]> (fs w)
      /\ log (convert_pdf_to_markdown X pdf_path output_path use_ocr header footer
                include_tables w).2
         = log w
           ++ [EvOpen (parse_path pdf_path);
               EvToMarkdown (_p4llm_kwargs false use_ocr header footer)]
           ++ whole_calls include_tables doc
           ++ [EvWriteText md_file (whole_text include_tables doc md_text)].
Proof.
  intros X pdf_path output_path use_ocr header footer include_tables w out H.
  apply convert_pdf_to_markdown_success in H
    as (bytes & doc & md & file & env & Hf & Hs & Ho & Hr & Hmd & -> & E & _ & Hw).
  exists bytes, doc, md, file. repeat (split; [done|]).
  apply write_effect_done in Hw as (Hdir & _ & _).
  rewrite E. cbn [snd fs log].
  split; [|split; [|done]].
  - unfold resolve_md_file in Hmd.
    destruct output_path as [[|c o]|]; [| congruence |];
      by apply with_suffix_md in Hmd as (-> & _).
  - intros [->| ->]; cbn [resolve_md_file] in Hmd;
      by apply with_suffix_md in Hmd as (_ & ? & ? & ?).
Qed.

Lemma whole_conversion_output_witness :
  exists md_file : Path,
    md_file <> parse_path (lit "report.pdf")
    /\ lit "report.md" = path_str md_file
    /\ fs (convert_pdf_to_markdown sample_extern (lit "report.pdf") None
             true true true true sample_world).2 !! md_file
       = Some (File (utf8 (whole_text true sample_doc (lit "Whole text" ++ NL)))).
Proof.
  destruct (whole_conversion_output sample_extern (lit "report.pdf") None
              true true true true sample_world (lit "report.md"))
    as (bytes & doc & md_text & md_file & Hf & _ & Ho & Hr & _ & Hd & _ & Hout
        & Hfs & _).
  - vm_compute. reflexivity.
  - exists md_file. split; [apply Hd; by left|]. split; [exact Hout|].
    rewrite Hfs, lookup_insert_eq.
    assert (bytes = [1%N]) as -> by (vm_compute in Hf; congruence).
    assert (doc = sample_doc) as -> by (cbn in Ho; congruence).
    assert (md_text = lit "Whole text" ++ NL) as ->
      by (change (@inr exn str (lit "Whole text" ++ NL) = inr md_text) in Hr;
          congruence).
    reflexivity.
Defined.

Lemma second_run_same_output_witness :
  (convert_pdf_to_markdown sample_extern (lit "report.pdf") None
     true true true true
     (convert_pdf_to_markdown sample_extern (lit "report.pdf") None
        true true true true sample_world).2).1 = inr (lit "report.md")
  /\ fs (convert_pdf_to_markdown sample_extern (lit "report.pdf") None
           true true true true
           (convert_pdf_to_markdown sample_extern (lit "report.pdf") None
              true true true true sample_world).2).2
     = fs (convert_pdf_to_markdown sample_extern (lit "report.pdf") None
             true true true true sample_world).2.
Proof.
  apply (second_run_same_output sample_extern (lit "report.pdf") None
           true true true true sample_world (lit "report.md"));
    vm_compute; reflexivity.
Defined.

(** *** The chunked conversion *)

(** [output_dir] of [convert_with_page_chunks] *)
Definition pages_dir (pdf_file : Path) : Path :=
  joinpath (parent pdf_file) (stem pdf_file ++ lit "_pages").

(** The calls the chunked conversion can make: it opens nothing but the
    input, renders with the keyword arguments built from its flags, looks
    for tables only when they are included, creates no directory but
    [output_dir] and writes to nothing but page files inside it. *)
Definition chunk_event (pdf_file : Path) (kw : P4llmKwargs) (include_tables : bool)
    (ev : event) : Prop :=
  match ev with
  | EvOpen p => p = pdf_file
  | EvToMarkdown k => k = kw
  | EvFindTables _ _ _ => include_tables = true
  | EvMkdir p => p = pages_dir pdf_file
  | EvWriteText p _ => exists i, p = joinpath (pages_dir pdf_file) (page_name i)
  end.

Lemma rfind_lookup c s i : rfind c s = Some i -> s !! i = Some c.
Proof.
  revert i. induction s as [|x s IH]; intros i; [done|]. cbn [rfind].
  destruct (rfind c s) as [j|].
  - intros [= <-]. by apply IH.
  - destruct (N.eqb_spec x c) as [->|]; [|done]. by intros [= <-].
Qed.

(** A suffix is empty or begins with a dot. *)
Lemma suffix_dot p : suffix p = [] \/ exists s, suffix p = 46%N :: s.
Proof.
  unfold suffix. destruct (rfind 46%N (name p)) as [i|] eqn:E; [|by left].
  destruct (_ && _); [|by left]. right.
  apply rfind_lookup in E. exists (drop (S i) (name p)). by apply drop_S.
Qed.

(** Neither the directory of the page files nor a page file is the input. *)
Lemma pages_dir_not_input s : pages_dir (parse_path s) <> parse_path s.
Proof.
  unfold pages_dir. rewrite output_dir_name. intros Heq.
  apply (f_equal (fun p => List.last (tail p) [])) in Heq. cbn [tail] in Heq.
  rewrite last_last in Heq. fold (name (parse_path s)) in Heq.
  rewrite <- stem_suffix in Heq. apply app_inv_head in Heq.
  destruct (suffix_dot (parse_path s)) as [E|[x E]]; rewrite E in Heq;
    discriminate Heq.
Qed.

Lemma page_file_not_input s i :
  joinpath (pages_dir (parse_path s)) (page_name i) <> parse_path s.
Proof.
  rewrite joinpath_page_name. unfold pages_dir. rewrite output_dir_name.
  cbn [root tail]. intros Heq. apply (f_equal (fun p => length (tail p))) in Heq.
  cbn [tail] in Heq. rewrite !length_app in Heq. cbn [length] in Heq.
  rewrite removelast_firstn_len, length_firstn in Heq. lia.
Qed.

(** One page: at most one call of [write_text], on the file of the page,
    and exactly one when the page is done. *)
Lemma write_page_writes doc dir include_tables i pd w :
  (writes (log (write_page doc dir include_tables tt (i, pd) w).2) = writes (log w)
   /\ (write_page doc dir include_tables tt (i, pd) w).1 <> inr tt)
  \/ exists text,
       writes (log (write_page doc dir include_tables tt (i, pd) w).2)
       = writes (log w) ++ [(joinpath dir (page_name i), text)].
Proof.
  unfold write_page. fold (page_name i). rewrite bind_run.
  destruct include_tables.
  - rewrite bind_run, extract_single_page.
    destruct (getitem doc (Z.of_nat i)) as [e|page]; [by left|].
    cbv zeta. right.
    destruct (strip _); rewrite mret_run, write_text_run; eexists;
      cbn [snd log add_log]; rewrite !writes_app, writes_detector_calls;
      by rewrite app_nil_r.
  - right. rewrite mret_run, write_text_run. eexists. cbn [snd log].
    by rewrite writes_app.
Qed.

(** The loop: the calls of [write_text] are on the files of consecutive
    pages, in order, with no gap, and none is missing at a normal end. *)
Lemma write_pages_writes doc dir include_tables pds start w :
  exists n,
    (n <= length pds)%nat
    /\ map fst (writes (log (for_each (write_page doc dir include_tables)
                               (enumerate pds start) tt w).2))
       = map fst (writes (log w))
         ++ map (fun i => joinpath dir (page_name i)) (seq start n)
    /\ ((for_each (write_page doc dir include_tables) (enumerate pds start) tt w).1
        = inr tt -> n = length pds).
Proof.
  revert start w. induction pds as [|pd pds IH]; intros start w.
  - exists 0%nat.
    change (for_each (write_page doc dir include_tables) (enumerate [] start) tt w)
      with (@inr exn unit tt, w).
    cbn [snd seq map]. by rewrite app_nil_r.
  - rewrite enumerate_cons, for_each_cons.
    destruct (write_page_writes doc dir include_tables start pd w) as [[Hw Hr]|[text Hw]].
    + exists 0%nat. split; [simpl; lia|].
      destruct (write_page doc dir include_tables tt (start, pd) w) as [[e|[]] w1];
        [|done]. cbn [fst snd seq map] in Hw |- *. rewrite Hw, app_nil_r. done.
    + destruct (write_page doc dir include_tables tt (start, pd) w) as [[e|[]] w1].
      * exists 1%nat. split; [simpl; lia|]. cbn [fst snd seq map] in Hw |- *.
        rewrite Hw, map_app. done.
      * destruct (IH (S start) w1) as (n & Hn & Hm & Hd).
        exists (S n). split; [simpl; lia|]. cbn [snd] in Hw.
        rewrite Hm, Hw, map_app, <- app_assoc. cbn [seq map fst app].
        split; [done|]. intros H. simpl. f_equal. by apply Hd.
Qed.

Section ChunkFootprint.

Variable X : Extern.
Variable doc : Document.
Variable dir : Path.
Variable include_tables : bool.
Variable P : event -> Prop.

Let pages : Path -> Prop :=
  fun p => p = dir \/ exists i, p = joinpath dir (page_name i).

Hypothesis P_find_tables :
  include_tables = true -> forall pno strat kwargs, P (EvFindTables pno strat kwargs).
Hypothesis P_write_text : forall i text, P (EvWriteText (joinpath dir (page_name i)) text).

Lemma keeps_write_page i pd :
  keeps (within P pages) (write_page doc dir include_tables tt (i, pd)).
Proof.
  unfold write_page. fold (page_name i).
  apply keeps_within_bind.
  - destruct include_tables; [|by apply keeps_within_pure].
    apply keeps_within_bind; [by apply keeps_extract_tables_markdown, P_find_tables|].
    intros tables_md. cbv zeta. destruct (strip tables_md); by apply keeps_within_pure.
  - intros text. apply keeps_write_text; [apply P_write_text|]. right. by exists i.
Qed.

End ChunkFootprint.

Lemma chunked_conversion_keeps X pdf_path use_ocr header footer include_tables :
  keeps (within
           (chunk_event (parse_path pdf_path)
              (_p4llm_kwargs true use_ocr header footer) include_tables)
           (fun p => p = pages_dir (parse_path pdf_path)
                     \/ exists i, p = joinpath (pages_dir (parse_path pdf_path))
                                        (page_name i)))
    (convert_with_page_chunks X pdf_path use_ocr header footer include_tables).
Proof.
  unfold convert_with_page_chunks. fold (pages_dir (parse_path pdf_path)).
  apply keeps_within_bind; [by apply keeps_within_pure|]. intros found.
  destruct (negb found); [by apply keeps_within_pure|].
  apply keeps_within_bind; [apply keeps_ensure_tessdata_prefix|]. intros _.
  apply keeps_within_bind; [by apply keeps_open_document|]. intros doc.
  apply keeps_within_bind.
  { exact (keeps_to_markdown_call X _ _ doc
             (_p4llm_kwargs true use_ocr header footer) eq_refl). }
  intros pages_data.
  apply keeps_within_bind; [apply keeps_mkdir_exist_ok; [done|by left]|]. intros _.
  apply keeps_for_each. intros [] [i pd]. apply keeps_write_page.
  - by intros ->.
  - intros j text. by exists j.
Qed.

(** The page files written so far are those of the first pages. *)
Definition first_pages_written (dir : Path) (w w' : World) : Prop :=
  exists n,
    map fst (writes (log w'))
    = map fst (writes (log w)) ++ map (fun i => joinpath dir (page_name i)) (seq 0 n).

Definition same_writes (w w' : World) : Prop :=
  map fst (writes (log w')) = map fst (writes (log w)).

Lemma keeps_same_writes {A} (c : M A) :
  keeps (within no_write_event (fun _ => True)) c -> keeps same_writes c.
Proof.
  intros H w. destruct (H w) as ((evs & L & F) & _). unfold same_writes.
  by rewrite L, writes_app, (writes_none evs F), app_nil_r.
Qed.

Lemma chunked_conversion_writes X pdf_path use_ocr header footer include_tables :
  keeps (first_pages_written (pages_dir (parse_path pdf_path)))
    (convert_with_page_chunks X pdf_path use_ocr header footer include_tables).
Proof.
  set (dir := pages_dir (parse_path pdf_path)).
  assert (forall w, first_pages_written dir w w) as Hrefl.
  { intros w. exists 0%nat. cbn [seq map]. by rewrite app_nil_r. }
  assert (forall w1 w2 w3, same_writes w1 w2 -> first_pages_written dir w2 w3 ->
                           first_pages_written dir w1 w3) as Htrans.
  { intros w1 w2 w3 H1 [n H2]. exists n. by rewrite H2, H1. }
  unfold convert_with_page_chunks. fold (pages_dir (parse_path pdf_path)). fold dir.
  apply (keeps_bind same_writes (first_pages_written dir)); [done|done| |].
  { apply keeps_same_writes. by apply keeps_within_pure. }
  intros found. destruct (negb found); [by apply keeps_pure|].
  apply (keeps_bind same_writes (first_pages_written dir)); [done|done| |].
  { apply keeps_same_writes, keeps_ensure_tessdata_prefix. }
  intros _.
  apply (keeps_bind same_writes (first_pages_written dir)); [done|done| |].
  { apply keeps_same_writes. by apply keeps_open_document. }
  intros doc.
  apply (keeps_bind same_writes (first_pages_written dir)); [done|done| |].
  { apply keeps_same_writes.
    exact (keeps_to_markdown_call X _ _ doc
             (_p4llm_kwargs true use_ocr header footer) eq_refl). }
  intros pages_data.
  apply (keeps_bind same_writes (first_pages_written dir)); [done|done| |].
  { apply keeps_same_writes. by apply keeps_mkdir_exist_ok. }
  intros _ w.
  destruct (write_pages_writes doc dir include_tables pages_data 0 w)
    as (n & _ & H & _).
  by exists n.
Qed.

(** X9. What a run of [convert_with_page_chunks] can do, whether it
    returns or raises: it opens nothing but the input, calls the renderer
    with the keyword arguments built from its flags, calls the table
    detector only when tables are included, and creates no directory but
    the one named after the stem of the input; its calls of [write_text]
    are on [page_001.md], [page_002.md] and so on inside that directory, in
    this order and with no page left out before the last one; no path but
    those of that directory and of page files inside it ever changes, so
    the input is never modified; and no environment variable but
    [TESSDATA_PREFIX] changes. *)
Theorem chunked_conversion_footprint :
  forall (X : Extern) (pdf_path : str) (use_ocr header footer include_tables : bool)
         (w : World),
    exists (evs : list event) (n : nat),
      log (convert_with_page_chunks X pdf_path use_ocr header footer
             include_tables w).2 = log w ++ evs
      /\ Forall (chunk_event (parse_path pdf_path)
                   (_p4llm_kwargs true use_ocr header footer) include_tables) evs
      /\ map fst (writes evs)
         = map (fun i => joinpath (pages_dir (parse_path pdf_path)) (page_name i))
             (seq 0 n)
      /\ (forall p,
            p <> pages_dir (parse_path pdf_path) ->
            (forall i, p <> joinpath (pages_dir (parse_path pdf_path)) (page_name i)) ->
            fs (convert_with_page_chunks X pdf_path use_ocr header footer
                  include_tables w).2 !! p = fs w !! p)
      /\ fs (convert_with_page_chunks X pdf_path use_ocr header footer
               include_tables w).2 !! parse_path pdf_path
         = fs w !! parse_path pdf_path
      /\ (forall k, k <> "TESSDATA_PREFIX"%string ->
            environ (convert_with_page_chunks X pdf_path use_ocr header footer
                       include_tables w).2 !! k = environ w !! k).
Proof.
  intros X pdf_path use_ocr header footer include_tables w.
  destruct (chunked_conversion_keeps X pdf_path use_ocr header footer
              include_tables w) as ((evs & L & F) & Hf & He).
  destruct (chunked_conversion_writes X pdf_path use_ocr header footer
              include_tables w) as [n Hn].
  assert (forall p,
            p <> pages_dir (parse_path pdf_path) ->
            (forall i, p <> joinpath (pages_dir (parse_path pdf_path)) (page_name i)) ->
            fs (convert_with_page_chunks X pdf_path use_ocr header footer
                  include_tables w).2 !! p = fs w !! p) as Hframe.
  { intros p H1 H2. apply Hf. intros [->|[i ->]]; [done|by apply (H2 i)]. }
  exists evs, n. split; [done|]. split; [done|].
  split; [|split; [exact Hframe|split; [|exact He]]].
  - rewrite L, writes_app, map_app in Hn. by apply app_inv_head in Hn.
  - apply Hframe.
    + intros H. by apply (pages_dir_not_input pdf_path).
    + intros i H. by apply (page_file_not_input pdf_path i).
Qed.

(** ** The command line *)

(** The namespace [parse_args] returns. *)
Record Args := MkArgs {
  arg_pdf : str;
  arg_out : option str;
  arg_chunks : bool;
  arg_no_ocr : bool;
  arg_no_header : bool;
  arg_no_footer : bool;
  arg_no_tables : bool
}.

(** How [main] ends: it returns, or [sys.exit] raises [SystemExit]. *)
Inductive ending :=
  | Returned
  | SystemExit (code : Z).

(** [main] from the parsed arguments on: the lines after
    [args = parser.parse_args()], for the namespace [args] it returned.
    What [parse_args] does with a command line it refuses or with [--help],
    where it leaves through [sys.exit] by itself, is argparse's own and is
    not modelled. *)
Definition main (X : Extern) (args : Args) (w : World) : ending * World :=
  let use_ocr := negb (arg_no_ocr args) in
  let header := negb (arg_no_header args) in
  let footer := negb (arg_no_footer args) in
  let include_tables := negb (arg_no_tables args) in
  let '(r, w') :=
    attempt
      (if arg_chunks args then
         convert_with_page_chunks X (arg_pdf args) use_ocr header footer include_tables
       else
         convert_pdf_to_markdown X (arg_pdf args) (arg_out args)
           use_ocr header footer include_tables ;;
         mret tt) w in
  match r with
  | inr (inr _) => (Returned, w')
  | _ => (SystemExit 1, w')
  end.

Lemma main_chunks X args w :
  arg_chunks args = true ->
  main X args w
  = (match (convert_with_page_chunks X (arg_pdf args) (negb (arg_no_ocr args))
              (negb (arg_no_header args)) (negb (arg_no_footer args))
              (negb (arg_no_tables args)) w).1 with
     | inr _ => Returned
     | inl _ => SystemExit 1
     end,
     (convert_with_page_chunks X (arg_pdf args) (negb (arg_no_ocr args))
        (negb (arg_no_header args)) (negb (arg_no_footer args))
        (negb (arg_no_tables args)) w).2).
Proof.
  intros H. unfold main, attempt. rewrite H.
  by destruct (convert_with_page_chunks _ _ _ _ _ _ w) as [[e|[]] w'].
Qed.

Lemma main_whole X args w :
  arg_chunks args = false ->
  main X args w
  = (match (convert_pdf_to_markdown X (arg_pdf args) (arg_out args)
              (negb (arg_no_ocr args)) (negb (arg_no_header args))
              (negb (arg_no_footer args)) (negb (arg_no_tables args)) w).1 with
     | inr _ => Returned
     | inl _ => SystemExit 1
     end,
     (convert_pdf_to_markdown X (arg_pdf args) (arg_out args)
        (negb (arg_no_ocr args)) (negb (arg_no_header args))
        (negb (arg_no_footer args)) (negb (arg_no_tables args)) w).2).
Proof.
  intros H. unfold main, attempt. rewrite H, bind_run.
  by destruct (convert_pdf_to_markdown _ _ _ _ _ _ _ w) as [[e|out] w'].
Qed.

(** A chunked conversion that returns has opened and rendered the input,
    made the directory and gone through the whole loop. *)
Lemma convert_with_page_chunks_success X pdf_path use_ocr header footer
    include_tables w w' :
  convert_with_page_chunks X pdf_path use_ocr header footer include_tables w
    = (inr tt, w') ->
  exists bytes doc (pages_data : list page_dict) w0 w1,
    fs w !! parse_path pdf_path = Some (File bytes)
    /\ pymupdf_open X (parse_path pdf_path) bytes = inr doc
    /\ pymupdf4llm_to_markdown X doc (_p4llm_kwargs true use_ocr header footer)
       = inr pages_data
    /\ mkdir_exist_ok (pages_dir (parse_path pdf_path)) w0 = (inr tt, w1)
    /\ for_each (write_page doc (pages_dir (parse_path pdf_path)) include_tables)
         (enumerate pages_data 0) tt w1 = (inr tt, w').
Proof.
  unfold convert_with_page_chunks. fold (pages_dir (parse_path pdf_path)).
  rewrite bind_run. unfold exists_.
  destruct (fs w !! parse_path pdf_path) as [n|] eqn:Hf.
  2:{ rewrite bool_decide_eq_false_2 by (intros [? ?]; done). done. }
  rewrite bool_decide_eq_true_2 by eauto. cbn [negb]. rewrite bind_run.
  destruct (ensure_tessdata_prefix_run X w) as [env ->].
  rewrite bind_run. unfold open_document at 1. rewrite bind_run.
  unfold emit at 1. cbn [fs add_log set_environ]. rewrite Hf.
  destruct n as [|bytes]; [done|].
  destruct (pymupdf_open X (parse_path pdf_path) bytes) as [e|doc] eqn:Ho; [done|].
  rewrite bind_run. unfold to_markdown_call at 1. rewrite bind_run.
  unfold emit at 1, lift at 1.
  destruct (pymupdf4llm_to_markdown X doc (_p4llm_kwargs true use_ocr header footer))
    as [e|pages_data] eqn:Hr; [done|].
  rewrite bind_run.
  destruct (mkdir_exist_ok _ _) as [[e|[]] w1] eqn:Hm; [done|].
  intros Hloop. exists bytes, doc, pages_data. eauto 10.
Qed.

(** X10. What [main] does with the namespace [parse_args] returned. An
    input path that does not exist makes it leave through [sys.exit(1)]
    with nothing opened or written, in both modes; so does, in single-file
    mode, an input path whose suffix is not [.pdf], whether the path exists
    or not. With [--chunks] the value of [--out] is not looked at. After a
    normal return in single-file mode the file system is the one before
    with the Markdown file written, which is [--out] when given and not
    empty; after a normal return with [--chunks] the input was a regular
    file the libraries opened and rendered, the directory of the page files
    exists and it holds one file for every record the renderer gave. *)
Theorem main_exit_status :
  forall (X : Extern) (args : Args) (w : World),
    (fs w !! parse_path (arg_pdf args) = None ->
     main X args w = (SystemExit 1, w))
    /\ (arg_chunks args = false ->
        lower (suffix (parse_path (arg_pdf args))) <> lit ".pdf" ->
        main X args w = (SystemExit 1, w))
    /\ (arg_chunks args = true ->
        forall out,
          main X (MkArgs (arg_pdf args) out true (arg_no_ocr args)
                    (arg_no_header args) (arg_no_footer args) (arg_no_tables args)) w
          = main X args w)
    /\ (arg_chunks args = false ->
        (main X args w).1 = Returned ->
        exists (md_file : Path) (text : str),
          md_file
          = match arg_out args with
            | Some (c :: o) => parse_path (c :: o)
            | _ => MkPath (root (parse_path (arg_pdf args)))
                     (removelast (tail (parse_path (arg_pdf args)))
                      ++ [stem (parse_path (arg_pdf args)) ++ lit ".md"])
            end
          /\ fs (main X args w).2 = <[md_file := File (utf8 text)]> (fs w))
    /\ (arg_chunks args = true ->
        (main X args w).1 = Returned ->
        exists (bytes : list N) (doc : Document) (pages_data : list page_dict),
          fs w !! parse_path (arg_pdf args) = Some (File bytes)
          /\ pymupdf_open X (parse_path (arg_pdf args)) bytes = inr doc
          /\ pymupdf4llm_to_markdown X doc
               (_p4llm_kwargs true (negb (arg_no_ocr args))
                  (negb (arg_no_header args)) (negb (arg_no_footer args)))
             = inr pages_data
          /\ fs (main X args w).2 !! pages_dir (parse_path (arg_pdf args)) = Some Dir
          /\ forall i,
               (i < length pages_data)%nat ->
               exists text,
                 fs (main X args w).2
                   !! joinpath (pages_dir (parse_path (arg_pdf args))) (page_name i)
                 = Some (File (utf8 text))).
Proof.
  intros X args w. split; [|split; [|split; [|split]]].
  - intros Hf. destruct (arg_chunks args) eqn:Hc.
    + rewrite main_chunks by done.
      by rewrite convert_with_page_chunks_not_found.
    + rewrite main_whole by done.
      by rewrite convert_pdf_to_markdown_not_found.
  - intros Hc Hs. rewrite main_whole by done.
    destruct (fs w !! parse_path (arg_pdf args)) as [n|] eqn:Hf.
    + rewrite convert_pdf_to_markdown_wrong_type; [done|by rewrite Hf|done].
    + by rewrite convert_pdf_to_markdown_not_found.
  - intros Hc out. by rewrite !main_chunks.
  - intros Hc. rewrite main_whole by done. cbn [fst snd].
    destruct (convert_pdf_to_markdown _ _ _ _ _ _ _ w).1 as [e|out] eqn:Hout;
      [done|]. intros _.
    apply whole_conversion_output_aux in Hout
      as (md_file & text & Hmd & Hfs).
    by exists md_file, text.
  - intros Hc. rewrite main_chunks by done. cbn [fst snd].
    destruct (convert_with_page_chunks _ _ _ _ _ _ w) as [[e|[]] w'] eqn:E;
      [done|]. intros _. cbn [snd].
    apply convert_with_page_chunks_success in E
      as (bytes & doc & pages_data & w0 & w1 & Hf & Ho & Hr & Hm & Hloop).
    exists bytes, doc, pages_data. repeat (split; [done|]).
    apply mkdir_exist_ok_run in Hm as (_ & Hdir & _).
    apply write_pages_run in Hloop as (new & _ & _ & Hk & Hother).
    split.
    + rewrite Hother; [done|]. intros k _. apply dir_not_page_file.
    + intros i Hi.
      destruct (lookup_lt_is_Some_2 pages_data i) as [pd Hpd]; [lia|].
      destruct (Hk i pd Hpd) as (text & _ & _ & Hfs). by exists text.
Qed.

Lemma main_exit_status_witness :
  main sample_extern
    (MkArgs (lit "missing.pdf") None true false false false false) sample_world
  = (SystemExit 1, sample_world)
  /\ main sample_extern
       (MkArgs (lit "notes.txt") (Some (lit "out.md")) false false false false false)
       sample_world
     = (SystemExit 1, sample_world)
  /\ exists (md_file : Path) (text : str),
       md_file = parse_path (lit "out.md")
       /\ fs (main sample_extern
                (MkArgs (lit "report.pdf") (Some (lit "out.md"))
                   false false false false false) sample_world).2
          = <[md_file := File (utf8 text)]> (fs sample_world).
Proof.
  split; [|split].
  - apply (proj1 (main_exit_status sample_extern
                    (MkArgs (lit "missing.pdf") None true false false false false)
                    sample_world)).
    vm_compute. reflexivity.
  - apply (proj1 (proj2 (main_exit_status sample_extern
                           (MkArgs (lit "notes.txt") (Some (lit "out.md"))
                              false false false false false) sample_world))).
    + reflexivity.
    + vm_compute. discriminate.
  - apply (proj1 (proj2 (proj2 (proj2
             (main_exit_status sample_extern
                (MkArgs (lit "report.pdf") (Some (lit "out.md"))
                   false false false false false) sample_world))))).
    + reflexivity.
    + vm_compute. reflexivity.
Defined.

(** The calls a run of [main] can make. *)
Definition main_event (args : Args) (ev : event) : Prop :=
  match ev with
  | EvOpen p => p = parse_path (arg_pdf args)
  | EvToMarkdown kw =>
      kw = _p4llm_kwargs (arg_chunks args) (negb (arg_no_ocr args))
             (negb (arg_no_header args)) (negb (arg_no_footer args))
  | EvFindTables _ _ _ => arg_no_tables args = false
  | EvMkdir p =>
      arg_chunks args = true /\ p = pages_dir (parse_path (arg_pdf args))
  | EvWriteText p _ =>
      if arg_chunks args then
        exists i, p = joinpath (pages_dir (parse_path (arg_pdf args))) (page_name i)
      else resolve_md_file (parse_path (arg_pdf args)) (arg_out args) = inr p
  end.

Lemma main_keeps X args w :
  within (main_event args)
    (fun p => if arg_chunks args then
                p = pages_dir (parse_path (arg_pdf args))
                \/ exists i, p = joinpath (pages_dir (parse_path (arg_pdf args)))
                                   (page_name i)
              else resolve_md_file (parse_path (arg_pdf args)) (arg_out args) = inr p)
    w (main X args w).2.
Proof.
  destruct (arg_chunks args) eqn:Hc.
  - rewrite main_chunks by done. cbn [snd].
    eapply within_mono; [| |apply chunked_conversion_keeps]; [|done].
    intros [p|kw|pno strat kwargs|p|p text]; unfold main_event; cbn [chunk_event];
      rewrite ?Hc; try done.
    by destruct (arg_no_tables args).
  - rewrite main_whole by done. cbn [snd].
    eapply within_mono; [| |apply whole_conversion_keeps]; [|done].
    intros [p|kw|pno strat kwargs|p|p text]; unfold main_event; cbn [whole_event];
      rewrite ?Hc; try done.
    by destruct (arg_no_tables args).
Qed.

(** X11. Whatever the arguments and however [main] ends: the only file
    opened is the input; every call of the renderer has the page-chunks
    switch of [--chunks], OCR, headers and footers on unless [--no-ocr],
    [--no-header], [--no-footer] were given, and the writing and the
    embedding of images off; with [--no-tables] the table detector is never
    called; a directory is created only with [--chunks]; [write_text] is
    called on page files with [--chunks] and on the Markdown file without;
    and no environment variable but [TESSDATA_PREFIX] changes. *)
Theorem main_calls :
  forall (X : Extern) (args : Args) (w : World),
    exists evs,
      log (main X args w).2 = log w ++ evs
      /\ Forall (main_event args) evs
      /\ (forall kw,
            In (EvToMarkdown kw) evs ->
            kw_page_chunks kw = arg_chunks args
            /\ kw_use_ocr kw = negb (arg_no_ocr args)
            /\ kw_header kw = negb (arg_no_header args)
            /\ kw_footer kw = negb (arg_no_footer args)
            /\ kw_write_images kw = false
            /\ kw_embed_images kw = false)
      /\ (arg_no_tables args = true ->
          forall pno strat kwargs, ~ In (EvFindTables pno strat kwargs) evs)
      /\ (arg_chunks args = false -> forall p, ~ In (EvMkdir p) evs)
      /\ (forall k, k <> "TESSDATA_PREFIX"%string ->
            environ (main X args w).2 !! k = environ w !! k).
Proof.
  intros X args w.
  destruct (main_keeps X args w) as ((evs & L & F) & _ & He).
  exists evs. split; [done|]. split; [done|].
  pose proof (proj1 (List.Forall_forall _ _) F) as HF.
  split; [|split; [|split; [|exact He]]].
  - intros kw Hin. apply HF in Hin. cbn [main_event] in Hin. by subst kw.
  - intros Hn pno strat kwargs Hin. apply HF in Hin. cbn [main_event] in Hin.
    congruence.
  - intros Hc p Hin. apply HF in Hin. cbn [main_event] in Hin.
    destruct Hin as [? _]. congruence.
Qed.

(** Runs of [main] on the sample files. *)
Example sample_main_runs :
  (main sample_extern
     (MkArgs (lit "report.pdf") None false false false false false) sample_world).1
  = Returned
  /\ (main sample_extern
        (MkArgs (lit "notes.txt") None false false false false false) sample_world)
     = (SystemExit 1, sample_world)
  /\ (main sample_extern
        (MkArgs (lit "notes.txt") None true false false false false) sample_world).1
     = Returned
  /\ (main sample_extern
        (MkArgs (lit "missing.pdf") None true false false false false) sample_world)
     = (SystemExit 1, sample_world)
  /\ log (main sample_extern
            (MkArgs (lit "plain.PDF") (Some (lit "out.md")) false true false true true)
            sample_world).2
     = [ EvOpen (parse_path (lit "plain.PDF"));
         EvToMarkdown (_p4llm_kwargs false false true false);
         EvWriteText (parse_path (lit "out.md")) (lit "Whole text" ++ NL) ].
Proof. repeat split; vm_compute; reflexivity. Qed.

(** ** The layout of the written text *)

Lemma rstrip_app_NL s : rstrip (s ++ NL) = rstrip s.
Proof. unfold rstrip, NL. rewrite rev_app_distr. reflexivity. Qed.

(** A stripped text followed by a line feed strips back to itself. *)
Lemma strip_stripped_NL s : strip s = s -> strip (s ++ NL) = s.
Proof.
  intros H. rewrite <- H at 2. unfold strip in *.
  destruct (lstrip_head s) as [E|(c & t & E & Hc)].
  - rewrite E in H. cbn in H. subst s. reflexivity.
  - rewrite E in H |- *. rewrite (rstrip_cons_nonspace c t Hc) in H.
    rewrite <- H at 1. cbn [app lstrip]. rewrite Hc.
    rewrite !(rstrip_cons_nonspace c _ Hc), rstrip_app_NL, rstrip_idem. done.
Qed.

(** The text [extract_tables_markdown] returns is empty, or a non-empty
    text without white space at either end followed by one line feed. *)
Lemma document_md_stripped acc :
  document_md (flat_map page_section acc) = []
  \/ strip (document_md (flat_map page_section acc)) <> []
     /\ document_md (flat_map page_section acc)
        = strip (document_md (flat_map page_section acc)) ++ NL.
Proof.
  destruct (flat_map page_section acc) as [|l out] eqn:E; [by left|]. right.
  destruct (flat_map_page_section_head _ _ _ E) as [number Hl].
  destruct (document_md_shape (l :: out)) as (rest & Hd & Hs); [done|by eauto|].
  rewrite Hd. rewrite (strip_stripped_NL _ Hs). split; [|done].
  change (lit "# Extracted tables (PyMuPDF Page.find_tables)")
    with (35%N :: List.tl (lit "# Extracted tables (PyMuPDF Page.find_tables)")).
  done.
Qed.

Lemma with_tables_form text t :
  t = [] \/ strip t <> [] /\ t = strip t ++ NL ->
  with_tables text t
  = match t with
    | [] => text
    | _ => rstrip text ++ NL ++ NL ++ strip t ++ NL ++ NL
    end
  /\ with_tables text (strip t)
     = match t with
       | [] => text
       | _ => rstrip text ++ NL ++ NL ++ strip t ++ NL
       end.
Proof.
  intros [->|[Hne E]]; [done|].
  destruct t as [|c t'] eqn:Et; [done|]. rewrite <- Et in *. split.
  - assert (with_tables text t = rstrip text ++ NL ++ NL ++ t ++ NL) as ->
      by (rewrite Et; reflexivity).
    by rewrite (app_assoc (strip t) NL NL), <- E.
  - by destruct (strip t).
Qed.

Lemma with_tables_stripped text acc :
  with_tables text (document_md (flat_map page_section acc))
  = match document_md (flat_map page_section acc) with
    | [] => text
    | _ => rstrip text ++ NL ++ NL
           ++ strip (document_md (flat_map page_section acc)) ++ NL ++ NL
    end
  /\ with_tables text (strip (document_md (flat_map page_section acc)))
     = match document_md (flat_map page_section acc) with
       | [] => text
       | _ => rstrip text ++ NL ++ NL
              ++ strip (document_md (flat_map page_section acc)) ++ NL
       end.
Proof. apply with_tables_form, document_md_stripped. Qed.

(** X12. The text handed to [write_text] when tables are included. By
    the whole-document conversion: the rendered text as it is when
    [extract_tables_markdown] returns the empty string for the document,
    else the rendered text without its trailing white space, an empty line,
    the tables section, and an empty line at the end. By the chunked
    conversion, for page [i]: the text of the record as it is when
    [extract_tables_markdown] returns the empty string for page [i] alone,
    else that text without its trailing white space, an empty line, and the
    tables section of the page with a single line feed at the end. *)
Theorem written_text_layout :
  forall (X : Extern),
    (forall (pdf_path : str) (output_path : option str) (use_ocr header footer : bool)
            (w : World) (out : str),
        (convert_pdf_to_markdown X pdf_path output_path use_ocr header footer
           true w).1 = inr out ->
        exists (bytes : list N) (doc : Document) (md_text tables_md : str)
               (md_file : Path),
          fs w !! parse_path pdf_path = Some (File bytes)
          /\ pymupdf_open X (parse_path pdf_path) bytes = inr doc
          /\ pymupdf4llm_to_markdown X doc (_p4llm_kwargs false use_ocr header footer)
             = inr md_text
          /\ (forall w0, (extract_tables_markdown doc None w0).1 = inr tables_md)
          /\ writes (log (convert_pdf_to_markdown X pdf_path output_path use_ocr
                            header footer true w).2)
             = writes (log w)
               ++ [(md_file,
                    match tables_md with
                    | [] => md_text
                    | _ => rstrip md_text ++ NL ++ NL ++ strip tables_md ++ NL ++ NL
                    end)]
          /\ (tables_md <> [] -> strip tables_md <> []))
    /\
    (forall (doc : Document) (output_dir : Path) (i : nat) (page_dict : page_dict)
            (w w' : World),
        write_page doc output_dir true tt (i, page_dict) w = (inr tt, w') ->
        exists tables_md : str,
          (forall w0, (extract_tables_markdown doc (Some [Z.of_nat i]) w0).1
                      = inr tables_md)
          /\ writes (log w')
             = writes (log w)
               ++ [(joinpath output_dir (page_name i),
                    match tables_md with
                    | [] => default [] (page_dict !! "text"%string)
                    | _ => rstrip (default [] (page_dict !! "text"%string))
                           ++ NL ++ NL ++ strip tables_md ++ NL
                    end)]
          /\ (tables_md <> [] -> strip tables_md <> [])).
Proof.
  intros X. split.
  - intros pdf_path output_path use_ocr header footer w out H.
    apply convert_pdf_to_markdown_success in H
      as (bytes & doc & md & file & env & Hf & Hs & Ho & Hr & Hmd & -> & E & Hle & _).
    exists bytes, doc, md,
      (document_md
         (flat_map page_section (accepted (loaded doc (pages_iter doc None)) []))),
      file.
    repeat (split; [done|]).
    split; [intros w0; by rewrite extract_tables_markdown_run, Hle|].
    split.
    + rewrite E. cbn [snd log whole_calls whole_text].
      rewrite !writes_app, writes_detector_calls.
      cbn [writes flat_map app].
      by rewrite (proj1 (with_tables_stripped md _)).
    + by destruct (document_md_stripped
                     (accepted (loaded doc (pages_iter doc None)) [])) as [->|[? _]].
  - intros doc dir i pd w w' H.
    apply write_page_run in H as (text & (page & Hg & ->) & Hw & _).
    exists (page_tables_md page (Z.of_nat i)).
    split; [intros w0; by rewrite extract_single_page, Hg|].
    unfold page_tables_md, chunk_text in *.
    rewrite <- (app_nil_r (page_section _)) in *.
    change (page_section (Z.of_nat i, (scan_page page []).2) ++ [])
      with (flat_map page_section [(Z.of_nat i, (scan_page page []).2)]) in *.
    split.
    + by rewrite Hw, (proj2 (with_tables_stripped _ _)).
    + by destruct (document_md_stripped [(Z.of_nat i, (scan_page page []).2)])
        as [->|[? _]].
Qed.

(** ** A page that cannot be loaded *)

Lemma load_error_first doc before pno e after :
  (forall p, In p before -> exists page, getitem doc p = inr page) ->
  getitem doc pno = inl e ->
  load_error doc (before ++ pno :: after) = Some e
  /\ reached doc (before ++ pno :: after) = before.
Proof.
  unfold reached. intros Hb He. induction before as [|p before IH]; cbn [app].
  - cbn [load_error loaded]. by rewrite He.
  - destruct (Hb p) as [page Hp]; [by left|].
    cbn [load_error loaded]. rewrite Hp. cbn [map fst].
    destruct IH as [-> ->]; [|done]. intros q Hq. apply Hb. by right.
Qed.

(** X13. [extract_tables_markdown] returns a text exactly when every
    page number it is given can be loaded from the document: no failure of
    the detector or of the export of a table makes it raise. When [doc[pno]]
    raises for a page number and all the page numbers before it load, the
    call raises that same exception, having called the detector for the
    pages before and for none from [pno] on. In every case it leaves the
    files and the environment alone. *)
Theorem extract_tables_markdown_page_error :
  forall (doc : Document) (page_numbers_0_based : option (list Z)) (w : World),
    ((exists text,
         (extract_tables_markdown doc page_numbers_0_based w).1 = inr text)
     <-> (forall pno, In pno (pages_iter doc page_numbers_0_based) ->
            exists page, getitem doc pno = inr page))
    /\ (forall before pno e after,
          pages_iter doc page_numbers_0_based = before ++ pno :: after ->
          (forall p, In p before -> exists page, getitem doc p = inr page) ->
          getitem doc pno = inl e ->
          extract_tables_markdown doc page_numbers_0_based w
          = (inl e, add_log (detector_calls before) w))
    /\ fs (extract_tables_markdown doc page_numbers_0_based w).2 = fs w
    /\ environ (extract_tables_markdown doc page_numbers_0_based w).2 = environ w.
Proof.
  intros doc pns w. rewrite extract_tables_markdown_run. cbn [fst snd].
  split; [|split; [|done]].
  - split.
    + intros [text H] pno Hin.
      destruct (load_error doc (pages_iter doc pns)) as [e|] eqn:E; [done|].
      destruct (getitem doc pno) as [e|page] eqn:Hg; [|eauto].
      exfalso. clear H. revert E Hin. generalize (pages_iter doc pns).
      intros pages. induction pages as [|p pages IH]; cbn [load_error]; [done|].
      destruct (getitem doc p) as [e'|pg] eqn:Hp; [done|].
      intros E [->|Hin]; [congruence|by apply IH].
    + intros H. apply load_error_None in H as [-> _]. eauto.
  - intros before pno e after Hp Hb He.
    destruct (load_error_first doc before pno e after Hb He) as [H1 H2].
    by rewrite Hp, H1, H2.
Qed.

(** A page number outside the sample document: the call raises what the
    document raised, after the detector calls for page 0 alone. *)
Example sample_page_error :
  extract_tables_markdown sample_doc (Some [0; 5; 1]%Z) (MkWorld ∅ ∅ [])
  = (inl (Raise LibraryError (lit "page not in document")),
     MkWorld ∅ ∅ (detector_calls [0%Z])).
Proof. vm_compute. reflexivity. Qed.

Lemma extract_tables_markdown_page_error_witness :
  extract_tables_markdown sample_doc (Some [0; 5; 1]%Z) sample_world
  = (inl (Raise LibraryError (lit "page not in document")),
     add_log (detector_calls [0%Z]) sample_world).
Proof.
  apply (proj1 (proj2 (extract_tables_markdown_page_error sample_doc
                         (Some [0; 5; 1]%Z) sample_world))
           [0%Z] 5%Z (Raise LibraryError (lit "page not in document")) [1%Z]).
  - reflexivity.
  - intros p [<-|[]]. by exists sample_page1.
  - reflexivity.
Defined.

Lemma written_text_layout_witness :
  exists (md_file : Path) (tables_md : str),
    tables_md <> []
    /\ (extract_tables_markdown sample_doc None sample_world).1 = inr tables_md
    /\ writes (log (convert_pdf_to_markdown sample_extern (lit "report.pdf") None
                      true true true true sample_world).2)
       = writes (log sample_world)
         ++ [(md_file,
              rstrip (lit "Whole text" ++ NL) ++ NL ++ NL
              ++ strip tables_md ++ NL ++ NL)].
Proof.
  destruct (proj1 (written_text_layout sample_extern) (lit "report.pdf") None
              true true true sample_world (lit "report.md"))
    as (bytes & doc & md_text & tables_md & md_file & Hf & Ho & Hr & Ht & Hw & _).
  - vm_compute. reflexivity.
  - assert (bytes = [1%N]) as -> by (vm_compute in Hf; congruence).
    assert (doc = sample_doc) as -> by (cbn in Ho; congruence).
    assert (md_text = lit "Whole text" ++ NL) as ->
      by (change (@inr exn str (lit "Whole text" ++ NL) = inr md_text) in Hr;
          congruence).
    exists md_file, tables_md.
    assert (tables_md <> []) as Hne.
    { specialize (Ht (MkWorld ∅ ∅ [])). rewrite sample_whole_document_output in Ht.
      injection Ht as <-. vm_compute. discriminate. }
    split; [exact Hne|]. split; [apply Ht|].
    rewrite Hw. by destruct tables_md.
Defined.
